(** * OwlBoard Chat_Service: connection registry, broadcast engine,
      protocol handler and the Redis-backed message and presence stores.

    The development is a shallow embedding of [src/models.py],
    [src/websocket_manager.py] and [src/routes/chat_routes.py].  Python
    objects are values of [pyval]; the process state (the two registry dicts
    of [ConnectionManager], the Redis database, the transports, the log) is
    the record [world]; coroutines are computations in the state-and-exception
    monad [M].  Functions of the Python and redis-py libraries that the
    program calls but does not define are fields of the class [PyRuntime]. *)

From Stdlib Require Import ZArith String Ascii List Lia.
From Stdlib Require Import Uint63 Floats.PrimFloat Floats.FloatOps DecimalString.
From stdpp Require Import gmap strings list fin_maps.

Local Open Scope string_scope.
Local Open Scope Z_scope.
Local Open Scope list_scope.
Set Warnings "-register-all,-clear-no-such-hyp".

(** ** Insertion-ordered dictionaries

    A Python [dict] keeps its keys in insertion order; assigning to a key
    that is present replaces the value in place. *)

(** Keys are compared with a boolean equality that computes. *)
Class KeyEq (K : Type) := {
  key_eqb : K -> K -> bool;
  key_eqb_spec : forall a b, reflect (a = b) (key_eqb a b)
}.

#[global] Instance string_KeyEq : KeyEq string :=
  {| key_eqb := String.eqb; key_eqb_spec := String.eqb_spec |}.
#[global] Instance nat_KeyEq : KeyEq nat :=
  {| key_eqb := Nat.eqb; key_eqb_spec := Nat.eqb_spec |}.

Module PyDict.
Section Dict.
Context {K V : Type} `{KeyEq K}.

Fixpoint get (k : K) (d : list (K * V)) : option V :=
  match d with
  | [] => None
  | (k', v) :: r => if key_eqb k k' then Some v else get k r
  end.

Definition contains (k : K) (d : list (K * V)) : bool :=
  match get k d with Some _ => true | None => false end.

Fixpoint set (k : K) (v : V) (d : list (K * V)) : list (K * V) :=
  match d with
  | [] => [(k, v)]
  | (k', v') :: r =>
      if key_eqb k k' then (k, v) :: r else (k', v') :: set k v r
  end.

(** [del d[k]]: the entry with key [k] goes (a key occurs once in a
    dictionary built with [set]). *)
Fixpoint del (k : K) (d : list (K * V)) : list (K * V) :=
  match d with
  | [] => []
  | (k', v') :: r =>
      if key_eqb k k' then del k r else (k', v') :: del k r
  end.

(** [d.get(k, default)] *)
Definition get_default (k : K) (default : V) (d : list (K * V)) : V :=
  match get k d with Some v => v | None => default end.
End Dict.
End PyDict.

Abbreviation pydict K V := (list (K * V)) (only parsing).

(** ** Python objects *)

(** A [datetime] of this program is always timezone-aware and in UTC
    ([datetime.now(timezone.utc)], [fromtimestamp(_, tz=timezone.utc)]); it
    is represented by its number of microseconds since the epoch. *)
Definition datetime := Z.

Inductive MessageType := TEXT | IMAGE | FILE | SYSTEM.
Inductive UserStatus := ONLINE | OFFLINE | AWAY.

Inductive pyval :=
| PNone
| PBool (b : bool)
| PInt (n : Z)
| PFloat (f : float)
| PStr (s : string)
| PList (l : list pyval)
| PDict (d : list (string * pyval))
| PDatetime (t : datetime)
| PMessageType (t : MessageType)
| PUserStatus (s : UserStatus).

(** A number handed to a library function that accepts [int] or [float]. *)
Inductive pynum := NInt (n : Z) | NFloat (f : float).

(** Truth value of an object, as tested by [if x], [not x] and [x or y]. *)
Definition truthy (v : pyval) : bool :=
  match v with
  | PNone => false
  | PBool b => b
  | PInt n => negb (n =? 0)
  | PFloat f => negb (PrimFloat.eqb f 0%float)
  | PStr s => negb (String.eqb s "")
  | PList l => match l with [] => false | _ => true end
  | PDict d => match d with [] => false | _ => true end
  | PDatetime _ => true
  | PMessageType _ => true
  | PUserStatus _ => true
  end.

(** [v == s] for a string literal [s] *)
Definition eq_str (v : pyval) (s : string) : bool :=
  match v with PStr s' => String.eqb s' s | _ => false end.

(** [isinstance(v, (int, float))]; [bool] is a subclass of [int]. *)
Definition as_number (v : pyval) : option pynum :=
  match v with
  | PInt n => Some (NInt n)
  | PBool b => Some (NInt (if b then 1 else 0))
  | PFloat f => Some (NFloat f)
  | _ => None
  end.

(** *** [str.strip()] *)

(** Characters for which [str.isspace] holds (code points below 256 that
    a frame of this service can carry as one character: the ASCII ones). *)
Definition is_space (a : ascii) : bool :=
  let n := nat_of_ascii a in
  ((9 <=? n) && (n <=? 13) || (28 <=? n) && (n <=? 32))%nat.

Fixpoint lstrip (s : string) : string :=
  match s with
  | EmptyString => EmptyString
  | String a r => if is_space a then lstrip r else s
  end.

Fixpoint rstrip (s : string) : string :=
  match s with
  | EmptyString => EmptyString
  | String a r =>
      match rstrip r with
      | EmptyString => if is_space a then EmptyString else String a EmptyString
      | r' => String a r'
      end
  end.

Definition strip (s : string) : string := rstrip (lstrip s).

(** [len(s)] *)
Definition len (s : string) : Z := Z.of_nat (String.length s).

(** ** Exceptions and outcomes *)

Inductive exn :=
| AttributeError | KeyError | TypeError | ValueError | OverflowError
| ValidationError          (* pydantic *)
| JSONDecodeError          (* json.loads *)
| DataError | ResponseError | ConnectionError   (* redis-py *)
| RuntimeError             (* send on a closed transport *)
| WebSocketDisconnect
| HTTPException (status : Z).

(** [Stuck] is not a Python outcome: it marks a recursion that ran out of
    the fuel the model gives it.  [disconnect_fuel_enough] shows that it never
    occurs in the functions defined below. *)
Inductive outcome (A : Type) :=
| Ret (a : A)
| Raise (e : exn)
| Stuck.
Arguments Ret {A} a.
Arguments Raise {A} e.
Arguments Stuck {A}.

(** ** Library functions the program calls *)

Class PyRuntime := {
  (** [json.loads]: [None] when it raises [JSONDecodeError] *)
  json_loads : string -> option pyval;
  (** [json.dumps] on the dictionaries this program builds *)
  json_dumps : pyval -> string;
  (** [datetime.timestamp()] *)
  dt_timestamp : datetime -> float;
  (** [datetime.fromtimestamp(x, tz=timezone.utc)]; [None] when it raises *)
  dt_fromtimestamp : pynum -> option datetime;
  (** [datetime.isoformat()] *)
  dt_isoformat : datetime -> string;
  (** how redis-py writes a [float] and an [int] field value *)
  float_repr : float -> string;
  int_repr : Z -> string;
  (** pydantic's validation of a [str] or a number given for a [datetime]
      field, and of a [str] given for an [int] field *)
  pydantic_datetime_of_str : string -> option datetime;
  pydantic_datetime_of_num : pynum -> option datetime;
  pydantic_int_of_str : string -> option Z;
  (** the n-th value drawn from [uuid.uuid4()], as [str] *)
  uuid4_str : nat -> string;
  (** [str(id(websocket))] *)
  id_str : nat -> string
}.

(** ** The Redis database

    One key space; a key holds a hash, a list or a set.  Redis removes a
    list or a set that becomes empty.  [ttl] records the time to live last
    set on a key with EXPIRE; the removal of a key whose time to live elapsed
    is a step of the environment ([expire_now]). *)

Inductive rvalue :=
| RHash (h : gmap string string)
| RList (l : list string)
| RSet (s : gset string).

Record store := mkStore {
  db : gmap string rvalue;
  ttl : gmap string Z
}.

Definition rresult (A : Type) : Type := exn + (A * store).

Definition store_del (key : string) (s : store) : store :=
  {| db := delete key (db s); ttl := delete key (ttl s) |}.

Definition store_put (key : string) (v : rvalue) (s : store) : store :=
  {| db := <[key := v]> (db s); ttl := ttl s |}.

(** The elements [start..stop] (inclusive, negative indices counted from
    the tail) of a list, as LRANGE and LTRIM select them. *)
Definition lslice (l : list string) (start stop : Z) : list string :=
  let llen := Z.of_nat (length l) in
  let start := if start <? 0 then llen + start else start in
  let stop := if stop <? 0 then llen + stop else stop in
  let start := if start <? 0 then 0 else start in
  if (stop <? start) || (llen <=? start) then []
  else
    let stop := if llen <=? stop then llen - 1 else stop in
    take (Z.to_nat (stop - start + 1)) (drop (Z.to_nat start) l).

(** The fields of a hash after HSET with the pairs of [mapping], in order. *)
Definition hash_write (h : gmap string string)
    (mapping : list (string * string)) : gmap string string :=
  foldl (fun h kv => <[kv.1 := kv.2]> h) h mapping.

Module Redis.

(** HSET key field value [field value ...]; redis-py refuses an empty
    mapping. *)
Definition hset (key : string) (mapping : list (string * string))
  : store -> rresult unit := fun s =>
  match mapping with
  | [] => inl DataError
  | _ =>
      match db s !! key with
      | None => inr (tt, store_put key (RHash (hash_write ∅ mapping)) s)
      | Some (RHash h) => inr (tt, store_put key (RHash (hash_write h mapping)) s)
      | Some _ => inl ResponseError
      end
  end.

Definition hgetall (key : string) : store -> rresult (gmap string string) :=
  fun s =>
  match db s !! key with
  | None => inr (∅, s)
  | Some (RHash h) => inr (h, s)
  | Some _ => inl ResponseError
  end.

Definition rpush (key value : string) : store -> rresult unit := fun s =>
  match db s !! key with
  | None => inr (tt, store_put key (RList [value]) s)
  | Some (RList l) => inr (tt, store_put key (RList (l ++ [value])) s)
  | Some _ => inl ResponseError
  end.

Definition ltrim (key : string) (start stop : Z) : store -> rresult unit :=
  fun s =>
  match db s !! key with
  | None => inr (tt, s)
  | Some (RList l) =>
      match lslice l start stop with
      | [] => inr (tt, store_del key s)
      | l' => inr (tt, store_put key (RList l') s)
      end
  | Some _ => inl ResponseError
  end.

Definition lrange (key : string) (start stop : Z)
  : store -> rresult (list string) := fun s =>
  match db s !! key with
  | None => inr ([], s)
  | Some (RList l) => inr (lslice l start stop, s)
  | Some _ => inl ResponseError
  end.

Definition sadd (key member : string) : store -> rresult unit := fun s =>
  match db s !! key with
  | None => inr (tt, store_put key (RSet {[member]}) s)
  | Some (RSet m) => inr (tt, store_put key (RSet ({[member]} ∪ m)) s)
  | Some _ => inl ResponseError
  end.

Definition srem (key member : string) : store -> rresult unit := fun s =>
  match db s !! key with
  | None => inr (tt, s)
  | Some (RSet m) =>
      let m' := m ∖ {[member]} in
      if decide (m' = ∅) then inr (tt, store_del key s)
      else inr (tt, store_put key (RSet m') s)
  | Some _ => inl ResponseError
  end.

Definition smembers (key : string) : store -> rresult (gset string) :=
  fun s =>
  match db s !! key with
  | None => inr (∅, s)
  | Some (RSet m) => inr (m, s)
  | Some _ => inl ResponseError
  end.

(** EXPIRE key seconds *)
Definition expire (key : string) (seconds : Z) : store -> rresult unit :=
  fun s =>
  match db s !! key with
  | None => inr (tt, s)
  | Some _ => inr (tt, {| db := db s; ttl := <[key := seconds]> (ttl s) |})
  end.

(** DEL key: the number of keys removed *)
Definition delete (key : string) : store -> rresult Z := fun s =>
  match db s !! key with
  | None => inr (0, s)
  | Some _ => inr (1, store_del key s)
  end.

Definition ping : store -> rresult unit := fun s => inr (tt, s).

End Redis.

(** The environment's step: Redis drops a key whose time to live elapsed. *)
Definition expire_now (key : string) (s : store) : store := store_del key s.

(** ** The state of the process and its environment *)

(** A [WebSocket] object, by identity. *)
Definition ws := nat.

(** The value of [connection_info[websocket]]: the dictionary with the keys
    ["dashboard_id"], ["user_id"] and ["username"]. *)
Record conn_data := mkConn {
  cd_dashboard_id : string;
  cd_user_id : string;
  cd_username : string
}.

Inductive level := INFO | WARNING | ERROR.

(** The fields of [config.Settings] that the modelled functions read. *)
Record Settings := mkSettings {
  max_message_length : Z;
  message_history_limit : Z
}.

Record world := mkWorld {
  settings : Settings;
  (** [ConnectionManager.active_connections]: room -> user -> handle *)
  active_connections : pydict string (pydict string ws);
  (** [ConnectionManager.connection_info]: handle -> room, user, name *)
  connection_info : pydict ws conn_data;
  (** [database.client is not None] *)
  redis_client : bool;
  redis : store;
  (** For each coming Redis round trip, whether the connection fails
      (none fails once the list is used up). *)
  redis_faults : list bool;
  (** Transports on which [accept], [send_text] and [close] raise. *)
  closed : gset ws;
  (** Frames handed to a transport, oldest first. *)
  sent : list (ws * string);
  log_records : list (level * string);
  (** The reading of the wall clock and the number of UUIDs drawn. *)
  now : datetime;
  uuid_drawn : nat
}.

Definition set_active (a : pydict string (pydict string ws)) (w : world) :=
  mkWorld (settings w) a (connection_info w) (redis_client w) (redis w)
          (redis_faults w) (closed w) (sent w) (log_records w) (now w)
          (uuid_drawn w).
Definition set_info (i : pydict ws conn_data) (w : world) :=
  mkWorld (settings w) (active_connections w) i (redis_client w) (redis w)
          (redis_faults w) (closed w) (sent w) (log_records w) (now w)
          (uuid_drawn w).
Definition set_client (c : bool) (w : world) :=
  mkWorld (settings w) (active_connections w) (connection_info w) c (redis w)
          (redis_faults w) (closed w) (sent w) (log_records w) (now w)
          (uuid_drawn w).
Definition set_redis (s : store) (w : world) :=
  mkWorld (settings w) (active_connections w) (connection_info w)
          (redis_client w) s (redis_faults w) (closed w) (sent w)
          (log_records w) (now w) (uuid_drawn w).
Definition set_faults (f : list bool) (w : world) :=
  mkWorld (settings w) (active_connections w) (connection_info w)
          (redis_client w) (redis w) f (closed w) (sent w) (log_records w)
          (now w) (uuid_drawn w).
Definition set_closed (c : gset ws) (w : world) :=
  mkWorld (settings w) (active_connections w) (connection_info w)
          (redis_client w) (redis w) (redis_faults w) c (sent w)
          (log_records w) (now w) (uuid_drawn w).
Definition set_sent (s : list (ws * string)) (w : world) :=
  mkWorld (settings w) (active_connections w) (connection_info w)
          (redis_client w) (redis w) (redis_faults w) (closed w) s
          (log_records w) (now w) (uuid_drawn w).
Definition set_log (l : list (level * string)) (w : world) :=
  mkWorld (settings w) (active_connections w) (connection_info w)
          (redis_client w) (redis w) (redis_faults w) (closed w) (sent w) l
          (now w) (uuid_drawn w).
Definition set_uuid_drawn (n : nat) (w : world) :=
  mkWorld (settings w) (active_connections w) (connection_info w)
          (redis_client w) (redis w) (redis_faults w) (closed w) (sent w)
          (log_records w) (now w) n.

(** ** Coroutines: state and exceptions *)

Definition M (A : Type) : Type := world -> outcome A * world.

#[global] Instance M_ret : MRet M := fun A a w => (Ret a, w).
#[global] Instance M_bind : MBind M := fun A B f m w =>
  match m w with
  | (Ret a, w') => f a w'
  | (Raise e, w') => (Raise e, w')
  | (Stuck, w') => (Stuck, w')
  end.

Definition raise {A} (e : exn) : M A := fun w => (Raise e, w).
Definition stuck {A} : M A := fun w => (Stuck, w).

(** [try: body  except Exception as e: handler e] *)
Definition try_except {A} (body : M A) (handler : exn -> M A) : M A :=
  fun w =>
  match body w with
  | (Raise e, w') => handler e w'
  | r => r
  end.

Definition get_world : M world := fun w => (Ret w, w).
Definition modify (f : world -> world) : M unit := fun w => (Ret tt, f w).

(** [for x in xs: body x] *)
Fixpoint for_each {A} (xs : list A) (body : A -> M unit) : M unit :=
  match xs with
  | [] => mret tt
  | x :: r => body x ;; for_each r body
  end.

(** [logger.info], [logger.warning], [logger.error]; a record keeps the
    text of the call's format string up to its first interpolated value. *)
Definition logger (l : level) (msg : string) : M unit :=
  modify (fun w => set_log (log_records w ++ [(l, msg)]) w).

(** [datetime.now(timezone.utc)] and [str(uuid.uuid4())] *)
Definition datetime_now : M datetime := fun w => (Ret (now w), w).
Definition uuid4 `{PyRuntime} : M string := fun w =>
  (Ret (uuid4_str (uuid_drawn w)), set_uuid_drawn (S (uuid_drawn w)) w).

(** One Redis round trip. *)
Definition redis_call {A} (cmd : store -> rresult A) : M A := fun w =>
  let fault := match redis_faults w with b :: _ => b | [] => false end in
  let w := set_faults (tail (redis_faults w)) w in
  if fault then (Raise ConnectionError, w)
  else match cmd (redis w) with
       | inl e => (Raise e, w)
       | inr (a, s) => (Ret a, set_redis s w)
       end.

(** [database.connect_to_redis] and [database.get_redis] *)
Definition connect_to_redis : M unit :=
  try_except
    (modify (set_client true) ;;
     redis_call Redis.ping ;;
     logger INFO "Connected to Redis successfully")
    (fun e => logger ERROR "Failed to connect to Redis: " ;; raise e).

Definition get_redis : M unit :=
  w ← get_world;
  if redis_client w then mret tt else connect_to_redis.

(** [websocket.accept()], [websocket.send_text(frame)], [websocket.close()] *)
Definition ws_accept (h : ws) : M unit := fun w =>
  if decide (h ∈ closed w) then (Raise RuntimeError, w) else (Ret tt, w).

Definition ws_send_text (h : ws) (frame : string) : M unit := fun w =>
  if decide (h ∈ closed w) then (Raise RuntimeError, w)
  else (Ret tt, set_sent (sent w ++ [(h, frame)]) w).

Definition ws_close (h : ws) : M unit := fun w =>
  if decide (h ∈ closed w) then (Raise RuntimeError, w)
  else (Ret tt, set_closed ({[h]} ∪ closed w) w).

(** ** [src/models.py] *)

Definition MessageType_value (t : MessageType) : string :=
  match t with
  | TEXT => "text" | IMAGE => "image" | FILE => "file" | SYSTEM => "system"
  end.

Definition UserStatus_value (s : UserStatus) : string :=
  match s with
  | ONLINE => "online" | OFFLINE => "offline" | AWAY => "away"
  end.

(** [MessageType(v)] and [UserStatus(v)]: the member with that value. *)
Definition MessageType_of (v : pyval) : option MessageType :=
  match v with
  | PMessageType t => Some t
  | PStr s =>
      if String.eqb s "text" then Some TEXT
      else if String.eqb s "image" then Some IMAGE
      else if String.eqb s "file" then Some FILE
      else if String.eqb s "system" then Some SYSTEM
      else None
  | _ => None
  end.

Definition UserStatus_of (v : pyval) : option UserStatus :=
  match v with
  | PUserStatus t => Some t
  | PStr s =>
      if String.eqb s "online" then Some ONLINE
      else if String.eqb s "offline" then Some OFFLINE
      else if String.eqb s "away" then Some AWAY
      else None
  | _ => None
  end.

(** Validation of one keyword argument of a pydantic model.  The outer
    [None] is a validation error; for a field with a default the inner
    [None] says that the argument was not given.  For an [Optional] field
    the default is [None], so "not given" and "given as None" coincide. *)
Module Pydantic.
Section Fields.
Context `{PyRuntime}.

Definition required {A} (r : option (option A)) : option A :=
  match r with Some (Some a) => Some a | _ => None end.

Definition str_field (k : string) (data : pydict string pyval)
  : option (option string) :=
  match PyDict.get k data with
  | None => Some None
  | Some (PStr s) => Some (Some s)
  | Some _ => None
  end.

Definition optional_str_field (k : string) (data : pydict string pyval)
  : option (option string) :=
  match PyDict.get k data with
  | None | Some PNone => Some None
  | Some (PStr s) => Some (Some s)
  | Some _ => None
  end.

Definition datetime_of (v : pyval) : option datetime :=
  match v with
  | PDatetime t => Some t
  | PStr s => pydantic_datetime_of_str s
  | PInt n => pydantic_datetime_of_num (NInt n)
  | PFloat f => pydantic_datetime_of_num (NFloat f)
  | _ => None
  end.

Definition datetime_field (k : string) (data : pydict string pyval)
  : option (option datetime) :=
  match PyDict.get k data with
  | None => Some None
  | Some v => match datetime_of v with Some t => Some (Some t) | None => None end
  end.

Definition optional_datetime_field (k : string) (data : pydict string pyval)
  : option (option datetime) :=
  match PyDict.get k data with
  | None | Some PNone => Some None
  | Some v => match datetime_of v with Some t => Some (Some t) | None => None end
  end.

(** A [bool] field.  The models below are only built with the argument
    absent or already a [bool] ([from_dict] replaces it); of pydantic's
    other accepted spellings the integers 0 and 1 are kept. *)
Definition bool_field (k : string) (data : pydict string pyval)
  : option (option bool) :=
  match PyDict.get k data with
  | None => Some None
  | Some (PBool b) => Some (Some b)
  | Some (PInt 0) => Some (Some false)
  | Some (PInt 1) => Some (Some true)
  | Some _ => None
  end.

Definition int_field (k : string) (data : pydict string pyval)
  : option (option Z) :=
  match PyDict.get k data with
  | None => Some None
  | Some (PInt n) => Some (Some n)
  | Some (PStr s) =>
      match pydantic_int_of_str s with Some n => Some (Some n) | None => None end
  | Some _ => None
  end.

Definition message_type_field (k : string) (data : pydict string pyval)
  : option (option MessageType) :=
  match PyDict.get k data with
  | None => Some None
  | Some v => match MessageType_of v with Some t => Some (Some t) | None => None end
  end.

Definition status_field (k : string) (data : pydict string pyval)
  : option (option UserStatus) :=
  match PyDict.get k data with
  | None => Some None
  | Some v => match UserStatus_of v with Some t => Some (Some t) | None => None end
  end.

(** The value of a field: the argument, or else what the default factory
    returns. *)
Definition or_default {A} (given : option A) (factory : M A) : M A :=
  match given with Some a => mret a | None => factory end.
End Fields.
End Pydantic.

(** The conversion both [from_dict] methods apply to a timestamp entry:
    [if k in data and isinstance(data[k], (int, float)):
       data[k] = datetime.fromtimestamp(data[k], tz=timezone.utc)],
    for ["edited_at"] with the extra conjunct [data[k]] (its truth value). *)
Definition convert_timestamp `{PyRuntime} (k : string) (need_truthy : bool)
    (data : pydict string pyval) : M (pydict string pyval) :=
  match PyDict.get k data with
  | None => mret data
  | Some v =>
      if need_truthy && negb (truthy v) then mret data
      else match as_number v with
           | None => mret data
           | Some n =>
               match dt_fromtimestamp n with
               | Some t => mret (PyDict.set k (PDatetime t) data)
               | None => raise OverflowError
               end
           end
  end.

(** [if k in data: data[k] = data[k] == "1"] *)
Definition convert_flag (k : string) (data : pydict string pyval)
  : pydict string pyval :=
  match PyDict.get k data with
  | None => data
  | Some v =>
      PyDict.set k (PBool (eq_str v "1")) data
  end.

Module ChatMessage.
Record t := mk {
  id : string;
  dashboard_id : string;
  user_id : string;
  username : string;
  content : string;
  message_type : MessageType;
  timestamp : datetime;
  edited_at : option datetime;
  is_deleted : bool;
  reply_to : option string
}.

Section Methods.
Context `{PyRuntime}.

(** The constructor called with the entries of [data] as keyword
    arguments: pydantic validates every argument; [content] has
    [max_length=1000]; [id] and [timestamp] have default factories. *)
Definition cls (data : pydict string pyval) : M t :=
  let fields :=
    oid ← Pydantic.str_field "id" data;
    did ← Pydantic.required (Pydantic.str_field "dashboard_id" data);
    uid ← Pydantic.required (Pydantic.str_field "user_id" data);
    una ← Pydantic.required (Pydantic.str_field "username" data);
    con ← Pydantic.required (Pydantic.str_field "content" data);
    omt ← Pydantic.message_type_field "message_type" data;
    ots ← Pydantic.datetime_field "timestamp" data;
    oea ← Pydantic.optional_datetime_field "edited_at" data;
    odl ← Pydantic.bool_field "is_deleted" data;
    ort ← Pydantic.optional_str_field "reply_to" data;
    if 1000 <? len con then None
    else Some (oid, did, uid, una, con, omt, ots, oea, odl, ort) in
  match fields with
  | None => raise ValidationError
  | Some (oid, did, uid, una, con, omt, ots, oea, odl, ort) =>
      i ← Pydantic.or_default oid uuid4;
      ts ← Pydantic.or_default ots datetime_now;
      mret (mk i did uid una con (default TEXT omt) ts oea
               (default false odl) ort)
  end.

Definition to_dict (self : t) : pydict string pyval :=
  let data :=
    [ ("id", PStr (id self));
      ("dashboard_id", PStr (dashboard_id self));
      ("user_id", PStr (user_id self));
      ("username", PStr (username self));
      ("content", PStr (content self));
      ("message_type", PStr (MessageType_value (message_type self)));
      ("timestamp", PFloat (dt_timestamp (timestamp self)));
      ("is_deleted", PStr (if is_deleted self then "1" else "0")) ] in
  let data :=
    match edited_at self with
    | Some e => PyDict.set "edited_at" (PFloat (dt_timestamp e)) data
    | None => data
    end in
  match reply_to self with
  | Some r => PyDict.set "reply_to" (PStr r) data
  | None => data
  end.

Definition from_dict (data : pydict string pyval) : M t :=
  data ← convert_timestamp "timestamp" false data;
  data ← convert_timestamp "edited_at" true data;
  cls (convert_flag "is_deleted" data).

Definition get_redis_key (self : t) : string :=
  "message:" +:+ dashboard_id self +:+ ":" +:+ id self.
End Methods.
End ChatMessage.

Module ChatRoom.
Record t := mk {
  id : string;
  dashboard_id : string;
  name : string;
  description : option string;
  created_at : datetime;
  created_by : string;
  is_active : bool;
  max_users : Z
}.

Section Methods.
Context `{PyRuntime}.

Definition cls (data : pydict string pyval) : M t :=
  let fields :=
    oid ← Pydantic.str_field "id" data;
    did ← Pydantic.required (Pydantic.str_field "dashboard_id" data);
    nam ← Pydantic.required (Pydantic.str_field "name" data);
    des ← Pydantic.optional_str_field "description" data;
    oca ← Pydantic.datetime_field "created_at" data;
    cby ← Pydantic.required (Pydantic.str_field "created_by" data);
    oac ← Pydantic.bool_field "is_active" data;
    omu ← Pydantic.int_field "max_users" data;
    Some (oid, did, nam, des, oca, cby, oac, omu) in
  match fields with
  | None => raise ValidationError
  | Some (oid, did, nam, des, oca, cby, oac, omu) =>
      i ← Pydantic.or_default oid uuid4;
      ca ← Pydantic.or_default oca datetime_now;
      mret (mk i did nam des ca cby (default true oac) (default 100 omu))
  end.

Definition to_dict (self : t) : pydict string pyval :=
  let data :=
    [ ("id", PStr (id self));
      ("dashboard_id", PStr (dashboard_id self));
      ("name", PStr (name self));
      ("created_at", PFloat (dt_timestamp (created_at self)));
      ("created_by", PStr (created_by self));
      ("is_active", PStr (if is_active self then "1" else "0"));
      ("max_users", PInt (max_users self)) ] in
  match description self with
  | Some d => PyDict.set "description" (PStr d) data
  | None => data
  end.

Definition from_dict (data : pydict string pyval) : M t :=
  data ← convert_timestamp "created_at" false data;
  cls (convert_flag "is_active" data).

Definition get_redis_key (self : t) : string :=
  "room:" +:+ dashboard_id self.
End Methods.
End ChatRoom.

Module ConnectedUser.
Record t := mk {
  user_id : string;
  dashboard_id : string;
  username : string;
  status : UserStatus;
  connected_at : datetime;
  last_seen : datetime;
  socket_id : option string
}.

Section Methods.
Context `{PyRuntime}.

Definition cls (data : pydict string pyval) : M t :=
  let fields :=
    uid ← Pydantic.required (Pydantic.str_field "user_id" data);
    did ← Pydantic.required (Pydantic.str_field "dashboard_id" data);
    una ← Pydantic.required (Pydantic.str_field "username" data);
    ost ← Pydantic.status_field "status" data;
    oca ← Pydantic.datetime_field "connected_at" data;
    ols ← Pydantic.datetime_field "last_seen" data;
    sid ← Pydantic.optional_str_field "socket_id" data;
    Some (uid, did, una, ost, oca, ols, sid) in
  match fields with
  | None => raise ValidationError
  | Some (uid, did, una, ost, oca, ols, sid) =>
      ca ← Pydantic.or_default oca datetime_now;
      ls ← Pydantic.or_default ols datetime_now;
      mret (mk uid did una (default ONLINE ost) ca ls sid)
  end.

Definition to_dict (self : t) : pydict string pyval :=
  let data :=
    [ ("user_id", PStr (user_id self));
      ("dashboard_id", PStr (dashboard_id self));
      ("username", PStr (username self));
      ("status", PStr (UserStatus_value (status self)));
      ("connected_at", PFloat (dt_timestamp (connected_at self)));
      ("last_seen", PFloat (dt_timestamp (last_seen self))) ] in
  match socket_id self with
  | Some s => PyDict.set "socket_id" (PStr s) data
  | None => data
  end.

Definition from_dict (data : pydict string pyval) : M t :=
  data ← convert_timestamp "connected_at" false data;
  data ← convert_timestamp "last_seen" false data;
  cls data.

Definition get_redis_key (self : t) : string :=
  "user:" +:+ dashboard_id self +:+ ":" +:+ user_id self.
End Methods.
End ConnectedUser.

(** The response models.  Their fields have the types of the fields they
    are filled from, so building one validates. *)
Module MessageResponse.
Record t := mk {
  id : string;
  dashboard_id : string;
  user_id : string;
  username : string;
  content : string;
  message_type : MessageType;
  timestamp : datetime;
  edited_at : option datetime;
  is_deleted : bool;
  reply_to : option string
}.
End MessageResponse.

Module UserResponse.
Record t := mk {
  user_id : string;
  username : string;
  status : UserStatus;
  connected_at : datetime;
  last_seen : datetime
}.
End UserResponse.

Module RoomResponse.
Record t := mk {
  id : string;
  dashboard_id : string;
  name : string;
  description : option string;
  created_at : datetime;
  created_by : string;
  is_active : bool;
  connected_users : list UserResponse.t
}.
End RoomResponse.

(** ** Calls into redis-py and on Python objects *)

(** The bytes redis-py sends for a field value; it refuses [None], [bool]
    and containers. *)
Definition redis_encode `{PyRuntime} (v : pyval) : option string :=
  match v with
  | PStr s => Some s
  | PInt n => Some (int_repr n)
  | PFloat f => Some (float_repr f)
  | _ => None
  end.

Fixpoint encode_mapping `{PyRuntime} (mapping : pydict string pyval)
  : option (list (string * string)) :=
  match mapping with
  | [] => Some []
  | (k, v) :: r =>
      match redis_encode v, encode_mapping r with
      | Some s, Some r' => Some ((k, s) :: r')
      | _, _ => None
      end
  end.

(** [redis.hset(key, mapping=mapping)] *)
Definition redis_hset `{PyRuntime} (key : string)
    (mapping : pydict string pyval) : M unit :=
  match encode_mapping mapping with
  | None => raise DataError
  | Some m => redis_call (Redis.hset key m)
  end.

(** [redis.hgetall(key)] with [decode_responses=True]: a dict of [str]. *)
Definition hash_to_dict (h : gmap string string) : pydict string pyval :=
  (fun kv => (kv.1, PStr kv.2)) <$> map_to_list h.

Definition redis_hgetall (key : string) : M (pydict string pyval) :=
  h ← redis_call (Redis.hgetall key); mret (hash_to_dict h).

(** [obj.get(k, default)]: only a [dict] has the method. *)
Definition py_get (k : string) (default : pyval) (obj : pyval) : M pyval :=
  match obj with
  | PDict d => mret (PyDict.get_default k default d)
  | _ => raise AttributeError
  end.

(** [obj.strip()]: only a [str] has the method. *)
Definition py_strip (obj : pyval) : M string :=
  match obj with
  | PStr s => mret (strip s)
  | _ => raise AttributeError
  end.

(** ** [src/websocket_manager.py]: [ConnectionManager] *)

Section Manager.
Context `{PyRuntime}.

(** The loop of [broadcast_to_dashboard]; [exclude_user_id] is [None]
    for Python's [None]. *)
Fixpoint send_loop (connections : pydict string ws) (message : string)
    (exclude_user_id : option string) (disconnected_users : list ws)
  : M (list ws) :=
  match connections with
  | [] => mret disconnected_users
  | (user_id, websocket) :: rest =>
      let excluded :=
        match exclude_user_id with
        | Some x => negb (String.eqb x "") && String.eqb user_id x
        | None => false
        end in
      if excluded then
        send_loop rest message exclude_user_id disconnected_users
      else
        failed ← try_except
                   (ws_send_text websocket message ;; mret false)
                   (fun e => logger ERROR "Error sending message to user " ;;
                             mret true);
        send_loop rest message exclude_user_id
          (if failed : bool then (disconnected_users ++ [websocket])%list
           else disconnected_users)
  end.

(** [broadcast_to_dashboard], with the method it calls on the failed
    handles as a parameter. *)
Definition broadcast_to_dashboard_with (disconnect : ws -> M unit)
    (dashboard_id message : string) (exclude_user_id : option string)
  : M unit :=
  w ← get_world;
  match PyDict.get dashboard_id (active_connections w) with
  | None => mret tt
  | Some connections =>
      disconnected_users ← send_loop connections message exclude_user_id [];
      for_each disconnected_users disconnect
  end.

Definition user_event (type username : string) (t : datetime) : pyval :=
  PDict [ ("type", PStr type);
          ("data", PDict [ ("username", PStr username);
                           ("timestamp", PStr (dt_isoformat t)) ]) ].

Definition broadcast_user_left_with (disconnect : ws -> M unit)
    (dashboard_id username : string) : M unit :=
  t ← datetime_now;
  broadcast_to_dashboard_with disconnect dashboard_id
    (json_dumps (user_event "user_left" username t)) None.

(** The two [del] statements of [disconnect] on [active_connections]. *)
Definition remove_connection (dashboard_id user_id : string)
    (a : pydict string (pydict string ws)) : pydict string (pydict string ws) :=
  match PyDict.get dashboard_id a with
  | None => a
  | Some connections =>
      match PyDict.del user_id connections with
      | [] => PyDict.del dashboard_id a
      | connections' => PyDict.set dashboard_id connections' a
      end
  end.

(** The body of [disconnect] once [connection_info[websocket]] is read;
    [disconnect] is the method itself, called through
    [broadcast_user_left] and [broadcast_to_dashboard]. *)
Definition unregister_with (disconnect : ws -> M unit) (websocket : ws)
    (connection_data : conn_data) : M unit :=
  let dashboard_id := cd_dashboard_id connection_data in
  let user_id := cd_user_id connection_data in
  let username := cd_username connection_data in
  modify (fun w => set_active
            (remove_connection dashboard_id user_id (active_connections w)) w) ;;
  modify (fun w => set_info (PyDict.del websocket (connection_info w)) w) ;;
  try_except
    (get_redis ;;
     redis_call (Redis.delete ("user:" +:+ dashboard_id +:+ ":" +:+ user_id)) ;;
     redis_call (Redis.srem ("connected_users:" +:+ dashboard_id) user_id) ;;
     logger INFO "User " ;;
     broadcast_user_left_with disconnect dashboard_id username)
    (fun e => logger ERROR "Error updating disconnected user: ").

(** [disconnect] and [broadcast_to_dashboard] call each other; the
    recursion is on [fuel]. *)
Fixpoint disconnect_rec (fuel : nat) (websocket : ws) : M unit :=
  match fuel with
  | O => stuck
  | S fuel =>
      w ← get_world;
      match PyDict.get websocket (connection_info w) with
      | None => mret tt
      | Some connection_data =>
          unregister_with (disconnect_rec fuel) websocket connection_data
      end
  end.

(** Every nested call removes an entry of [connection_info] first, so
    one unit of fuel per entry, and one more, is enough. *)
Definition disconnect (websocket : ws) : M unit := fun w =>
  disconnect_rec (S (length (connection_info w))) websocket w.

Definition broadcast_to_dashboard := broadcast_to_dashboard_with disconnect.

Definition broadcast_user_joined (dashboard_id username : string) : M unit :=
  t ← datetime_now;
  broadcast_to_dashboard dashboard_id
    (json_dumps (user_event "user_joined" username t)) None.

Definition broadcast_user_left (dashboard_id username : string) : M unit :=
  broadcast_user_left_with disconnect dashboard_id username.

Definition connect (websocket : ws) (dashboard_id user_id username : string)
  : M unit :=
  ws_accept websocket ;;
  modify (fun w =>
    let a := active_connections w in
    let a := if PyDict.contains dashboard_id a then a
             else PyDict.set dashboard_id [] a in
    let connections := PyDict.get_default dashboard_id [] a in
    set_active
      (PyDict.set dashboard_id (PyDict.set user_id websocket connections) a) w) ;;
  modify (fun w =>
    set_info (PyDict.set websocket (mkConn dashboard_id user_id username)
                (connection_info w)) w) ;;
  try_except
    (get_redis ;;
     connected_user ← ConnectedUser.cls
       [ ("user_id", PStr user_id);
         ("dashboard_id", PStr dashboard_id);
         ("username", PStr username);
         ("status", PUserStatus ONLINE);
         ("socket_id", PStr (id_str websocket)) ];
     let user_key := ConnectedUser.get_redis_key connected_user in
     let user_data := ConnectedUser.to_dict connected_user in
     logger INFO "Saving user data to Redis: " ;;
     redis_hset user_key user_data ;;
     redis_call (Redis.sadd ("connected_users:" +:+ dashboard_id) user_id) ;;
     redis_call (Redis.expire user_key (60 * 60)) ;;
     logger INFO "User " ;;
     broadcast_user_joined dashboard_id username)
    (fun e => logger ERROR "Error saving connected user: ").

Definition chat_message_event (m : ChatMessage.t) : pyval :=
  let data :=
    [ ("id", PStr (ChatMessage.id m));
      ("dashboard_id", PStr (ChatMessage.dashboard_id m));
      ("user_id", PStr (ChatMessage.user_id m));
      ("username", PStr (ChatMessage.username m));
      ("content", PStr (ChatMessage.content m));
      ("message_type", PStr (MessageType_value (ChatMessage.message_type m)));
      ("timestamp", PStr (dt_isoformat (ChatMessage.timestamp m))) ] in
  let data :=
    match ChatMessage.reply_to m with
    | Some r => PyDict.set "reply_to" (PStr r) data
    | None => data
    end in
  PDict [ ("type", PStr "chat_message"); ("data", PDict data) ].

Definition broadcast_message (chat_message : ChatMessage.t) : M unit :=
  try_except
    (broadcast_to_dashboard (ChatMessage.dashboard_id chat_message)
       (json_dumps (chat_message_event chat_message)) None)
    (fun e => logger ERROR "Error in broadcast_message: ").

Definition typing_event (user_id username : string) (is_typing : pyval)
    (t : datetime) : pyval :=
  PDict [ ("type", PStr "typing");
          ("data", PDict [ ("user_id", PStr user_id);
                           ("username", PStr username);
                           ("is_typing", is_typing);
                           ("timestamp", PStr (dt_isoformat t)) ]) ].

Definition broadcast_typing (dashboard_id user_id username : string)
    (is_typing : pyval) : M unit :=
  t ← datetime_now;
  broadcast_to_dashboard dashboard_id
    (json_dumps (typing_event user_id username is_typing t))
    (Some user_id).

Definition get_connected_users (dashboard_id : string) : M (list string) :=
  w ← get_world;
  match PyDict.get dashboard_id (active_connections w) with
  | None => mret []
  | Some connections => mret (connections.*1)
  end.
Definition send_personal_message (message : string) (websocket : ws) : M unit :=
  try_except
    (ws_send_text websocket message)
    (fun e => logger ERROR "Error sending personal message: ").

Definition get_connection_count (dashboard_id : string) : M Z :=
  w ← get_world;
  match PyDict.get dashboard_id (active_connections w) with
  | None => mret 0
  | Some connections => mret (Z.of_nat (length connections))
  end.
End Manager.

(** ** [src/routes/chat_routes.py] *)

(** What [websocket.receive_text()] does on its next call: it returns a
    text frame or raises ([WebSocketDisconnect] when the peer closed). *)
Inductive recv_event :=
| RecvText (data : string)
| RecvRaise (e : exn).

(** Where the handler of a connection stands once the events given to it
    are used up: waiting in [receive_text], or returned. *)
Inductive handler_state := Active | Terminated.

Section Routes.
Context `{PyRuntime}.

(** *** MessageStore *)

Definition save_message_to_redis (message : ChatMessage.t) : M unit :=
  get_redis ;;
  let key := ChatMessage.get_redis_key message in
  let message_data := ChatMessage.to_dict message in
  logger INFO "Saving message to Redis: " ;;
  redis_hset key message_data ;;
  let list_key := "messages:" +:+ ChatMessage.dashboard_id message in
  redis_call (Redis.rpush list_key (ChatMessage.id message)) ;;
  w ← get_world;
  redis_call (Redis.ltrim list_key (- message_history_limit (settings w)) (-1)) ;;
  redis_call (Redis.expire key (30 * 24 * 60 * 60)).

Fixpoint load_messages (dashboard_id : string) (message_ids : list string)
    (messages : list ChatMessage.t) : M (list ChatMessage.t) :=
  match message_ids with
  | [] => mret messages
  | msg_id :: rest =>
      let key := "message:" +:+ dashboard_id +:+ ":" +:+ msg_id in
      message_data ← redis_hgetall key;
      messages ←
        (if truthy (PDict message_data) then
           try_except
             (m ← ChatMessage.from_dict message_data;
              mret (messages ++ [m])%list)
             (fun e => logger ERROR "Error parsing message " ;;
                       mret messages)
         else mret messages);
      load_messages dashboard_id rest messages
  end.

Definition get_messages_from_redis (dashboard_id : string) (limit skip : Z)
  : M (list ChatMessage.t) :=
  get_redis ;;
  let list_key := "messages:" +:+ dashboard_id in
  message_ids ← redis_call (Redis.lrange list_key skip (skip + limit - 1));
  load_messages dashboard_id message_ids [].

(** *** PresenceStore *)

Definition save_connected_user_to_redis (user : ConnectedUser.t) : M unit :=
  get_redis ;;
  let key := ConnectedUser.get_redis_key user in
  redis_hset key (ConnectedUser.to_dict user) ;;
  let set_key := "connected_users:" +:+ ConnectedUser.dashboard_id user in
  redis_call (Redis.sadd set_key (ConnectedUser.user_id user)) ;;
  redis_call (Redis.expire key (60 * 60)).

Fixpoint load_users (dashboard_id : string) (user_ids : list string)
    (users : list ConnectedUser.t) : M (list ConnectedUser.t) :=
  match user_ids with
  | [] => mret users
  | user_id :: rest =>
      let key := "user:" +:+ dashboard_id +:+ ":" +:+ user_id in
      user_data ← redis_hgetall key;
      users ←
        (if truthy (PDict user_data) then
           try_except
             (u ← ConnectedUser.from_dict user_data;
              mret (users ++ [u])%list)
             (fun e => logger ERROR "Error parsing user " ;;
                       mret users)
         else mret users);
      load_users dashboard_id rest users
  end.

Definition get_connected_users_from_redis (dashboard_id : string)
  : M (list ConnectedUser.t) :=
  get_redis ;;
  let set_key := "connected_users:" +:+ dashboard_id in
  user_ids ← redis_call (Redis.smembers set_key);
  load_users dashboard_id (elements user_ids) [].

Definition remove_user_from_redis (dashboard_id user_id : string) : M unit :=
  get_redis ;;
  let key := "user:" +:+ dashboard_id +:+ ":" +:+ user_id in
  redis_call (Redis.delete key) ;;
  let set_key := "connected_users:" +:+ dashboard_id in
  redis_call (Redis.srem set_key user_id).

(** *** The WebSocket endpoint *)

(** The [try] block of [handle_websocket_message]. *)
Definition handle_websocket_message_try (dashboard_id user_id username : string)
    (message_data : pyval) : M unit :=
  c ← py_get "content" PNone message_data;
  content ← (if truthy c then mret c
             else py_get "message" (PStr "") message_data);
  content ← py_strip content;
  w ← get_world;
  if String.eqb content "" || (max_message_length (settings w) <? len content)
  then logger WARNING "Invalid message: empty or too long"
  else
    mt ← py_get "message_type" (PStr "text") message_data;
    message_type ← (match MessageType_of mt with
                    | Some t => mret t
                    | None => raise ValueError
                    end);
    reply_to ← py_get "reply_to" PNone message_data;
    chat_message ← ChatMessage.cls
      [ ("dashboard_id", PStr dashboard_id);
        ("user_id", PStr user_id);
        ("username", PStr username);
        ("content", PStr content);
        ("message_type", PMessageType message_type);
        ("reply_to", reply_to) ];
    save_message_to_redis chat_message ;;
    broadcast_message chat_message.

Definition handle_websocket_message (dashboard_id user_id username : string)
    (message_data : pyval) : M unit :=
  try_except
    (handle_websocket_message_try dashboard_id user_id username message_data)
    (fun e => logger ERROR "Error handling WebSocket message: ").

(** One iteration of the [while True] loop, after [receive_text]. *)
Definition handle_frame (dashboard_id user_id username : string)
    (data : string) : M unit :=
  logger INFO "Received WebSocket data: " ;;
  message_data ← (match json_loads data with
                  | Some v => mret v
                  | None => raise JSONDecodeError
                  end);
  logger INFO "Parsed message data: " ;;
  ty ← py_get "type" PNone message_data;
  (if eq_str ty "chat_message" then
     logger INFO "Processing chat_message type" ;;
     try_except
       (d ← py_get "data" (PDict []) message_data;
        handle_websocket_message dashboard_id user_id username d ;;
        logger INFO "Message processing completed successfully" ;;
        w ← get_world;
        if PyDict.contains dashboard_id (active_connections w)
        then logger INFO "Connection still active after message processing"
        else logger WARNING "Connection lost after message processing")
       (fun e => logger ERROR "Error in handle_websocket_message: " ;;
                 logger ERROR "Traceback: ")
   else if eq_str ty "typing" then
     logger INFO "Processing typing type" ;;
     d ← py_get "data" (PDict []) message_data;
     is_typing ← py_get "is_typing" (PBool false) d;
     broadcast_typing dashboard_id user_id username is_typing
   else
     logger WARNING "Unknown message type: ") ;;
  logger INFO "Message loop iteration completed, continuing...".

Fixpoint receive_loop (dashboard_id user_id username : string)
    (events : list recv_event) : M handler_state :=
  match events with
  | [] => mret Active
  | ev :: rest =>
      data ← (match ev with
              | RecvText data => mret data
              | RecvRaise e => raise e
              end);
      handle_frame dashboard_id user_id username data ;;
      receive_loop dashboard_id user_id username rest
  end.

(** The two [except] clauses around the loop: both unregister the
    connection; the second logs first. *)
Definition connection_closed (websocket : ws) (dashboard_id user_id : string)
    (e : exn) : M handler_state :=
  match e with
  | WebSocketDisconnect =>
      disconnect websocket ;;
      remove_user_from_redis dashboard_id user_id ;;
      mret Terminated
  | _ =>
      logger ERROR "WebSocket error: " ;;
      disconnect websocket ;;
      remove_user_from_redis dashboard_id user_id ;;
      mret Terminated
  end.

Definition websocket_endpoint (websocket : ws)
    (dashboard_id user_id username : string) (events : list recv_event)
  : M handler_state :=
  try_except
    (if String.eqb dashboard_id "" || String.eqb user_id "" then
       ws_close websocket ;; mret Terminated
     else
       connect websocket dashboard_id user_id username ;;
       connected_user ← ConnectedUser.cls
         [ ("user_id", PStr user_id);
           ("dashboard_id", PStr dashboard_id);
           ("username", PStr username);
           ("status", PUserStatus ONLINE) ];
       save_connected_user_to_redis connected_user ;;
       try_except
         (receive_loop dashboard_id user_id username events)
         (connection_closed websocket dashboard_id user_id))
    (fun e => logger ERROR "WebSocket connection error: " ;;
              ws_close websocket ;;
              mret Terminated).

(** *** The REST endpoints

    FastAPI calls [get_messages] with [limit <= 100] and [skip >= 0] only
    (the bounds of its [Query] parameters); the body does not test them. *)

Definition message_response (msg : ChatMessage.t) : MessageResponse.t :=
  MessageResponse.mk (ChatMessage.id msg) (ChatMessage.dashboard_id msg)
    (ChatMessage.user_id msg) (ChatMessage.username msg)
    (ChatMessage.content msg) (ChatMessage.message_type msg)
    (ChatMessage.timestamp msg) (ChatMessage.edited_at msg)
    (ChatMessage.is_deleted msg) (ChatMessage.reply_to msg).

Definition user_response (user : ConnectedUser.t) : UserResponse.t :=
  UserResponse.mk (ConnectedUser.user_id user) (ConnectedUser.username user)
    (ConnectedUser.status user) (ConnectedUser.connected_at user)
    (ConnectedUser.last_seen user).

Definition get_messages (dashboard_id : string) (limit skip : Z)
  : M (list MessageResponse.t) :=
  try_except
    (messages ← get_messages_from_redis dashboard_id limit skip;
     mret (message_response <$> messages))
    (fun e => logger ERROR "Error getting messages: " ;;
              raise (HTTPException 500)).

(** [message_type] is a parameter of the endpoint that its body never
    reads. *)
Definition send_message (dashboard_id user_id username content : string)
    (message_type : string) : M MessageResponse.t :=
  try_except
    ((if String.eqb (strip content) "" then raise (HTTPException 400)
      else mret tt) ;;
     logger INFO "Creating message object..." ;;
     chat_message ← try_except
       (m ← ChatMessage.cls
          [ ("dashboard_id", PStr dashboard_id);
            ("user_id", PStr user_id);
            ("username", PStr username);
            ("content", PStr (strip content));
            ("message_type", PMessageType TEXT);
            ("reply_to", PNone) ];
        logger INFO "Created message object: " ;;
        mret m)
       (fun e => logger ERROR "Error creating message object: " ;; raise e);
     try_except
       (save_message_to_redis chat_message ;;
        logger INFO "Message saved to Redis successfully")
       (fun e => logger ERROR "Error saving to Redis: " ;; raise e) ;;
     broadcast_message chat_message ;;
     mret (MessageResponse.mk (ChatMessage.id chat_message)
             (ChatMessage.dashboard_id chat_message)
             (ChatMessage.user_id chat_message)
             (ChatMessage.username chat_message)
             (ChatMessage.content chat_message)
             (ChatMessage.message_type chat_message)
             (ChatMessage.timestamp chat_message)
             None false
             (ChatMessage.reply_to chat_message)))
    (fun e => logger ERROR "Error sending message: " ;;
              raise (HTTPException 500)).

Definition get_room_info (dashboard_id : string) : M RoomResponse.t :=
  try_except
    (get_redis ;;
     let room_key := "room:" +:+ dashboard_id in
     room_data ← redis_hgetall room_key;
     room ← (if negb (truthy (PDict room_data)) then
               room ← ChatRoom.cls
                 [ ("dashboard_id", PStr dashboard_id);
                   ("name", PStr ("Dashboard " +:+ dashboard_id));
                   ("created_by", PStr dashboard_id) ];
               redis_hset room_key (ChatRoom.to_dict room) ;;
               mret room
             else ChatRoom.from_dict room_data);
     connected_users ← get_connected_users_from_redis dashboard_id;
     mret (RoomResponse.mk (ChatRoom.id room) (ChatRoom.dashboard_id room)
             (ChatRoom.name room) (ChatRoom.description room)
             (ChatRoom.created_at room) (ChatRoom.created_by room)
             (ChatRoom.is_active room)
             (user_response <$> connected_users)))
    (fun e => logger ERROR "Error getting room info: " ;;
              raise (HTTPException 500)).

(** The endpoint [get_connected_users] of this module (the method of the
    same name of [ConnectionManager] is [get_connected_users] above). *)
Definition get_connected_users_endpoint (dashboard_id : string)
  : M (list UserResponse.t) :=
  try_except
    (connected_users ← get_connected_users_from_redis dashboard_id;
     mret (user_response <$> connected_users))
    (fun e => logger ERROR "Error getting connected users: " ;;
              raise (HTTPException 500)).

(** *** DELETE /messages/{dashboard_id} *)

Fixpoint delete_messages (dashboard_id : string) (message_ids : list string)
    (deleted_count : Z) : M Z :=
  match message_ids with
  | [] => mret deleted_count
  | msg_id :: rest =>
      let message_key := "message:" +:+ dashboard_id +:+ ":" +:+ msg_id in
      result ← redis_call (Redis.delete message_key);
      delete_messages dashboard_id rest
        (if result =? 0 then deleted_count else deleted_count + 1)
  end.

Definition messages_cleared_event (dashboard_id : string) (deleted_count : Z)
    (t : datetime) : pyval :=
  PDict [ ("type", PStr "messages_cleared");
          ("data", PDict [ ("dashboard_id", PStr dashboard_id);
                           ("cleared_count", PInt deleted_count);
                           ("timestamp", PStr (dt_isoformat t)) ]) ].

(** The value returned is the ["cleared_count"] of the response. *)
Definition clear_all_messages (dashboard_id : string) : M Z :=
  try_except
    (get_redis ;;
     let list_key := "messages:" +:+ dashboard_id in
     message_ids ← redis_call (Redis.lrange list_key 0 (-1));
     deleted_count ← delete_messages dashboard_id message_ids 0;
     redis_call (Redis.delete list_key) ;;
     logger INFO "Cleared " ;;
     t ← datetime_now;
     broadcast_to_dashboard dashboard_id
       (json_dumps (messages_cleared_event dashboard_id deleted_count t))
       None ;;
     mret deleted_count)
    (fun e => logger ERROR "Error clearing messages: " ;;
              raise (HTTPException 500)).
(** *** POST /test-message/{dashboard_id} and GET /health *)

(** The dictionary [test_send_message] returns: ["status": "success"]
    with the message id, or ["status": "error"] with the exception. *)
Inductive test_result :=
| TestSuccess (message_id : string)
| TestError (e : exn).

Definition test_send_message (dashboard_id : string) : M test_result :=
  try_except
    (chat_message ← ChatMessage.cls
       [ ("dashboard_id", PStr dashboard_id);
         ("user_id", PStr "test-user");
         ("username", PStr "TestUser");
         ("content", PStr "Test message");
         ("message_type", PMessageType TEXT);
         ("reply_to", PNone) ];
     save_message_to_redis chat_message ;;
     mret (TestSuccess (ChatMessage.id chat_message)))
    (fun e => logger ERROR "Test error: " ;; mret (TestError e)).

(** The dictionary [health_check] returns: ["status": "healthy"] with the
    time and the number of registered connections, or
    ["status": "unhealthy"] with the time and the exception. *)
Inductive health :=
| Healthy (timestamp : string) (active_connections : Z)
| Unhealthy (timestamp : string) (error : exn).

(** [sum(len(connections) for connections in active_connections.values())] *)
Definition count_connections (a : pydict string (pydict string ws)) : Z :=
  foldr Z.add 0 ((fun rc => Z.of_nat (length rc.2)) <$> a).

Definition health_check : M health :=
  try_except
    (get_redis ;;
     redis_call Redis.ping ;;
     t ← datetime_now;
     w ← get_world;
     mret (Healthy (dt_isoformat t) (count_connections (active_connections w))))
    (fun e => logger ERROR "Health check failed: " ;;
              t ← datetime_now;
              mret (Unhealthy (dt_isoformat t) e)).
End Routes.

(** ** A runtime to run the model on

    An instance of [PyRuntime] on which the definitions above evaluate.
    Timestamps are binary64 seconds as in Python; decimal text is written
    in microseconds; [json.loads] knows the frames listed in [frames]. *)

Module Sample.

Definition q : string := String (ascii_of_nat 34) EmptyString.

Definition decimal (n : Z) : string :=
  (if n <? 0 then "-" else "") +:+
  DecimalString.NilZero.string_of_uint (N.to_uint (Z.abs_N n)).

Definition of_decimal (s : string) : option Z :=
  match DecimalString.NilZero.uint_of_string s with
  | Some u => Some (Z.of_N (N.of_uint u))
  | None => None
  end.

Definition float_of_Z (n : Z) : float :=
  if n <? 0 then (- PrimFloat.of_uint63 (Uint63.of_Z (- n)))%float
  else PrimFloat.of_uint63 (Uint63.of_Z n).

(** The integer nearest to a finite float, ties to even. *)
Definition Z_of_float (f : float) : option Z :=
  match FloatOps.Prim2SF f with
  | SpecFloat.S754_zero _ => Some 0
  | SpecFloat.S754_finite s m e =>
      let v :=
        if 0 <=? e then Z.pos m * 2 ^ e
        else
          let d := 2 ^ (- e) in
          let lo := Z.pos m / d in
          let r := 2 * (Z.pos m mod d) in
          if r <? d then lo
          else if d <? r then lo + 1
          else if Z.even lo then lo else lo + 1 in
      Some (if s then - v else v)
  | _ => None
  end.

Definition timestamp (t : datetime) : float :=
  (float_of_Z t / float_of_Z 1000000)%float.

Definition fromtimestamp (x : pynum) : option datetime :=
  match x with
  | NInt n => Some (n * 1000000)
  | NFloat f => Z_of_float (f * float_of_Z 1000000)%float
  end.

Definition repr_float (f : float) : string :=
  match Z_of_float (f * float_of_Z 1000000)%float with
  | Some z => decimal z
  | None => "nan"
  end.

Fixpoint dumps (v : pyval) : string :=
  match v with
  | PNone => "null"
  | PBool b => if b then "true" else "false"
  | PInt n => decimal n
  | PFloat f => repr_float f
  | PStr s => q +:+ s +:+ q
  | PList l =>
      "[" +:+ (fix items (l : list pyval) : string :=
                 match l with
                 | [] => ""
                 | x :: r => dumps x +:+ "," +:+ items r
                 end) l +:+ "]"
  | PDict d =>
      "{" +:+ (fix items (d : list (string * pyval)) : string :=
                 match d with
                 | [] => ""
                 | (k, x) :: r =>
                     q +:+ k +:+ q +:+ ":" +:+ dumps x +:+ "," +:+ items r
                 end) d +:+ "}"
  | PDatetime t => decimal t
  | PMessageType t => q +:+ MessageType_value t +:+ q
  | PUserStatus s => q +:+ UserStatus_value s +:+ q
  end.

Definition frame (type : string) (data : list (string * pyval)) : pyval :=
  PDict [ ("type", PStr type); ("data", PDict data) ].

(** The text frames used in the examples, with what they parse to. *)
Definition chat_hi : string :=
  "{" +:+ q +:+ "type" +:+ q +:+ ":" +:+ q +:+ "chat_message" +:+ q +:+ ","
  +:+ q +:+ "data" +:+ q +:+ ":{" +:+ q +:+ "content" +:+ q +:+ ":"
  +:+ q +:+ "hi" +:+ q +:+ "}}".
Definition chat_blank : string :=
  "{" +:+ q +:+ "type" +:+ q +:+ ":" +:+ q +:+ "chat_message" +:+ q +:+ ","
  +:+ q +:+ "data" +:+ q +:+ ":{" +:+ q +:+ "content" +:+ q +:+ ":"
  +:+ q +:+ "   " +:+ q +:+ "}}".
Definition typing_on : string :=
  "{" +:+ q +:+ "type" +:+ q +:+ ":" +:+ q +:+ "typing" +:+ q +:+ ","
  +:+ q +:+ "data" +:+ q +:+ ":{" +:+ q +:+ "is_typing" +:+ q
  +:+ ":true}}".
Definition typing_bare : string :=
  "{" +:+ q +:+ "type" +:+ q +:+ ":" +:+ q +:+ "typing" +:+ q +:+ "}".
Definition not_json : string := "{not json".

Definition frames : list (string * pyval) :=
  [ (chat_hi, frame "chat_message" [("content", PStr "hi")]);
    (chat_blank, frame "chat_message" [("content", PStr "   ")]);
    (typing_on, frame "typing" [("is_typing", PBool true)]);
    (typing_bare, PDict [("type", PStr "typing")]) ].

#[export] Instance runtime : PyRuntime := {|
  json_loads s := PyDict.get s frames;
  json_dumps := dumps;
  dt_timestamp := timestamp;
  dt_fromtimestamp := fromtimestamp;
  dt_isoformat := decimal;
  float_repr := repr_float;
  int_repr := decimal;
  pydantic_datetime_of_str := of_decimal;
  pydantic_datetime_of_num := fromtimestamp;
  pydantic_int_of_str := of_decimal;
  uuid4_str n := "uuid-" +:+ decimal (Z.of_nat n);
  id_str n := decimal (Z.of_nat n)
|}.

Definition config : Settings :=
  {| max_message_length := 1000; message_history_limit := 50 |}.

(** The process right after start-up, at 2023-11-14 22:13:20.123456 UTC. *)
Definition start : world :=
  {| settings := config;
     active_connections := [];
     connection_info := [];
     redis_client := true;
     redis := mkStore ∅ ∅;
     redis_faults := [];
     closed := ∅;
     sent := [];
     log_records := [];
     now := 1700000000123456;
     uuid_drawn := 0 |}.
End Sample.

(** * Properties

    First the vocabulary the statements are written in, then the
    scenarios the examples run, then the lemmas and the theorems. *)

Section Vocabulary.
Context `{PyRuntime}.

(** The library gives back the instant [t] from the float that
    [t.timestamp()] returns.  (binary64 seconds hold every microsecond
    instant of the next two centuries; the statement is about the library,
    not about this program.) *)
Definition restored (t : datetime) : Prop :=
  dt_fromtimestamp (NFloat (dt_timestamp t)) = Some t.

(** The same for ["edited_at"], which [from_dict] converts only when the
    float is not zero and otherwise leaves to pydantic. *)
Definition restored_if_set (t : datetime) : Prop :=
  if truthy (PFloat (dt_timestamp t)) then restored t
  else pydantic_datetime_of_num (NFloat (dt_timestamp t)) = Some t.

(** ** Vocabulary *)

Inductive kind := KHash | KList | KSet.

Definition kind_of (v : rvalue) : kind :=
  match v with RHash _ => KHash | RList _ => KList | RSet _ => KSet end.

Fixpoint has_prefix (p s : string) : bool :=
  match p with
  | EmptyString => true
  | String a p' =>
      match s with
      | EmptyString => false
      | String b s' => Ascii.eqb a b && has_prefix p' s'
      end
  end.

(** The kind of value the program keeps under a key, by the key's prefix
    (section "Key-value layout" of the specification). *)
Definition key_kind (k : string) : option kind :=
  if has_prefix "messages:" k then Some KList
  else if has_prefix "message:" k then Some KHash
  else if has_prefix "connected_users:" k then Some KSet
  else if has_prefix "user:" k then Some KHash
  else if has_prefix "room:" k then Some KHash
  else None.

Definition wf_store (s : store) : Prop :=
  map_Forall (fun k v => key_kind k = Some (kind_of v)) (db s).

(** Redis answers, and the client is connected. *)
Definition store_up (w : world) : Prop :=
  redis_client w = true /\ redis_faults w = [].

(** Every handle the registry delivers to is known to [connection_info]
    under the key it is registered with. *)
Definition registry_ok (w : world) : Prop :=
  forall r conns u h,
    PyDict.get r (active_connections w) = Some conns -> (u, h) ∈ conns ->
    exists name, PyDict.get h (connection_info w) = Some (mkConn r u name).

Definition left_frame (username : string) (t : datetime) : string :=
  json_dumps (user_event "user_left" username t).

Definition is_left_frame (t : datetime) (x : ws * string) : Prop :=
  exists username, x.2 = left_frame username t.

(** The presence record of a connection is gone from the store. *)
Definition presence_absent (d : conn_data) (s : store) : Prop :=
  db s !! ("user:" +:+ cd_dashboard_id d +:+ ":" +:+ cd_user_id d) = None
  /\ forall S, db s !! ("connected_users:" +:+ cd_dashboard_id d) = Some (RSet S) ->
               cd_user_id d ∉ S.

(** Every open connection still registered in the room of [d] has been
    sent the "left" announcement for [d]. *)
Definition announced (d : conn_data) (w : world) : Prop :=
  forall conns u h,
    PyDict.get (cd_dashboard_id d) (active_connections w) = Some conns ->
    (u, h) ∈ conns -> h ∉ closed w ->
    (h, left_frame (cd_username d) (now w)) ∈ sent w.

Definition store_shrinks (s s' : store) : Prop :=
  (forall k, db s !! k = None -> db s' !! k = None)
  /\ (forall k S' x, db s' !! k = Some (RSet S') -> x ∈ S' ->
        exists S, db s !! k = Some (RSet S) /\ x ∈ S)
  /\ (wf_store s -> wf_store s').

(** What cleaning up after failed sends may change: registrations and
    presence records go, "left" announcements are sent. *)
Record shrinks (w w' : world) : Prop := {
  sh_settings : settings w' = settings w;
  sh_now : now w' = now w;
  sh_closed : closed w' = closed w;
  sh_uuid : uuid_drawn w' = uuid_drawn w;
  sh_sent : exists l, sent w' = sent w ++ l /\ Forall (is_left_frame (now w)) l;
  sh_info : forall h d, PyDict.get h (connection_info w') = Some d ->
                        PyDict.get h (connection_info w) = Some d;
  sh_info_len : (length (connection_info w') <= length (connection_info w))%nat;
  sh_active : forall r conns', PyDict.get r (active_connections w') = Some conns' ->
                exists conns, PyDict.get r (active_connections w) = Some conns
                              /\ conns' ⊆ conns;
  sh_store : store_shrinks (redis w) (redis w');
  sh_faults : redis_faults w = [] -> redis_faults w' = [];
  sh_client : redis_client w = true -> redis_client w' = true;
  sh_registry : registry_ok w -> registry_ok w'
}.

(** Every connection that left the registry had its presence removed and
    its departure announced (when Redis answers). *)
Definition departed (w w' : world) : Prop :=
  forall h d,
    PyDict.get h (connection_info w) = Some d ->
    PyDict.get h (connection_info w') = None ->
    redis_faults w = [] -> wf_store (redis w) ->
    presence_absent d (redis w') /\ announced d w'.

Definition cleanup (w w' : world) : Prop := shrinks w w' /\ departed w w'.

(** ** Weakest preconditions for [M] *)

Definition wp {A} (m : M A) (w : world) (Q : outcome A -> world -> Prop) : Prop :=
  (m w).1 <> Stuck /\ Q (m w).1 (m w).2.

(** ** Steps that leave the registry and the transports alone *)

Record quiet (w w' : world) : Prop := {
  q_settings : settings w' = settings w;
  q_now : now w' = now w;
  q_closed : closed w' = closed w;
  q_uuid : uuid_drawn w' = uuid_drawn w;
  q_sent : sent w' = sent w;
  q_info : connection_info w' = connection_info w;
  q_active : active_connections w' = active_connections w;
  q_store : store_shrinks (redis w) (redis w');
  q_faults : redis_faults w = [] -> redis_faults w' = [];
  q_client : redis_client w = true -> redis_client w' = true
}.

(** ** The fan-out of one broadcast *)

Definition excluded (exclude_user_id : option string) (user_id : string) : bool :=
  match exclude_user_id with
  | Some x => negb (String.eqb x "") && String.eqb user_id x
  | None => false
  end.

(** The registered connections a broadcast tries to reach. *)
Definition recipients (connections : list (string * ws))
    (exclude_user_id : option string) : list (string * ws) :=
  filter (fun c => excluded exclude_user_id c.1 = false) connections.

(** The frames it hands to the open transports, in order, and the handles
    on which the send failed. *)
Definition deliveries (connections : list (string * ws)) (message : string)
    (exclude_user_id : option string) (cl : gset ws) : list (ws * string) :=
  (fun c => (c.2, message)) <$>
    filter (fun c => c.2 ∉ cl) (recipients connections exclude_user_id).

Definition failures (connections : list (string * ws))
    (exclude_user_id : option string) (cl : gset ws) : list ws :=
  snd <$> filter (fun c => c.2 ∈ cl) (recipients connections exclude_user_id).

Definition after_fanout (connections : list (string * ws)) (message : string)
    (exclude_user_id : option string) (w : world) : world :=
  set_log (log_records w ++
             ((fun _ => (ERROR, "Error sending message to user ")) <$>
                failures connections exclude_user_id (closed w)))
    (set_sent (sent w ++ deliveries connections message exclude_user_id (closed w)) w).

(** A method that unregisters: it returns, cleaning up, and the handle is
    gone from [connection_info]. *)
Definition disc_ok (bound : nat) (disc : ws -> M unit) : Prop :=
  forall h w, (length (connection_info w) <= bound)%nat ->
    wp (disc h) w (fun r w' => r = Ret tt /\ cleanup w w'
                               /\ PyDict.get h (connection_info w') = None).

(** What one broadcast leaves behind. *)
Definition bcast_post (dashboard_id message : string) (exclude : option string)
    (w w' : world) : Prop :=
  match PyDict.get dashboard_id (active_connections w) with
  | None => w' = w
  | Some conns =>
      cleanup (after_fanout conns message exclude w) w'
      /\ Forall (fun h => PyDict.get h (connection_info w') = None)
                (failures conns exclude (closed w))
  end.

(** The two registry updates of [disconnect]. *)
Definition unregistered (h : ws) (d : conn_data) (w : world) : world :=
  set_info (PyDict.del h (connection_info w))
    (set_active (remove_connection (cd_dashboard_id d) (cd_user_id d)
                   (active_connections w)) w).

(** ** Vocabulary of the stores *)

(** The last [n] elements of a list. *)
Definition lastn {A} (n : nat) (l : list A) : list A := drop (length l - n) l.

(** The ordered id list of a room, and the hash under a key, as LRANGE and
    HGETALL see them on a well-kinded store. *)
Definition history (s : store) (room : string) : list string :=
  match db s !! ("messages:" +:+ room) with
  | Some (RList l) => l
  | _ => []
  end.

Definition hash_at (s : store) (key : string) : gmap string string :=
  match db s !! key with
  | Some (RHash h) => h
  | _ => ∅
  end.

Definition members (s : store) (room : string) : gset string :=
  match db s !! ("connected_users:" +:+ room) with
  | Some (RSet m) => m
  | _ => ∅
  end.

Definition message_key (room msg_id : string) : string :=
  "message:" +:+ room +:+ ":" +:+ msg_id.

Definition user_key (room user_id : string) : string :=
  "user:" +:+ room +:+ ":" +:+ user_id.

(** Only the store and the log differ. *)
Record only_store (w w' : world) : Prop := {
  os_settings : settings w' = settings w;
  os_now : now w' = now w;
  os_closed : closed w' = closed w;
  os_uuid : uuid_drawn w' = uuid_drawn w;
  os_sent : sent w' = sent w;
  os_info : connection_info w' = connection_info w;
  os_active : active_connections w' = active_connections w;
  os_client : redis_client w' = redis_client w;
  os_faults : redis_faults w' = redis_faults w
}.

(** What [save_message_to_redis] writes into the hash of a message. *)
Definition stored_fields (m : ChatMessage.t) : list (string * string) :=
  default [] (encode_mapping (ChatMessage.to_dict m)).

(** [from_dict] touches nothing but the count of UUIDs drawn. *)
Definition same_but_uuid (w w' : world) : Prop :=
  w' = w \/ w' = set_uuid_drawn (S (uuid_drawn w)) w.

(** The message an id of the list stands for: the parsed hash under its
    key; none when the hash is missing or does not parse. *)
Definition resolve_message (room msg_id : string) (w : world)
  : option ChatMessage.t * world :=
  let h := hash_at (redis w) (message_key room msg_id) in
  if decide (h = ∅) then (None, w)
  else match ChatMessage.from_dict (hash_to_dict h) w with
       | (Ret m, w') => (Some m, w')
       | (_, w') =>
           (None, set_log (log_records w' ++ [(ERROR, "Error parsing message ")]) w')
       end.

Fixpoint resolve_messages (room : string) (ids : list string) (w : world)
  : list ChatMessage.t * world :=
  match ids with
  | [] => ([], w)
  | i :: rest =>
      let (o, w1) := resolve_message room i w in
      let (ms, w2) := resolve_messages room rest w1 in
      (match o with Some m => m :: ms | None => ms end, w2)
  end.

(** The message hashes a room's id list refers to that the store holds. *)
Definition listed_hashes (s : store) (room : string) (ids : list string) : gset string :=
  list_to_set (message_key room <$> ids) ∩ dom (db s).

(** The record pydantic builds from the fields of a presence hash. *)
Definition user_of_hash (h : gmap string string) (t : datetime)
  : option ConnectedUser.t :=
  uid ← h !! "user_id";
  did ← h !! "dashboard_id";
  una ← h !! "username";
  st ← match h !! "status" with
       | None => Some ONLINE
       | Some s => UserStatus_of (PStr s)
       end;
  ca ← match h !! "connected_at" with
       | None => Some t
       | Some s => pydantic_datetime_of_str s
       end;
  ls ← match h !! "last_seen" with
       | None => Some t
       | Some s => pydantic_datetime_of_str s
       end;
  Some (ConnectedUser.mk uid did una st ca ls (h !! "socket_id")).

(** The presence record a member of the set stands for. *)
Definition resolve_user (room : string) (w : world) (user_id : string)
  : option ConnectedUser.t :=
  let h := hash_at (redis w) (user_key room user_id) in
  if decide (h = ∅) then None else user_of_hash h (now w).

(** pydantic reads the text redis-py wrote for the timestamp [t]. *)
Definition reads_back (t : datetime) : Prop :=
  is_Some (pydantic_datetime_of_str (float_repr (dt_timestamp t))).

(** The hash of every member of the room's set carries that member's id. *)
Definition presence_consistent (s : store) (room : string) : Prop :=
  forall x y, x ∈ members s room ->
              hash_at s (user_key room x) !! "user_id" = Some y -> y = x.

Definition stored_user_fields (u : ConnectedUser.t) : list (string * string) :=
  default [] (encode_mapping (ConnectedUser.to_dict u)).

(** ** Computations that return or raise *)

Definition safe {A} (m : M A) : Prop := forall w, (m w).1 <> Stuck.

(** A registry in which every entry, shadowed or not, is known to
    [connection_info]: a check that evaluates. *)
Definition registry_okb (w : world) : bool :=
  forallb (fun rc : string * pydict string ws =>
    forallb (fun uh : string * ws =>
      match PyDict.get uh.2 (connection_info w) with
      | Some d => String.eqb (cd_dashboard_id d) rc.1
                  && String.eqb (cd_user_id d) uh.1
      | None => false
      end) rc.2) (active_connections w).

(** A computation that leaves the registry consistent. *)
Definition keeps_registry {A} (m : M A) : Prop :=
  forall w, registry_ok w -> wp m w (fun _ w' => registry_ok w').

#[global] Instance kind_eq_dec : EqDecision kind.
Proof. solve_decision. Defined.

(** [data.get("content") or data.get("message", "")] *)
Definition chat_content (d : pydict string pyval) : pyval :=
  let c := PyDict.get_default "content" PNone d in
  if truthy c then c else PyDict.get_default "message" (PStr "") d.

(** The log once a frame with a ["type"] the loop knows is parsed. *)
Definition frame_entered (type_note : string) (w : world) : world :=
  set_log (log_records w ++ [ (INFO, "Received WebSocket data: ");
                              (INFO, "Parsed message data: ");
                              (INFO, type_note) ]) w.

(** The handler of a connection is over and the handle is unregistered:
    what the [except] clauses around the loop make of an exception. *)
Definition closes_connection (websocket : ws)
    (dashboard_id user_id username : string) (events : list recv_event)
    (w : world) : Prop :=
  exists r w',
    try_except (receive_loop dashboard_id user_id username events)
               (connection_closed websocket dashboard_id user_id) w = (r, w')
    /\ (r = Ret Terminated \/ exists e, r = Raise e)
    /\ PyDict.get websocket (connection_info w') = None.

(** The value a frame gives for an optional string. *)
Definition optional_str (o : option string) : pyval :=
  match o with Some s => PStr s | None => PNone end.

(** One broadcast of [message] went to every open connection among
    [conns], in order, and nothing else was sent but the announcements
    of the connections that were cleaned up. *)
Definition fanned_out (conns : list (string * ws)) (message : string)
    (w w' : world) : Prop :=
  exists l,
    sent w' = sent w ++ ((fun c => (c.2, message)) <$>
                           filter (fun c => c.2 ∉ closed w) conns) ++ l
    /\ Forall (is_left_frame (now w)) l.

(** The record [handle_websocket_message] builds from a valid frame. *)
Definition new_chat_message (dashboard_id user_id username content : string)
    (t : MessageType) (reply_to : option string) (w : world) : ChatMessage.t :=
  ChatMessage.mk (uuid4_str (uuid_drawn w)) dashboard_id user_id username
    content t (now w) None false reply_to.

#[global] Instance wf_store_dec s : Decision (wf_store s).
Proof. unfold wf_store. apply _. Defined.
(** ** More vocabulary: registration, broadcasts that clean up nothing,
       the message store, the REST endpoints *)

(** The connections registered in a room; none when the room has no
    entry. *)
Definition room_connections (dashboard_id : string) (w : world)
  : pydict string ws :=
  PyDict.get_default dashboard_id [] (active_connections w).

(** Every transport registered in the room is open. *)
Definition room_open (dashboard_id : string) (w : world) : Prop :=
  forall u h, (u, h) ∈ room_connections dashboard_id w -> h ∉ closed w.

(** Nothing was sent and the registry, the transports, the clock and the
    settings are as before: only the store, the client, the log and the
    count of UUIDs drawn may differ. *)
Record silent (w w' : world) : Prop := {
  si_settings : settings w' = settings w;
  si_now : now w' = now w;
  si_closed : closed w' = closed w;
  si_sent : sent w' = sent w;
  si_info : connection_info w' = connection_info w;
  si_active : active_connections w' = active_connections w
}.

(** A computation all of whose runs are related by [R]. *)
Definition steps (R : world -> world -> Prop) {A} (m : M A) : Prop :=
  forall w, wp m w (fun _ w' => R w w').

(** The frames one broadcast hands to the connections [conns]. *)
Definition frames_to (conns : list (string * ws)) (message : string)
  : list (ws * string) :=
  (fun c => (c.2, message)) <$> conns.

Definition joined_frame (username : string) (t : datetime) : string :=
  json_dumps (user_event "user_joined" username t).

(** The presence record [connect] writes. *)
Definition presence_of (websocket : ws) (dashboard_id user_id username : string)
    (t : datetime) : ConnectedUser.t :=
  ConnectedUser.mk user_id dashboard_id username ONLINE t t
    (Some (id_str websocket)).

(** The two registry updates of [connect]. *)
Definition registered (websocket : ws) (dashboard_id user_id username : string)
    (w : world) : world :=
  set_info (PyDict.set websocket (mkConn dashboard_id user_id username)
              (connection_info w))
    (set_active
       (PyDict.set dashboard_id
          (PyDict.set user_id websocket (room_connections dashboard_id w))
          (active_connections w)) w).

(** The registry and the transports are as before. *)
Record same_registry (w w' : world) : Prop := {
  sr_settings : settings w' = settings w;
  sr_now : now w' = now w;
  sr_closed : closed w' = closed w;
  sr_info : connection_info w' = connection_info w;
  sr_active : active_connections w' = active_connections w
}.

(** As long as every transport of the room is open, the registry stays
    as it is. *)
Definition calm (dashboard_id : string) (w w' : world) : Prop :=
  room_open dashboard_id w -> same_registry w w'.

(** A key of the message store: the id list of a room or the hash of a
    message. *)
Definition message_store_key (k : string) : bool :=
  has_prefix "messages:" k || has_prefix "message:" k.

(** The message store is as it was: every id list and every message
    hash, with its time to live. *)
Definition messages_kept (w w' : world) : Prop :=
  forall k, message_store_key k = true ->
    db (redis w') !! k = db (redis w) !! k
    /\ ttl (redis w') !! k = ttl (redis w) !! k.

(** A relation that holds between the state before and after every run
    of a computation, however it ends. *)
Definition always (R : world -> world -> Prop) {A} (m : M A) : Prop :=
  forall w, R w (m w).2.

(** The store after [save_message_to_redis] has written message [m] with
    a history limit of [K]: the hash, the id appended to the list of the
    room, the list trimmed (an emptied list is deleted), and the hash set
    to expire in thirty days. *)
Definition saved (m : ChatMessage.t) (K : Z) (s0 : store) : store :=
  let room := ChatMessage.dashboard_id m in
  let key := message_key room (ChatMessage.id m) in
  let s1 := store_put key (RHash (hash_write (hash_at s0 key) (stored_fields m))) s0 in
  let s2 := store_put ("messages:" +:+ room)
              (RList (history s1 room ++ [ChatMessage.id m])) s1 in
  let s3 := match lslice (history s1 room ++ [ChatMessage.id m]) (- K) (-1) with
            | [] => store_del ("messages:" +:+ room) s2
            | l => store_put ("messages:" +:+ room) (RList l) s2
            end in
  {| db := db s3; ttl := <[key := 30 * 24 * 60 * 60]> (ttl s3) |}.

(** What a REST endpoint may do: answer, or fail with status 500. *)
Definition answers_or_500 {A} (m : M A) : Prop :=
  forall w, (exists a, (m w).1 = Ret a) \/ (m w).1 = Raise (HTTPException 500).

(** A run that only read: the store is as it was, nothing was sent and
    the registry is untouched. *)
Definition reads_only (w w' : world) : Prop :=
  redis w' = redis w /\ silent w w'.

(** The room [get_room_info] creates for a dashboard it does not know. *)
Definition default_room (dashboard_id : string) (w : world) : ChatRoom.t :=
  ChatRoom.mk (uuid4_str (uuid_drawn w)) dashboard_id
    ("Dashboard " +:+ dashboard_id) None (now w) dashboard_id true 100.

(** The response [get_room_info] builds from a room and the presence
    records of its users. *)
Definition room_response (room : ChatRoom.t) (users : list ConnectedUser.t)
  : RoomResponse.t :=
  RoomResponse.mk (ChatRoom.id room) (ChatRoom.dashboard_id room)
    (ChatRoom.name room) (ChatRoom.description room)
    (ChatRoom.created_at room) (ChatRoom.created_by room)
    (ChatRoom.is_active room) (user_response <$> users).

(** The presence records [get_connected_users_from_redis] reads for a
    room. *)
Definition present (room : string) (w : world) : list ConnectedUser.t :=
  omap (resolve_user room w) (elements (members (redis w) room)).
End Vocabulary.

(** ** Scenarios *)

Module Scenario.

#[local] Existing Instance Sample.runtime.

(** A history limit small enough to overflow by hand. *)
Definition tiny : Settings :=
  {| max_message_length := 1000; message_history_limit := 2 |}.

(** A history limit of zero. *)
Definition none_kept : Settings :=
  {| max_message_length := 1000; message_history_limit := 0 |}.

Definition fresh (c : Settings) : world :=
  {| settings := c;
     active_connections := [];
     connection_info := [];
     redis_client := true;
     redis := mkStore ∅ ∅;
     redis_faults := [];
     closed := ∅;
     sent := [];
     log_records := [];
     now := 1700000000123456;
     uuid_drawn := 0 |}.

Definition note (i : string) : ChatMessage.t :=
  ChatMessage.mk i "room" "alice" "Alice" ("note " +:+ i) TEXT
    1700000000000000 None false None.

(** Three notes saved into "room". *)
Definition three_notes : world :=
  (for_each (note <$> ["a"; "b"; "c"]) save_message_to_redis Sample.start).2.

(** Ten notes saved into "room"; then the hashes of two of them expire. *)
Definition ten_notes : world :=
  (for_each (note <$> ["0"; "1"; "2"; "3"; "4"; "5"; "6"; "7"; "8"; "9"])
     save_message_to_redis Sample.start).2.

Definition two_expired : world :=
  set_redis (expire_now (message_key "room" "3")
               (expire_now (message_key "room" "7") (redis ten_notes)))
    ten_notes.

(** Alice connects to "room" twice, on handles 1 and then 2. *)
Definition alice_twice : world :=
  (connect 2%nat "room" "alice" "Alice"
     (connect 1%nat "room" "alice" "Alice" Sample.start).2).2.

(** Alice on handle 1 and Bob on handle 2; then Bob's transport closes. *)
Definition two_users : world :=
  (connect 2%nat "room" "bob" "Bob"
     (connect 1%nat "room" "alice" "Alice" Sample.start).2).2.

Definition bob_closed : world := set_closed {[ 2%nat ]} two_users.

Definition alice : ConnectedUser.t :=
  ConnectedUser.mk "alice" "room" "Alice" ONLINE
    1700000000123456 1700000000123456 None.

(** A message dated 2243-06-01 12:00:00.000001 UTC, where binary64
    seconds are coarser than a microsecond, and what comes back for it. *)
Definition late (microsecond : Z) : ChatMessage.t :=
  ChatMessage.mk "uuid-0" "room" "alice" "Alice" "hi" TEXT
    (8628120000000000 + microsecond) None false None.

(** Carol's first connection, on handle 3, while Alice and Bob are
    connected. *)
Definition carol : conn_data := mkConn "room" "carol" "Carol".

(** Redis answers none of the next [n] calls. *)
Definition redis_down (n : nat) (w : world) : world :=
  set_faults (replicate n true) w.

(** Alice and Bob connected to a room that holds ten notes, two of them
    expired. *)
Definition busy_room : world := set_redis (redis two_expired) two_users.

Definition room : ChatRoom.t :=
  ChatRoom.mk "uuid-0" "room" "Dashboard room" None 1700000000123456 "room"
    true 100.

(** Two more frames, one of a type the handler does not know and one
    that is a JSON array, and a runtime whose [json.loads] knows them. *)
Definition ping : string :=
  "{" +:+ Sample.q +:+ "type" +:+ Sample.q +:+ ":" +:+ Sample.q +:+ "ping"
  +:+ Sample.q +:+ "}".
Definition array : string := "[]".

Definition more_frames : PyRuntime := {|
  json_loads s :=
    PyDict.get s ((ping, PDict [("type", PStr "ping")])
                  :: (array, PList []) :: Sample.frames);
  json_dumps := Sample.dumps;
  dt_timestamp := Sample.timestamp;
  dt_fromtimestamp := Sample.fromtimestamp;
  dt_isoformat := Sample.decimal;
  float_repr := Sample.repr_float;
  int_repr := Sample.decimal;
  pydantic_datetime_of_str := Sample.of_decimal;
  pydantic_datetime_of_num := Sample.fromtimestamp;
  pydantic_int_of_str := Sample.of_decimal;
  uuid4_str n := "uuid-" +:+ Sample.decimal (Z.of_nat n);
  id_str n := Sample.decimal (Z.of_nat n)
|}.

End Scenario.

(** ** Running a computation *)

Ltac mrun := unfold mbind, M_bind, mret, M_ret, raise; cbn.

(** ** Serialization of the models *)

Section Serialization.
Context `{PyRuntime}.

Lemma MessageType_of_value (t : MessageType) :
  MessageType_of (PStr (MessageType_value t)) = Some t.
Proof. by destruct t. Qed.

Lemma UserStatus_of_value (s : UserStatus) :
  UserStatus_of (PStr (UserStatus_value s)) = Some s.
Proof. by destruct s. Qed.


(** The same for a room record (flag [is_active], optional [description]). *)
Lemma ChatRoom_from_dict_to_dict (r : ChatRoom.t) (w : world) :
  restored (ChatRoom.created_at r) ->
  ChatRoom.from_dict (ChatRoom.to_dict r) w = (Ret r, w)
  /\ PyDict.get "is_active" (ChatRoom.to_dict r)
     = Some (PStr (if ChatRoom.is_active r then "1" else "0")).
Proof.
  destruct r as [i d n ds ca cb ac mu]; cbn [ChatRoom.created_at ChatRoom.is_active].
  unfold restored. intros Ht. split.
  - unfold ChatRoom.from_dict, ChatRoom.to_dict, convert_timestamp.
    destruct ds; cbn; rewrite Ht; mrun; unfold ChatRoom.cls; cbn;
      by destruct ac.
  - by destruct ds.
Qed.

End Serialization.


(** Case analysis on every key comparison in the goal. *)
Ltac keys :=
  repeat match goal with
         | |- context [key_eqb ?a ?b] =>
             destruct (key_eqb_spec a b); subst; cbn
         end;
  try congruence.

Module DictFacts.

Section Facts.
Context {K V : Type} `{KeyEq K}.
Implicit Types (k : K) (v : V) (d : list (K * V)).

Lemma get_set k v d : PyDict.get k (PyDict.set k v d) = Some v.
Proof. induction d as [|[k' v'] d IH]; cbn; keys. Qed.

Lemma get_set_other k k' v d :
  k <> k' -> PyDict.get k' (PyDict.set k v d) = PyDict.get k' d.
Proof. intros Hne. induction d as [|[k0 v0] d IH]; cbn; keys. Qed.

Lemma get_del k d : PyDict.get k (PyDict.del k d) = None.
Proof. induction d as [|[k' v'] d IH]; cbn; keys. Qed.

Lemma get_del_other k k' d :
  k <> k' -> PyDict.get k' (PyDict.del k d) = PyDict.get k' d.
Proof. intros Hne. induction d as [|[k0 v0] d IH]; cbn; keys. Qed.

Lemma get_del_Some k k' v d :
  PyDict.get k' (PyDict.del k d) = Some v ->
  k <> k' /\ PyDict.get k' d = Some v.
Proof.
  intros Hg. assert (k <> k') as Hne by (intros ->; by rewrite get_del in Hg).
  by rewrite get_del_other in Hg.
Qed.

Lemma get_elem k v d : PyDict.get k d = Some v -> (k, v) ∈ d.
Proof.
  induction d as [|[k' v'] d IH]; cbn; [done|].
  destruct (key_eqb_spec k k') as [->|Hne].
  - intros [= ->]. left.
  - intros Hg. right. auto.
Qed.

Lemma elem_del k k' v d : (k', v) ∈ PyDict.del k d -> k <> k' /\ (k', v) ∈ d.
Proof.
  induction d as [|[k0 v0] d IH]; cbn; [by intros ?%elem_of_nil|].
  destruct (key_eqb_spec k k0) as [->|Hne].
  - intros [? ?]%IH. split; [done | by right].
  - intros [[= -> ->]|Hin]%elem_of_cons.
    + split; [done | left].
    + destruct (IH Hin). split; [done | by right].
Qed.

Lemma del_subseteq k d : PyDict.del k d ⊆ d.
Proof. intros [k' v] Hin. by apply elem_del in Hin as [_ ?]. Qed.

Lemma length_del k d : (length (PyDict.del k d) <= length d)%nat.
Proof. induction d as [|[k' v'] d IH]; cbn; [done|]. keys; cbn; lia. Qed.

Lemma length_del_lt k v d :
  PyDict.get k d = Some v -> (length (PyDict.del k d) < length d)%nat.
Proof.
  induction d as [|[k' v'] d IH]; cbn; [done|].
  destruct (key_eqb_spec k k') as [->|Hne]; cbn.
  - intros _. pose proof (length_del k' d). lia.
  - intros Hg. specialize (IH Hg). lia.
Qed.

End Facts.

End DictFacts.

Import DictFacts.

(** ** Cleaning up only shrinks the registry *)

Section Relations.
Context `{PyRuntime}.

Lemma store_shrinks_refl s : store_shrinks s s.
Proof. repeat split; eauto. Qed.

Lemma store_shrinks_trans s1 s2 s3 :
  store_shrinks s1 s2 -> store_shrinks s2 s3 -> store_shrinks s1 s3.
Proof.
  intros (A1 & B1 & C1) (A2 & B2 & C2). repeat split; eauto.
  intros k S' x Hk Hx. destruct (B2 _ _ _ Hk Hx) as (S2 & Hk2 & Hx2). eauto.
Qed.

Lemma shrinks_refl w : shrinks w w.
Proof.
  split; eauto using store_shrinks_refl.
  exists []. by rewrite app_nil_r.
Qed.

Lemma shrinks_trans w1 w2 w3 : shrinks w1 w2 -> shrinks w2 w3 -> shrinks w1 w3.
Proof.
  intros A B. split.
  - by rewrite (sh_settings _ _ B), (sh_settings _ _ A).
  - by rewrite (sh_now _ _ B), (sh_now _ _ A).
  - by rewrite (sh_closed _ _ B), (sh_closed _ _ A).
  - by rewrite (sh_uuid _ _ B), (sh_uuid _ _ A).
  - destruct (sh_sent _ _ A) as (l1 & E1 & F1), (sh_sent _ _ B) as (l2 & E2 & F2).
    exists (l1 ++ l2). rewrite E2, E1, app_assoc. split; [done|].
    apply Forall_app. split; [done|]. by rewrite <- (sh_now _ _ A).
  - intros h d Hd. by apply (sh_info _ _ A), (sh_info _ _ B).
  - pose proof (sh_info_len _ _ A). pose proof (sh_info_len _ _ B). lia.
  - intros r c3 H3. destruct (sh_active _ _ B _ _ H3) as (c2 & H2 & S2).
    destruct (sh_active _ _ A _ _ H2) as (c1 & H1 & S1).
    exists c1. split; [done|]. by etrans.
  - eapply store_shrinks_trans; [apply A | apply B].
  - intros F. by apply (sh_faults _ _ B), (sh_faults _ _ A).
  - intros F. by apply (sh_client _ _ B), (sh_client _ _ A).
  - intros F. by apply (sh_registry _ _ B), (sh_registry _ _ A).
Qed.

Lemma presence_absent_shrinks d s s' :
  store_shrinks s s' -> presence_absent d s -> presence_absent d s'.
Proof.
  intros (A & B & _) (P1 & P2). split; [by apply A|].
  intros S' Hk Hx. destruct (B _ _ _ Hk Hx) as (S & Hs & Hin). by apply (P2 S).
Qed.

Lemma announced_shrinks d w w' : shrinks w w' -> announced d w -> announced d w'.
Proof.
  intros A Ha conns' u h Hr Hin Hopen.
  destruct (sh_active _ _ A _ _ Hr) as (conns & Hr0 & Hsub).
  rewrite (sh_closed _ _ A) in Hopen. rewrite (sh_now _ _ A).
  destruct (sh_sent _ _ A) as (l & -> & _).
  apply elem_of_app. left. eapply Ha; eauto.
Qed.

Lemma cleanup_refl w : cleanup w w.
Proof. split; [apply shrinks_refl|]. intros h d H1 H2. congruence. Qed.

Lemma cleanup_trans w1 w2 w3 : cleanup w1 w2 -> cleanup w2 w3 -> cleanup w1 w3.
Proof.
  intros [A DA] [B DB]. split; [by eapply shrinks_trans|].
  intros h d H1 H3 Hf Hwf.
  destruct (PyDict.get h (connection_info w2)) as [d2|] eqn:H2.
  - assert (d2 = d) as -> by (apply (sh_info _ _ A) in H2; congruence).
    apply (DB h d); auto. + by apply (sh_faults _ _ A). + by apply (sh_store _ _ A).
  - destruct (DA h d H1 H2 Hf Hwf) as [P Q]. split.
    + eapply presence_absent_shrinks; [apply B | done].
    + by eapply announced_shrinks.
Qed.

End Relations.

Lemma wp_intro {A} (m : M A) w r w' (Q : outcome A -> world -> Prop) :
  m w = (r, w') -> r <> Stuck -> Q r w' -> wp m w Q.
Proof. intros E ? ?. unfold wp. by rewrite E. Qed.

Lemma wp_mono {A} (m : M A) w (Q Q' : outcome A -> world -> Prop) :
  wp m w Q -> (forall r w', r <> Stuck -> Q r w' -> Q' r w') -> wp m w Q'.
Proof. intros [? ?] HQ. split; auto. Qed.

Lemma wp_ret {A} (a : A) w (Q : outcome A -> world -> Prop) :
  Q (Ret a) w -> wp (mret a) w Q.
Proof. by split. Qed.

Lemma wp_raise {A} e w (Q : outcome A -> world -> Prop) :
  Q (Raise e) w -> wp (raise e) w Q.
Proof. by split. Qed.

Lemma wp_bind {A B} (m : M A) (f : A -> M B) w (Q : outcome B -> world -> Prop) :
  wp m w (fun r w' => match r with
                      | Ret a => wp (f a) w' Q
                      | Raise e => Q (Raise e) w'
                      | Stuck => False
                      end) ->
  wp (m ≫= f) w Q.
Proof.
  unfold wp, mbind, M_bind. destruct (m w) as [[a|e|] w']; cbn; intros [? ?]; done.
Qed.

Lemma wp_try {A} (body : M A) (handler : exn -> M A) w
      (Q : outcome A -> world -> Prop) :
  wp body w (fun r w' => match r with
                         | Raise e => wp (handler e) w' Q
                         | _ => Q r w'
                         end) ->
  wp (try_except body handler) w Q.
Proof.
  unfold wp, try_except. destruct (body w) as [[a|e|] w']; cbn; intros [? ?]; done.
Qed.

Lemma wp_get_world w (Q : outcome world -> world -> Prop) :
  Q (Ret w) w -> wp get_world w Q.
Proof. by split. Qed.

Lemma wp_modify f w (Q : outcome unit -> world -> Prop) :
  Q (Ret tt) (f w) -> wp (modify f) w Q.
Proof. by split. Qed.

Lemma wp_logger l msg w (Q : outcome unit -> world -> Prop) :
  Q (Ret tt) (set_log (log_records w ++ [(l, msg)]) w) -> wp (logger l msg) w Q.
Proof. by split. Qed.

Lemma wp_redis_call {A} (cmd : store -> rresult A) w
      (Q : outcome A -> world -> Prop) :
  (forall e, redis_faults w <> [] \/ cmd (redis w) = inl e ->
             Q (Raise e) (set_faults (tail (redis_faults w)) w)) ->
  (forall a s, cmd (redis w) = inr (a, s) ->
               Q (Ret a) (set_redis s (set_faults (tail (redis_faults w)) w))) ->
  wp (redis_call cmd) w Q.
Proof.
  intros Hr Ho. unfold wp, redis_call.
  destruct (redis_faults w) as [|[] fs] eqn:F; cbn.
  - destruct (cmd (redis w)) as [e|[a s]] eqn:E; cbn; split; auto.
  - split; [done|]. apply Hr. by left.
  - destruct (cmd (redis w)) as [e|[a s]] eqn:E; cbn; split; auto.
Qed.

Lemma quiet_refl w : quiet w w.
Proof. split; auto using store_shrinks_refl. Qed.

Lemma quiet_trans w1 w2 w3 : quiet w1 w2 -> quiet w2 w3 -> quiet w1 w3.
Proof.
  intros A B. split.
  - by rewrite (q_settings _ _ B), (q_settings _ _ A).
  - by rewrite (q_now _ _ B), (q_now _ _ A).
  - by rewrite (q_closed _ _ B), (q_closed _ _ A).
  - by rewrite (q_uuid _ _ B), (q_uuid _ _ A).
  - by rewrite (q_sent _ _ B), (q_sent _ _ A).
  - by rewrite (q_info _ _ B), (q_info _ _ A).
  - by rewrite (q_active _ _ B), (q_active _ _ A).
  - eapply store_shrinks_trans; [apply A | apply B].
  - intros F. by apply (q_faults _ _ B), (q_faults _ _ A).
  - intros F. by apply (q_client _ _ B), (q_client _ _ A).
Qed.

Lemma quiet_set_log l w : quiet w (set_log l w).
Proof. split; auto using store_shrinks_refl. Qed.

Lemma quiet_set_client w : quiet w (set_client true w).
Proof. split; auto using store_shrinks_refl. Qed.

Lemma quiet_set_faults w : quiet w (set_faults (tail (redis_faults w)) w).
Proof. split; auto using store_shrinks_refl. cbn. by intros ->. Qed.

Lemma quiet_set_redis s w : store_shrinks (redis w) s -> quiet w (set_redis s w).
Proof. split; auto. Qed.

Section Steps.
Context `{PyRuntime}.

Lemma quiet_shrinks w w' : quiet w w' -> shrinks w w'.
Proof.
  intros Q. split; try apply Q.
  - exists []. rewrite app_nil_r. split; [apply Q | done].
  - intros h d. by rewrite (q_info _ _ Q).
  - by rewrite (q_info _ _ Q).
  - intros r c. rewrite (q_active _ _ Q). eauto.
  - unfold registry_ok. by rewrite (q_info _ _ Q), (q_active _ _ Q).
Qed.

Lemma quiet_cleanup w w' : quiet w w' -> cleanup w w'.
Proof.
  intros Q. split; [by apply quiet_shrinks|].
  intros h d H1 H2. rewrite (q_info _ _ Q) in H2. congruence.
Qed.

End Steps.

(** ** Redis commands on a well-kinded store *)

Lemma wf_store_del k s : wf_store s -> wf_store (store_del k s).
Proof. unfold wf_store. cbn. apply map_Forall_delete. Qed.

Lemma wf_store_put k v s :
  key_kind k = Some (kind_of v) -> wf_store s -> wf_store (store_put k v s).
Proof. unfold wf_store. cbn. intros. by apply map_Forall_insert_2. Qed.

Lemma wf_store_lookup k v s :
  wf_store s -> db s !! k = Some v -> key_kind k = Some (kind_of v).
Proof. intros Hwf Hk. by apply (Hwf k v). Qed.

Lemma store_shrinks_del k s : store_shrinks s (store_del k s).
Proof.
  repeat split; cbn.
  - intros k' Hk. destruct (decide (k = k')) as [->|]; by simplify_map_eq.
  - intros k' S' x Hk Hx. destruct (decide (k = k')) as [->|]; simplify_map_eq. eauto.
  - apply wf_store_del.
Qed.

Lemma delete_spec k s :
  exists n s', Redis.delete k s = inr (n, s')
               /\ store_shrinks s s' /\ db s' !! k = None
               /\ (n = match db s !! k with Some _ => 1 | None => 0 end)
               /\ db s' = delete k (db s).
Proof.
  unfold Redis.delete. destruct (db s !! k) eqn:E.
  - eexists _, _. split; [done|]. split; [apply store_shrinks_del|].
    cbn. by simplify_map_eq.
  - eexists _, _. split; [done|]. split; [apply store_shrinks_refl|].
    repeat split; try done. by rewrite delete_id.
Qed.

Lemma srem_spec k x s :
  (exists v, db s !! k = Some v /\ kind_of v <> KSet /\ Redis.srem k x s = inl ResponseError)
  \/ (exists s', Redis.srem k x s = inr (tt, s') /\ store_shrinks s s'
                 /\ forall S, db s' !! k = Some (RSet S) -> x ∉ S).
Proof.
  unfold Redis.srem. destruct (db s !! k) as [[h|l|S]|] eqn:E.
  - left. by exists (RHash h).
  - left. by exists (RList l).
  - right. destruct (decide (S ∖ {[x]} = ∅)) as [He|Hne].
    + eexists. split; [done|]. split; [apply store_shrinks_del|].
      cbn. intros S'. by simplify_map_eq.
    + eexists. split; [done|]. split.
      * repeat split; cbn.
        -- intros k' Hk. destruct (decide (k = k')) as [->|]; by simplify_map_eq.
        -- intros k' S' y Hk Hy. destruct (decide (k = k')) as [->|].
           ++ rewrite lookup_insert_eq in Hk. injection Hk as <-.
              exists S. split; [done | set_solver].
           ++ rewrite lookup_insert_ne in Hk by done. eauto.
        -- intros Hwf. apply wf_store_put; [|done].
           by apply (wf_store_lookup k (RSet S) s).
      * cbn. intros S'. simplify_map_eq. intros [= <-]. set_solver.
  - right. eexists. split; [done|]. split; [apply store_shrinks_refl|].
    intros S. by rewrite E.
Qed.

(** ** One broadcast *)

Section Broadcast.
Context `{PyRuntime}.

Lemma wp_get_redis w (Q : outcome unit -> world -> Prop) :
  (forall r w', quiet w w' -> r <> Stuck ->
                (redis_faults w = [] -> r = Ret tt) -> Q r w') ->
  wp get_redis w Q.
Proof.
  intros HQ. unfold wp.
  assert (G : exists r w', get_redis w = (r, w') /\ quiet w w' /\ r <> Stuck
                           /\ (redis_faults w = [] -> r = Ret tt)).
  { unfold get_redis, connect_to_redis, try_except, redis_call, logger, modify.
    mrun. destruct (redis_client w) eqn:C.
    - eexists _, _. split; [done|]. split; [apply quiet_refl | done].
    - destruct (redis_faults w) as [|[] fs] eqn:F; cbn;
        (eexists _, _; split; [done|]; split; [|done]);
        split; cbn; auto using store_shrinks_refl; try congruence. }
  destruct G as (r & w' & -> & ? & ? & ?). cbn. auto.
Qed.

Lemma fanout_excluded u h conns message exclude cl :
  excluded exclude u = true ->
  failures ((u, h) :: conns) exclude cl = failures conns exclude cl
  /\ deliveries ((u, h) :: conns) message exclude cl
     = deliveries conns message exclude cl.
Proof.
  intros X. unfold failures, deliveries, recipients.
  rewrite filter_cons. cbn [fst]. rewrite decide_False; [done | congruence].
Qed.

Lemma fanout_failed u h conns message exclude cl :
  excluded exclude u = false -> h ∈ cl ->
  failures ((u, h) :: conns) exclude cl = h :: failures conns exclude cl
  /\ deliveries ((u, h) :: conns) message exclude cl
     = deliveries conns message exclude cl.
Proof.
  intros X Hc. unfold failures, deliveries, recipients.
  rewrite filter_cons. cbn [fst]. rewrite decide_True by done.
  rewrite !filter_cons. cbn [snd].
  rewrite decide_True by done. rewrite decide_False by (by intros ?). done.
Qed.

Lemma fanout_delivered u h conns message exclude cl :
  excluded exclude u = false -> h ∉ cl ->
  failures ((u, h) :: conns) exclude cl = failures conns exclude cl
  /\ deliveries ((u, h) :: conns) message exclude cl
     = (h, message) :: deliveries conns message exclude cl.
Proof.
  intros X Hc. unfold failures, deliveries, recipients.
  rewrite filter_cons. cbn [fst]. rewrite decide_True by done.
  rewrite !filter_cons. cbn [snd].
  rewrite decide_False by done. rewrite decide_True by done. done.
Qed.

Lemma send_loop_run conns message exclude acc w :
  send_loop conns message exclude acc w
  = (Ret (acc ++ failures conns exclude (closed w)),
     after_fanout conns message exclude w).
Proof.
  revert acc w. induction conns as [|[u h] conns IH]; intros acc w.
  - cbn. unfold after_fanout, failures, deliveries, recipients; cbn.
    rewrite !app_nil_r. by destruct w.
  - cbn [send_loop]. fold (excluded exclude u).
    destruct (excluded exclude u) eqn:X.
    + destruct (fanout_excluded u h conns message exclude (closed w) X) as [F D].
      rewrite IH. unfold after_fanout. by rewrite F, D.
    + destruct (decide (h ∈ closed w)) as [Hc|Hc].
      * destruct (fanout_failed u h conns message exclude (closed w) X Hc) as [F D].
        unfold after_fanout. rewrite F, D.
        unfold try_except, ws_send_text, logger, modify. mrun.
        rewrite decide_True by done. cbn.
        rewrite IH. unfold after_fanout. cbn. by rewrite <- !app_assoc.
      * destruct (fanout_delivered u h conns message exclude (closed w) X Hc) as [F D].
        unfold after_fanout. rewrite F, D.
        unfold try_except, ws_send_text, logger, modify. mrun.
        rewrite decide_False by done. cbn.
        rewrite IH. unfold after_fanout. cbn. by rewrite <- !app_assoc.
Qed.

Lemma quietish_after_fanout conns message exclude w :
  connection_info (after_fanout conns message exclude w) = connection_info w
  /\ active_connections (after_fanout conns message exclude w) = active_connections w
  /\ redis (after_fanout conns message exclude w) = redis w
  /\ redis_faults (after_fanout conns message exclude w) = redis_faults w
  /\ closed (after_fanout conns message exclude w) = closed w
  /\ now (after_fanout conns message exclude w) = now w.
Proof. done. Qed.

Lemma gone_stays_gone h w w' :
  shrinks w w' -> PyDict.get h (connection_info w) = None ->
  PyDict.get h (connection_info w') = None.
Proof.
  intros S Hn. destruct (PyDict.get h (connection_info w')) eqn:E; [|done].
  apply (sh_info _ _ S) in E. congruence.
Qed.

Lemma for_each_disc bound disc l w :
  disc_ok bound disc -> (length (connection_info w) <= bound)%nat ->
  wp (for_each l disc) w
     (fun r w' => r = Ret tt /\ cleanup w w'
                  /\ Forall (fun h => PyDict.get h (connection_info w') = None) l).
Proof.
  intros Hd. revert w. induction l as [|h l IH]; intros w Hb; cbn [for_each].
  - apply wp_ret. auto using cleanup_refl.
  - apply wp_bind. eapply wp_mono; [by apply Hd|].
    intros r w1 _ (-> & C1 & G1).
    eapply wp_mono; [apply IH|].
    + pose proof (sh_info_len _ _ (proj1 C1)). lia.
    + intros r w2 _ (-> & C2 & G2). split; [done|]. split; [by eapply cleanup_trans|].
      constructor; [|done]. eapply gone_stays_gone; [apply C2 | done].
Qed.

Lemma broadcast_with_ok bound disc dashboard_id message exclude w :
  disc_ok bound disc -> (length (connection_info w) <= bound)%nat ->
  wp (broadcast_to_dashboard_with disc dashboard_id message exclude) w
     (fun r w' => r = Ret tt /\ bcast_post dashboard_id message exclude w w').
Proof.
  intros Hd Hb. unfold broadcast_to_dashboard_with, bcast_post.
  apply wp_bind, wp_get_world.
  destruct (PyDict.get dashboard_id (active_connections w)) as [conns|].
  - apply wp_bind. eapply wp_intro; [apply send_loop_run | done |]. cbn [app].
    eapply wp_mono; [by apply (for_each_disc bound)|].
    intros r w' _ (-> & C & G). done.
  - by apply wp_ret.
Qed.

End Broadcast.

(** ** Unregistering a connection *)

Section Unregister.
Context `{PyRuntime}.

Lemma remove_connection_get r u a r' conns' :
  PyDict.get r' (remove_connection r u a) = Some conns' ->
  exists conns, PyDict.get r' a = Some conns /\ conns' ⊆ conns
                /\ (r' = r -> forall h, (u, h) ∉ conns').
Proof.
  unfold remove_connection.
  destruct (PyDict.get r a) as [c|] eqn:Hr.
  - destruct (decide (r = r')) as [->|Hne].
    + destruct (PyDict.del u c) as [|x c'] eqn:Hdel.
      * by rewrite get_del.
      * rewrite get_set. intros [= <-]. exists c. split; [done|].
        rewrite <- Hdel. split; [apply del_subseteq|].
        intros _ h Hin. by apply elem_del in Hin as [? _].
    + destruct (PyDict.del u c) as [|x c'].
      * rewrite get_del_other by done. intros Hg. exists conns'. naive_solver.
      * rewrite get_set_other by done. intros Hg. exists conns'. naive_solver.
  - intros Hg. exists conns'. split; [done|]. split; [done|]. intros ->. congruence.
Qed.

Lemma get_Some_length {V} h (d : V) (i : list (ws * V)) :
  PyDict.get h i = Some d -> (0 < length i)%nat.
Proof. destruct i; [done | cbn; lia]. Qed.

Lemma shrinks_unregistered h d w :
  PyDict.get h (connection_info w) = Some d -> shrinks w (unregistered h d w).
Proof.
  intros Hd. split; cbn; auto using store_shrinks_refl.
  - exists []. by rewrite app_nil_r.
  - intros h' d' Hg. by apply get_del_Some in Hg as [_ ?].
  - apply length_del.
  - intros r c' Hg. apply remove_connection_get in Hg as (c & ? & ? & _). eauto.
  - intros Hok r c' u' h' Hg Hin. cbn in *.
    apply remove_connection_get in Hg as (c & Hc & Hsub & Hu).
    destruct (Hok r c u' h' Hc (Hsub _ Hin)) as [name Hn].
    exists name. rewrite get_del_other; [done|].
    intros <-. rewrite Hd in Hn. injection Hn as ->. cbn in Hu.
    by apply (Hu eq_refl h).
Qed.

Lemma elem_deliveries u h conns message exclude cl :
  (u, h) ∈ conns -> excluded exclude u = false -> h ∉ cl ->
  (h, message) ∈ deliveries conns message exclude cl.
Proof.
  intros Hin X Hc. unfold deliveries, recipients.
  apply (list_elem_of_fmap_2 (fun c : string * ws => (c.2, message)) _ (u, h)).
  apply list_elem_of_filter. split; [done|]. by apply list_elem_of_filter.
Qed.

Lemma shrinks_after_fanout_left conns username exclude w :
  shrinks w (after_fanout conns (left_frame username (now w)) exclude w).
Proof.
  split; cbn; auto using store_shrinks_refl.
  - eexists. split; [done|]. unfold deliveries.
    apply Forall_fmap, Forall_forall. intros c _. by exists username.
  - eauto.
Qed.

Lemma unregister_with_post bound disc h d w :
  disc_ok bound disc ->
  PyDict.get h (connection_info w) = Some d ->
  (length (connection_info w) <= S bound)%nat ->
  wp (unregister_with disc h d) w
     (fun r w' => r = Ret tt /\ cleanup w w'
                  /\ PyDict.get h (connection_info w') = None
                  /\ shrinks (unregistered h d w) w').
Proof.
  intros Hdisc Hd Hb. unfold unregister_with.
  apply wp_bind, wp_modify, wp_bind, wp_modify.
  fold (unregistered h d w). set (w2 := unregistered h d w).
  pose proof (shrinks_unregistered h d w Hd) as S2. fold w2 in S2.
  assert (G2 : PyDict.get h (connection_info w2) = None) by apply get_del.
  assert (B2 : (length (connection_info w2) <= bound)%nat).
  { cbn. pose proof (length_del_lt h d (connection_info w) Hd). lia. }
  assert (F2 : redis_faults w2 = redis_faults w) by done.
  assert (R2 : redis w2 = redis w) by done.
  (* what remains to show once the handler or the body has returned *)
  assert (Fin : forall w',
    shrinks w2 w' ->
    (redis_faults w = [] -> wf_store (redis w) ->
       presence_absent d (redis w') /\ announced d w' /\ departed w2 w') ->
    cleanup w w' /\ PyDict.get h (connection_info w') = None
    /\ shrinks w2 w').
  { intros w' S' Hgood. split; [|split; [by eapply gone_stays_gone|done]].
    split; [by eapply shrinks_trans|].
    intros h0 d0 H0 H0' Hf Hwf. destruct (Hgood Hf Hwf) as (P & A & D).
    destruct (decide (h0 = h)) as [->|Hne].
    - assert (d0 = d) as -> by congruence. done.
    - apply (D h0 d0); [|done|by rewrite F2|by rewrite R2].
      cbn. by rewrite get_del_other. }
  apply wp_try, wp_bind, wp_get_redis. intros r w3 Q3 Hns Hret.
  destruct r as [[]|e|]; [|apply wp_logger; split; [done|]|done].
  2:{ apply Fin.
      - eapply shrinks_trans; [apply quiet_shrinks, Q3|apply quiet_shrinks, quiet_set_log].
      - intros Hf _. rewrite <- F2 in Hf. by specialize (Hret Hf). }
  apply wp_bind, wp_redis_call.
  { intros e He. apply wp_logger. split; [done|]. apply Fin.
    - eapply shrinks_trans; [apply quiet_shrinks, Q3|].
      eapply shrinks_trans; apply quiet_shrinks;
        [apply quiet_set_faults | apply quiet_set_log].
    - intros Hf _. rewrite <- F2 in Hf. destruct He as [He|He].
      + by apply (q_faults _ _ Q3) in Hf.
      + destruct (delete_spec ("user:" +:+ cd_dashboard_id d +:+ ":" +:+ cd_user_id d)
                              (redis w3)) as (? & ? & E & _). congruence. }
  intros n s4 E4.
  destruct (delete_spec ("user:" +:+ cd_dashboard_id d +:+ ":" +:+ cd_user_id d)
                        (redis w3)) as (n' & s4' & E4' & Sh4 & Gone4 & _).
  rewrite E4 in E4'. injection E4' as <- <-.
  set (w4 := set_redis s4 (set_faults (tail (redis_faults w3)) w3)).
  assert (Q4 : quiet w3 w4).
  { eapply quiet_trans; [apply quiet_set_faults | by apply quiet_set_redis]. }
  apply wp_bind, wp_redis_call.
  { intros e He. apply wp_logger. split; [done|]. apply Fin.
    - eapply shrinks_trans; [apply quiet_shrinks, Q3|].
      eapply shrinks_trans; [apply quiet_shrinks, Q4|].
      eapply shrinks_trans; apply quiet_shrinks;
        [apply quiet_set_faults | apply quiet_set_log].
    - intros Hf Hwf. rewrite <- F2 in Hf. rewrite <- R2 in Hwf.
      destruct He as [He|He].
      + by apply (q_faults _ _ Q3), (q_faults _ _ Q4) in Hf.
      + destruct (srem_spec ("connected_users:" +:+ cd_dashboard_id d)
                            (cd_user_id d) (redis w4))
          as [(v & Hv & Hk & _)|(? & E & _)]; [|congruence].
        apply (q_store _ _ Q3), (q_store _ _ Q4) in Hwf.
        apply (wf_store_lookup _ _ _ Hwf) in Hv. destruct v; done. }
  intros [] s5 E5.
  destruct (srem_spec ("connected_users:" +:+ cd_dashboard_id d)
                      (cd_user_id d) (redis w4))
    as [(v & _ & _ & E)|(s5' & E5' & Sh5 & Gone5)]; [congruence|].
  rewrite E5 in E5'. injection E5' as <-.
  set (w5 := set_redis s5 (set_faults (tail (redis_faults w4)) w4)).
  assert (Q5 : quiet w4 w5).
  { eapply quiet_trans; [apply quiet_set_faults | by apply quiet_set_redis]. }
  apply wp_bind, wp_logger.
  set (w6 := set_log _ w5).
  assert (Q6 : quiet w2 w6).
  { eapply quiet_trans; [apply Q3|]. eapply quiet_trans; [apply Q4|].
    eapply quiet_trans; [apply Q5 | apply quiet_set_log]. }
  assert (P6 : presence_absent d (redis w6)).
  { split; cbn.
    - destruct Sh5 as (A & _). by apply A.
    - apply Gone5. }
  unfold broadcast_user_left_with. apply wp_bind.
  eapply wp_intro; [reflexivity | done |].
  eapply wp_mono.
  { apply (broadcast_with_ok bound disc); [done|]. by rewrite (q_info _ _ Q6). }
  intros r w' _ (-> & Post). split; [done|].
  unfold bcast_post in Post. fold (left_frame (cd_username d) (now w6)) in Post.
  destruct (PyDict.get (cd_dashboard_id d) (active_connections w6)) as [conns|] eqn:Hr.
  - destruct Post as ([S7 D7] & _).
    pose proof (shrinks_after_fanout_left conns (cd_username d) None w6) as Sf.
    apply Fin.
    + eapply shrinks_trans; [apply quiet_shrinks, Q6|]. by eapply shrinks_trans.
    + intros Hf Hwf. rewrite <- F2 in Hf. rewrite <- R2 in Hwf. split; [|split].
      * eapply presence_absent_shrinks; [apply S7|done].
      * intros c' u' h' Hg Hin Hopen.
        destruct (sh_active _ _ S7 _ _ Hg) as (c & Hc & Hsub).
        change (PyDict.get (cd_dashboard_id d) (active_connections w6) = Some c) in Hc.
        rewrite Hr in Hc. injection Hc as <-.
        rewrite (sh_closed _ _ S7) in Hopen.
        change (h' ∉ closed w6) in Hopen.
        destruct (sh_sent _ _ S7) as (l & -> & _). rewrite (sh_now _ _ S7).
        change (now (after_fanout _ _ _ w6)) with (now w6).
        unfold after_fanout at 1. cbn [sent set_log set_sent].
        apply elem_of_app. left. apply elem_of_app. right.
        eapply elem_deliveries; eauto.
      * intros h0 d0 H0 H0' _ _.
        apply (D7 h0 d0); [ | done | |].
        -- change (PyDict.get h0 (connection_info w6) = Some d0).
           by rewrite (q_info _ _ Q6).
        -- by apply (q_faults _ _ Q6).
        -- by apply (q_store _ _ Q6).
  - subst w'. apply Fin.
    + apply quiet_shrinks, Q6.
    + intros _ _. split; [done|]. split.
      * intros c' u' h' Hg. congruence.
      * intros h0 d0 H0 H0'. rewrite (q_info _ _ Q6) in H0'. congruence.
Qed.

Lemma unregister_with_ok bound disc h d w :
  disc_ok bound disc ->
  PyDict.get h (connection_info w) = Some d ->
  (length (connection_info w) <= S bound)%nat ->
  wp (unregister_with disc h d) w
     (fun r w' => r = Ret tt /\ cleanup w w'
                  /\ PyDict.get h (connection_info w') = None).
Proof.
  intros Hdisc Hd Hb. eapply wp_mono; [by eapply unregister_with_post|].
  intros r w' _ (? & ? & ? & _). done.
Qed.

Lemma disconnect_rec_ok n : disc_ok n (disconnect_rec (S n)).
Proof.
  induction n as [|n IH]; intros h w Hb; cbn [disconnect_rec];
    apply wp_bind, wp_get_world;
    destruct (PyDict.get h (connection_info w)) as [d|] eqn:Hd;
    try (apply wp_ret; auto using cleanup_refl).
  - apply get_Some_length in Hd. lia.
  - by apply (unregister_with_ok n).
Qed.

Lemma disconnect_ok bound : disc_ok bound disconnect.
Proof.
  intros h w _. unfold disconnect.
  pose proof (disconnect_rec_ok (length (connection_info w)) h w (le_n _)) as Hw.
  unfold wp in *. done.
Qed.

End Unregister.

(** ** Slices *)

Lemma lastn_length {A} (n : nat) (l : list A) :
  length (lastn n l) = Nat.min n (length l).
Proof. unfold lastn. rewrite length_drop. lia. Qed.

Lemma lastn_app_lastn {A} (n : nat) (l k : list A) :
  lastn n (lastn n l ++ k) = lastn n (l ++ k).
Proof.
  unfold lastn. rewrite !length_app, length_drop.
  destruct (decide (length l <= n)%nat) as [Hle|Hgt].
  - replace (length l - n)%nat with 0%nat by lia.
    rewrite drop_0. f_equal. lia.
  - destruct (decide (length k <= n)%nat) as [Hk|Hk].
    + rewrite drop_app_le by (rewrite length_drop; lia).
      rewrite drop_drop.
      rewrite (drop_app_le l) by lia. f_equal. f_equal. lia.
    + rewrite drop_app_ge by (rewrite length_drop; lia).
      rewrite (drop_app_ge l) by lia. rewrite length_drop. f_equal. lia.
Qed.

Lemma lastn_all {A} (n : nat) (l : list A) :
  (length l <= n)%nat -> lastn n l = l.
Proof. intros. unfold lastn. by replace (length l - n)%nat with 0%nat by lia. Qed.

(** Decide the integer comparisons of the goal, innermost first. *)
Ltac zcases :=
  repeat (match goal with
          | |- context [Z.ltb ?a ?b] =>
              lazymatch a with context [if _ then _ else _] => fail | _ => idtac end;
              lazymatch b with context [if _ then _ else _] => fail | _ => idtac end;
              destruct (Z.ltb_spec a b); try lia
          | |- context [Z.leb ?a ?b] =>
              lazymatch a with context [if _ then _ else _] => fail | _ => idtac end;
              lazymatch b with context [if _ then _ else _] => fail | _ => idtac end;
              destruct (Z.leb_spec a b); try lia
          end; cbn [orb]).

Lemma lslice_tail (l : list string) (k : Z) :
  1 <= k -> lslice l (- k) (-1) = lastn (Z.to_nat k) l.
Proof.
  intros Hk. unfold lslice, lastn. cbn zeta.
  set (n := Z.of_nat (length l)).
  assert (Hn : n = Z.of_nat (length l)) by done. clearbody n.
  zcases.
  - assert (length l = 0)%nat as E by lia.
    apply length_zero_iff_nil in E. by subst l.
  - replace (length l - Z.to_nat k)%nat with 0%nat by (apply Nat2Z.inj; lia).
    cbn. apply take_ge. rewrite length_drop. lia.
  - replace (Z.to_nat (n + - k)) with (length l - Z.to_nat k)%nat
      by (apply Nat2Z.inj; lia).
    apply take_ge. rewrite length_drop. lia.
Qed.

Lemma lslice_window (l : list string) (skip limit : Z) :
  0 <= skip -> 0 < limit ->
  lslice l skip (skip + limit - 1)
  = take (Z.to_nat limit) (drop (Z.to_nat skip) l).
Proof.
  intros Hs Hl. unfold lslice. cbn zeta.
  set (n := Z.of_nat (length l)).
  assert (Hn : n = Z.of_nat (length l)) by done. clearbody n.
  zcases.
  - rewrite drop_ge; [by rewrite take_nil|]. apply Nat2Z.inj_le. lia.
  - rewrite (take_ge _ (Z.to_nat limit)) by (rewrite length_drop; lia).
    apply take_ge. rewrite length_drop. lia.
  - f_equal. lia.
Qed.

Lemma lslice_all (l : list string) : lslice l 0 (-1) = l.
Proof.
  unfold lslice. cbn zeta.
  set (n := Z.of_nat (length l)).
  assert (Hn : n = Z.of_nat (length l)) by done. clearbody n.
  zcases.
  - assert (length l = 0)%nat as E by lia.
    apply length_zero_iff_nil in E. by subst l.
  - apply take_ge. rewrite ?length_drop. lia.
Qed.

Lemma only_store_refl w : only_store w w.
Proof. by split. Qed.

Lemma only_store_trans w1 w2 w3 :
  only_store w1 w2 -> only_store w2 w3 -> only_store w1 w3.
Proof. intros [] []. split; congruence. Qed.

Lemma only_store_up w w' : only_store w w' -> store_up w -> store_up w'.
Proof. intros [] []. split; congruence. Qed.

(** ** Kinds of the keys the program builds *)

Lemma key_kind_messages room : key_kind ("messages:" +:+ room) = Some KList.
Proof. reflexivity. Qed.

Lemma key_kind_message room i : key_kind (message_key room i) = Some KHash.
Proof. reflexivity. Qed.

Lemma key_kind_user room u : key_kind (user_key room u) = Some KHash.
Proof. reflexivity. Qed.

Lemma key_kind_members room : key_kind ("connected_users:" +:+ room) = Some KSet.
Proof. reflexivity. Qed.

Lemma message_key_inj room i j : message_key room i = message_key room j -> i = j.
Proof.
  unfold message_key. intros E.
  by repeat (apply (inj (String.app _)) in E).
Qed.

Lemma user_key_inj room i j : user_key room i = user_key room j -> i = j.
Proof.
  unfold user_key. intros E.
  by repeat (apply (inj (String.app _)) in E).
Qed.

Lemma messages_key_inj r r' : "messages:" +:+ r = "messages:" +:+ r' -> r = r'.
Proof. intros E. by apply (inj (String.app _)) in E. Qed.

Lemma members_key_inj r r' :
  "connected_users:" +:+ r = "connected_users:" +:+ r' -> r = r'.
Proof. intros E. by apply (inj (String.app _)) in E. Qed.

Lemma kind_mismatch k k' a b :
  key_kind k = Some a -> key_kind k' = Some b -> a <> b -> k <> k'.
Proof. intros Ha Hb Hne ->. congruence. Qed.

(** ** Commands on a well-kinded store *)

Section Commands.
Implicit Types (s : store) (k : string).

Lemma wf_kind s k v : wf_store s -> db s !! k = Some v -> key_kind k = Some (kind_of v).
Proof. apply wf_store_lookup. Qed.

Lemma hgetall_wf s k :
  wf_store s -> key_kind k = Some KHash -> Redis.hgetall k s = inr (hash_at s k, s).
Proof.
  intros Hwf Hk. unfold Redis.hgetall, hash_at.
  destruct (db s !! k) as [v|] eqn:E; [|done].
  apply (wf_kind _ _ _ Hwf) in E. destruct v; cbn in E; congruence.
Qed.

Lemma hset_wf s k mapping :
  wf_store s -> key_kind k = Some KHash -> mapping <> [] ->
  Redis.hset k mapping s
  = inr (tt, store_put k (RHash (hash_write (hash_at s k) mapping)) s).
Proof.
  intros Hwf Hk Hm. unfold Redis.hset, hash_at.
  destruct mapping; [done|].
  destruct (db s !! k) as [v|] eqn:E; [|done].
  apply (wf_kind _ _ _ Hwf) in E. destruct v; cbn in E; congruence.
Qed.

Lemma rpush_wf s room v :
  wf_store s ->
  Redis.rpush ("messages:" +:+ room) v s
  = inr (tt, store_put ("messages:" +:+ room) (RList (history s room ++ [v])) s).
Proof.
  intros Hwf. unfold Redis.rpush, history.
  destruct (db s !! _) as [x|] eqn:E; [|done].
  apply (wf_kind _ _ _ Hwf) in E. rewrite key_kind_messages in E.
  destruct x; cbn in E; congruence.
Qed.

Lemma lrange_wf s room a b :
  wf_store s ->
  Redis.lrange ("messages:" +:+ room) a b s = inr (lslice (history s room) a b, s).
Proof.
  intros Hwf. unfold Redis.lrange, history.
  destruct (db s !! _) as [x|] eqn:E.
  - apply (wf_kind _ _ _ Hwf) in E. rewrite key_kind_messages in E.
    destruct x; cbn in E; congruence.
  - unfold lslice. cbn zeta. rewrite drop_nil, take_nil. by destruct (_ || _).
Qed.

Lemma smembers_wf s room :
  wf_store s ->
  Redis.smembers ("connected_users:" +:+ room) s = inr (members s room, s).
Proof.
  intros Hwf. unfold Redis.smembers, members.
  destruct (db s !! _) as [x|] eqn:E; [|done].
  apply (wf_kind _ _ _ Hwf) in E. rewrite key_kind_members in E.
  destruct x; cbn in E; congruence.
Qed.

Lemma sadd_wf s room x :
  wf_store s ->
  Redis.sadd ("connected_users:" +:+ room) x s
  = inr (tt, store_put ("connected_users:" +:+ room)
               (RSet ({[x]} ∪ members s room)) s).
Proof.
  intros Hwf. unfold Redis.sadd, members.
  destruct (db s !! _) as [v|] eqn:E.
  - apply (wf_kind _ _ _ Hwf) in E. rewrite key_kind_members in E.
    destruct v; cbn in E; congruence.
  - by rewrite (right_id_L ∅ (∪)).
Qed.

End Commands.

(** ** A computation when Redis answers *)

Lemma set_faults_nil w : redis_faults w = [] -> set_faults (tail (redis_faults w)) w = w.
Proof. destruct w; cbn; by intros ->. Qed.

Lemma get_redis_up w : store_up w -> get_redis w = (Ret tt, w).
Proof. intros [C _]. unfold get_redis. mrun. by rewrite C. Qed.

Lemma redis_call_up {A} (cmd : store -> rresult A) w :
  store_up w ->
  redis_call cmd w = match cmd (redis w) with
                     | inl e => (Raise e, w)
                     | inr (a, s) => (Ret a, set_redis s w)
                     end.
Proof.
  intros [_ F]. unfold redis_call. rewrite F. cbn.
  replace (set_faults [] w) with w by (destruct w; cbn in *; by subst).
  by destruct (cmd (redis w)) as [e|[a s]].
Qed.

Lemma store_up_set_redis s w : store_up w -> store_up (set_redis s w).
Proof. done. Qed.

Lemma store_up_set_log l w : store_up w -> store_up (set_log l w).
Proof. done. Qed.

Lemma bind_run {A B} (m : M A) (f : A -> M B) w a w' :
  m w = (Ret a, w') -> (m ≫= f) w = f a w'.
Proof. intros E. unfold mbind, M_bind. by rewrite E. Qed.

Lemma bind_raise {A B} (m : M A) (f : A -> M B) w e w' :
  m w = (Raise e, w') -> (m ≫= f) w = (Raise e, w').
Proof. intros E. unfold mbind, M_bind. by rewrite E. Qed.

(** ** Lookups after a store update *)

Lemma history_put_list s room l :
  history (store_put ("messages:" +:+ room) (RList l) s) room = l.
Proof. unfold history. cbn. by rewrite lookup_insert_eq. Qed.

Lemma history_put_other s k v room :
  k <> "messages:" +:+ room -> history (store_put k v s) room = history s room.
Proof. intros Hne. unfold history. cbn. by rewrite lookup_insert_ne. Qed.

Lemma history_del_list s room : history (store_del ("messages:" +:+ room) s) room = [].
Proof. unfold history. cbn. by rewrite lookup_delete_eq. Qed.

Lemma history_del_other s k room :
  k <> "messages:" +:+ room -> history (store_del k s) room = history s room.
Proof. intros Hne. unfold history. cbn. by rewrite lookup_delete_ne. Qed.

Lemma hash_at_put s k h : hash_at (store_put k (RHash h) s) k = h.
Proof. unfold hash_at. cbn. by rewrite lookup_insert_eq. Qed.

Lemma hash_at_put_other s k k' v :
  k <> k' -> hash_at (store_put k v s) k' = hash_at s k'.
Proof. intros Hne. unfold hash_at. cbn. by rewrite lookup_insert_ne. Qed.

Lemma hash_at_del_other s k k' : k <> k' -> hash_at (store_del k s) k' = hash_at s k'.
Proof. intros Hne. unfold hash_at. cbn. by rewrite lookup_delete_ne. Qed.

Lemma hash_at_del s k : hash_at (store_del k s) k = ∅.
Proof. unfold hash_at. cbn. by rewrite lookup_delete_eq. Qed.

Lemma hash_at_not_hash s k a :
  wf_store s -> key_kind k = Some a -> a <> KHash -> hash_at s k = ∅.
Proof.
  intros Hwf Hk Hne. unfold hash_at. destruct (db s !! k) as [v|] eqn:E; [|done].
  apply (wf_kind _ _ _ Hwf) in E. destruct v; cbn in E; congruence.
Qed.

Lemma members_put s room m :
  members (store_put ("connected_users:" +:+ room) (RSet m) s) room = m.
Proof. unfold members. cbn. by rewrite lookup_insert_eq. Qed.

Lemma members_put_other s k v room :
  k <> "connected_users:" +:+ room -> members (store_put k v s) room = members s room.
Proof. intros Hne. unfold members. cbn. by rewrite lookup_insert_ne. Qed.

Lemma members_del_other s k room :
  k <> "connected_users:" +:+ room -> members (store_del k s) room = members s room.
Proof. intros Hne. unfold members. cbn. by rewrite lookup_delete_ne. Qed.

(** ** Saving a message *)

Section MessageStore.
Context `{PyRuntime}.

Lemma encode_to_dict m :
  encode_mapping (ChatMessage.to_dict m) = Some (stored_fields m)
  /\ stored_fields m <> [].
Proof.
  unfold stored_fields.
  destruct m as [i d u n c mt ts [e|] dl [r|]]; cbn; done.
Qed.

Lemma save_message_run (m : ChatMessage.t) (w : world) :
  store_up w -> wf_store (redis w) ->
  1 <= message_history_limit (settings w) ->
  let room := ChatMessage.dashboard_id m in
  let key := message_key room (ChatMessage.id m) in
  exists w',
    save_message_to_redis m w = (Ret tt, w')
    /\ only_store w w' /\ wf_store (redis w')
    /\ history (redis w') room
       = lastn (Z.to_nat (message_history_limit (settings w)))
               (history (redis w) room ++ [ChatMessage.id m])
    /\ (forall r, r <> room -> history (redis w') r = history (redis w) r)
    /\ hash_at (redis w') key = hash_write (hash_at (redis w) key) (stored_fields m)
    /\ (forall k, k <> key -> hash_at (redis w') k = hash_at (redis w) k)
    /\ (forall r, members (redis w') r = members (redis w) r).
Proof.
  intros Hup Hwf HK room key.
  destruct (encode_to_dict m) as [Henc Hne].
  set (K := message_history_limit (settings w)) in *.
  set (s0 := redis w).
  set (s1 := store_put key (RHash (hash_write (hash_at s0 key) (stored_fields m))) s0).
  set (s2 := store_put ("messages:" +:+ room)
               (RList (history s1 room ++ [ChatMessage.id m])) s1).
  assert (Hwf1 : wf_store s1) by (by apply wf_store_put).
  assert (Hwf2 : wf_store s2) by (by apply wf_store_put).
  assert (Hkl : key <> "messages:" +:+ room)
    by (by apply (kind_mismatch _ _ KHash KList)).
  assert (Hh1 : history s1 room = history s0 room) by (by apply history_put_other).
  set (l := lastn (Z.to_nat K) (history s0 room ++ [ChatMessage.id m])).
  assert (Hl : lslice (history s1 room ++ [ChatMessage.id m]) (- K) (-1) = l).
  { rewrite Hh1. by apply lslice_tail. }
  assert (Hlne : exists x l', l = x :: l').
  { destruct l as [|x l'] eqn:E; [|by eauto]. apply (f_equal length) in E. unfold l in E.
    rewrite lastn_length, length_app in E. cbn in E. lia. }
  destruct Hlne as (x & l' & El).
  set (s3 := store_put ("messages:" +:+ room) (RList l) s2).
  set (s4 := {| db := db s3; ttl := <[key := 30 * 24 * 60 * 60]> (ttl s3) |}).
  exists (set_redis s4 (set_log (log_records w ++ [(INFO, "Saving message to Redis: ")]) w)).
  split.
  { unfold save_message_to_redis.
    change (ChatMessage.get_redis_key m) with key.
    change (ChatMessage.dashboard_id m) with room.
    erewrite bind_run by (by apply get_redis_up).
    erewrite bind_run by reflexivity.
    unfold redis_hset. rewrite Henc.
    erewrite bind_run.
    2:{ rewrite redis_call_up by done. cbn [redis set_log].
        fold s0. by rewrite hset_wf. }
    fold s1.
    erewrite bind_run.
    2:{ rewrite redis_call_up by done. cbn [redis set_redis set_log].
        by rewrite rpush_wf. }
    fold s2.
    erewrite bind_run by reflexivity.
    erewrite bind_run.
    2:{ rewrite redis_call_up by done. cbn [redis set_redis set_log settings].
        fold K. unfold Redis.ltrim. unfold s2 at 1. cbn [db store_put].
        rewrite lookup_insert_eq, Hl, El. by rewrite <- El. }
    rewrite redis_call_up by done. cbn [redis set_redis set_log].
    unfold Redis.expire.
    replace (db (store_put ("messages:" +:+ room) (RList l) s2) !! key)
      with (Some (RHash (hash_write (hash_at s0 key) (stored_fields m)))).
    2:{ cbn. rewrite lookup_insert_ne by done. unfold s2. cbn.
        rewrite lookup_insert_ne by done. unfold s1. cbn.
        by rewrite lookup_insert_eq. }
    reflexivity. }
  split; [by split|].
  assert (Hwf3 : wf_store s3) by (by apply wf_store_put).
  split; [exact Hwf3|].
  change (redis (set_redis s4 _)) with s4.
  assert (E4 : forall r, history s4 r = history s3 r) by done.
  assert (H4 : forall k, hash_at s4 k = hash_at s3 k) by done.
  assert (M4 : forall r, members s4 r = members s3 r) by done.
  split; [by rewrite E4; apply history_put_list|].
  split.
  { intros r Hr. rewrite E4. unfold s3, s2, s1.
    rewrite !history_put_other; [done|by apply (kind_mismatch _ _ KHash KList)| |];
      by intros ?%messages_key_inj. }
  split.
  { rewrite H4. unfold s3, s2.
    rewrite !hash_at_put_other by done. apply hash_at_put. }
  split.
  { intros k Hk. rewrite H4. unfold s3, s2.
    destruct (decide (k = "messages:" +:+ room)) as [->|Hk2].
    - rewrite (hash_at_not_hash s0 _ KList); [|done..].
      unfold hash_at. cbn. by rewrite lookup_insert_eq.
    - rewrite !hash_at_put_other by done. unfold s1. by rewrite hash_at_put_other. }
  intros r. rewrite M4. unfold s3, s2, s1.
  rewrite !members_put_other; [done|..];
    first [ by apply (kind_mismatch _ _ KHash KSet)
          | by apply (kind_mismatch _ _ KList KSet) ].
Qed.

End MessageStore.

Lemma lastn_app_r {A} (n : nat) (l k : list A) :
  (n <= length k)%nat -> lastn n (l ++ k) = lastn n k.
Proof.
  intros Hn. unfold lastn. rewrite length_app.
  rewrite drop_app_ge by lia. f_equal. lia.
Qed.

Lemma hash_write_snoc h mapping k v :
  hash_write h (mapping ++ [(k, v)]) = <[k := v]> (hash_write h mapping).
Proof. unfold hash_write. by rewrite foldl_app. Qed.

Lemma hash_write_nonempty h mapping : mapping <> [] -> hash_write h mapping <> ∅.
Proof.
  induction mapping as [|[k v] l _] using rev_ind; [done|]. intros _.
  rewrite hash_write_snoc. apply insert_non_empty.
Qed.

Lemma hash_write_lookup h mapping k v :
  NoDup mapping.*1 -> (k, v) ∈ mapping -> hash_write h mapping !! k = Some v.
Proof.
  revert h. induction mapping as [|[k0 v0] mapping IH]; intros h Hnd Hin; cbn.
  - by apply elem_of_nil in Hin.
  - cbn in Hnd. apply NoDup_cons in Hnd as [Hk0 Hnd].
    apply elem_of_cons in Hin as [[= -> ->]|Hin].
    + clear IH. revert h. induction mapping as [|[k1 v1] mapping IH]; intros h; cbn.
      * apply lookup_insert_eq.
      * cbn in Hk0, Hnd. apply not_elem_of_cons in Hk0 as [Hne Hk0].
        apply NoDup_cons in Hnd as [_ Hnd].
        rewrite insert_insert_ne by done. by apply IH.
    + by apply IH.
Qed.

Lemma set_redis_same w : set_redis (redis w) w = w.
Proof. by destruct w. Qed.

Lemma redis_hgetall_up k w :
  store_up w -> wf_store (redis w) -> key_kind k = Some KHash ->
  redis_hgetall k w = (Ret (hash_to_dict (hash_at (redis w) k)), w).
Proof.
  intros Hup Hwf Hk. unfold redis_hgetall.
  erewrite bind_run; [reflexivity|].
  rewrite redis_call_up by done. rewrite hgetall_wf by done.
  by rewrite set_redis_same.
Qed.

(** ** The history limit *)

Section Trim.
Context `{PyRuntime}.

Lemma stored_fields_keys m : NoDup (stored_fields m).*1.
Proof.
  unfold stored_fields.
  destruct m as [i d u n c mt ts [e|] dl [r|]]; cbn;
    by apply (bool_decide_unpack _).
Qed.

Lemma save_all_run (room : string) (ms : list ChatMessage.t) (w : world) :
  store_up w -> wf_store (redis w) ->
  1 <= message_history_limit (settings w) ->
  Forall (fun m => ChatMessage.dashboard_id m = room) ms ->
  (length (history (redis w) room) <= Z.to_nat (message_history_limit (settings w)))%nat ->
  exists w',
    for_each ms save_message_to_redis w = (Ret tt, w')
    /\ only_store w w' /\ wf_store (redis w')
    /\ history (redis w') room
       = lastn (Z.to_nat (message_history_limit (settings w)))
               (history (redis w) room ++ (ChatMessage.id <$> ms))
    /\ (forall k, Forall (fun m => k <> message_key room (ChatMessage.id m)) ms ->
                  hash_at (redis w') k = hash_at (redis w) k)
    /\ (forall k, hash_at (redis w) k <> ∅ -> hash_at (redis w') k <> ∅).
Proof.
  revert w. induction ms as [|m ms IH]; intros w Hup Hwf HK Hroom Hlen.
  - exists w. split; [done|]. split; [apply only_store_refl|]. split; [done|].
    cbn. rewrite app_nil_r. split; [|done].
    symmetry. by apply lastn_all.
  - apply Forall_cons in Hroom as [Hm Hroom].
    destruct (save_message_run m w Hup Hwf HK)
      as (w1 & E1 & O1 & Wf1 & Hh1 & _ & Hk1 & Ho1 & _).
    rewrite Hm in *.
    assert (Hs1 : settings w1 = settings w) by apply O1.
    destruct (IH w1) as (w2 & E2 & O2 & Wf2 & Hh2 & Ho2 & Hn2).
    { by eapply only_store_up. } { done. } { by rewrite Hs1. } { done. }
    { rewrite Hs1, Hh1, lastn_length. lia. }
    exists w2. split.
    { cbn [for_each]. by erewrite bind_run. }
    split; [by eapply only_store_trans|]. split; [done|]. split.
    { rewrite Hh2, Hs1, Hh1, lastn_app_lastn. cbn. by rewrite <- app_assoc. }
    split.
    { intros k Hk. apply Forall_cons in Hk as [Hk0 Hk].
      rewrite Ho2 by done. by apply Ho1. }
    intros k Hk. apply Hn2.
    destruct (decide (k = message_key room (ChatMessage.id m))) as [->|Hne].
    + rewrite Hk1. apply hash_write_nonempty, encode_to_dict.
    + by rewrite Ho1.
Qed.


End Trim.

Lemma hash_to_dict_truthy h : truthy (PDict (hash_to_dict h)) = bool_decide (h <> ∅).
Proof.
  unfold hash_to_dict. cbn.
  destruct (map_to_list h) as [|x l] eqn:E; cbn.
  - apply map_to_list_empty_iff in E. subst. by rewrite bool_decide_false by (by intros ?).
  - rewrite bool_decide_true; [done|]. intros ->. by rewrite map_to_list_empty in E.
Qed.

(** ** Reading a range of the history *)

Section GetRange.
Context `{PyRuntime}.

Lemma convert_timestamp_run k b data w :
  exists r, convert_timestamp k b data w = (r, w) /\ r <> Stuck.
Proof.
  unfold convert_timestamp.
  destruct (PyDict.get k data) as [v|]; [|by eexists].
  destruct (b && negb (truthy v)); [by eexists|].
  destruct (as_number v) as [n|]; [|by eexists].
  destruct (dt_fromtimestamp n); by eexists.
Qed.

Lemma ChatMessage_cls_run data w :
  exists r w', ChatMessage.cls data w = (r, w') /\ r <> Stuck /\ same_but_uuid w w'.
Proof.
  unfold ChatMessage.cls.
  destruct (_ ≫= _) as [[[[[[[[[[oid did] uid] una] con] omt] ots] oea] odl] ort]|].
  - destruct oid as [i|], ots as [t|]; mrun;
      eexists _, _; (split; [reflexivity|]); split; try done;
      first [by left | by right].
  - eexists _, _. split; [reflexivity|]. split; [done | by left].
Qed.

Lemma ChatMessage_from_dict_run data w :
  exists r w', ChatMessage.from_dict data w = (r, w') /\ r <> Stuck /\ same_but_uuid w w'.
Proof.
  unfold ChatMessage.from_dict.
  destruct (convert_timestamp_run "timestamp" false data w) as (r1 & E1 & N1).
  destruct r1 as [d1|e|]; [|eexists _, _; erewrite bind_raise by done; split; [done|]; split; [done|by left]|done].
  erewrite bind_run by done.
  destruct (convert_timestamp_run "edited_at" true d1 w) as (r2 & E2 & N2).
  destruct r2 as [d2|e|]; [|eexists _, _; erewrite bind_raise by done; split; [done|]; split; [done|by left]|done].
  erewrite bind_run by done. apply ChatMessage_cls_run.
Qed.

Lemma same_but_uuid_up w w' : same_but_uuid w w' -> store_up w -> store_up w'.
Proof. by intros [->| ->]. Qed.

Lemma same_but_uuid_redis w w' : same_but_uuid w w' -> redis w' = redis w.
Proof. by intros [->| ->]. Qed.

Lemma resolve_message_frame room i w :
  store_up w -> wf_store (redis w) ->
  store_up (resolve_message room i w).2
  /\ redis (resolve_message room i w).2 = redis w.
Proof.
  intros Hup Hwf. unfold resolve_message.
  destruct (decide _); [done|].
  destruct (ChatMessage_from_dict_run
              (hash_to_dict (hash_at (redis w) (message_key room i))) w)
    as (r & w' & -> & _ & Hs).
  pose proof (same_but_uuid_up w w' Hs Hup) as Hup'.
  pose proof (same_but_uuid_redis w w' Hs) as Hr'.
  destruct r; cbn; by split.
Qed.

Lemma load_messages_run room ids acc w :
  store_up w -> wf_store (redis w) ->
  load_messages room ids acc w
  = (Ret (acc ++ (resolve_messages room ids w).1), (resolve_messages room ids w).2).
Proof.
  revert acc w. induction ids as [|i ids IH]; intros acc w Hup Hwf.
  - cbn. by rewrite app_nil_r.
  - cbn [load_messages resolve_messages].
    erewrite bind_run by (apply redis_hgetall_up; [done..|apply key_kind_message]).
    destruct (resolve_message_frame room i w Hup Hwf) as [Hup1 Hr1].
    revert Hup1 Hr1. unfold resolve_message.
    rewrite hash_to_dict_truthy. fold (message_key room i).
    destruct (decide (hash_at (redis w) (message_key room i) = ∅)) as [He|Hne].
    + rewrite bool_decide_false by (by intros ?). intros _ _.
      erewrite bind_run by reflexivity.
      rewrite IH by done. by destruct (resolve_messages room ids w).
    + rewrite bool_decide_true by done.
      destruct (ChatMessage_from_dict_run
                  (hash_to_dict (hash_at (redis w) (message_key room i))) w)
        as (r & w' & E & Hns & Hs).
      unfold try_except. rewrite E.
      destruct r as [m|e|]; [| |done]; cbn [snd]; intros Hup1 Hr1.
      * erewrite bind_run by (erewrite bind_run by apply E; reflexivity).
        rewrite IH by (by rewrite ?Hr1).
        destruct (resolve_messages room ids w') as [ms w2]. cbn.
        by rewrite <- app_assoc.
      * erewrite bind_run.
        2:{ erewrite bind_raise by apply E. reflexivity. }
        rewrite IH by (by rewrite ?Hr1).
        by destruct (resolve_messages room ids _) as [ms w2].
Qed.

(** C6.  For [skip >= 0] and [limit > 0], [get_messages_from_redis room
    limit skip] returns the messages of the ids at positions [skip] to
    [skip + limit - 1] of the list [messages:{room}], counted from its
    head, in that order; each id is resolved through its hash, and an id
    whose hash is missing or does not parse is left out
    ([resolve_messages]). *)
Theorem get_range_from_head (room : string) (skip limit : Z) (w : world) :
  store_up w -> wf_store (redis w) -> 0 <= skip -> 0 < limit ->
  let window := take (Z.to_nat limit)
                     (drop (Z.to_nat skip) (history (redis w) room)) in
  get_messages_from_redis room limit skip w
  = (Ret (resolve_messages room window w).1, (resolve_messages room window w).2).
Proof.
  intros Hup Hwf Hs Hl window. unfold get_messages_from_redis.
  erewrite bind_run by (by apply get_redis_up).
  erewrite bind_run.
  2:{ rewrite redis_call_up by done. rewrite lrange_wf by done.
      by rewrite set_redis_same. }
  rewrite lslice_window by done. by rewrite load_messages_run.
Qed.

End GetRange.

Lemma wp_returns {A} (m : M A) w (a : A) (P : world -> Prop) :
  wp m w (fun r w' => r = Ret a /\ P w') -> exists w', m w = (Ret a, w') /\ P w'.
Proof.
  unfold wp. destruct (m w) as [r w']. cbn. intros [_ [-> ?]]. eauto.
Qed.

Lemma size_inter_cons (k : string) (A D : gset string) :
  size (({[k]} ∪ A) ∩ D)
  = if decide (k ∈ D) then S (size (A ∩ (D ∖ {[k]}))) else size (A ∩ (D ∖ {[k]})).
Proof.
  destruct (decide (k ∈ D)) as [Hin|Hout].
  - assert (E : ({[k]} ∪ A) ∩ D = {[k]} ∪ (A ∩ (D ∖ {[k]}))).
    { apply set_eq. intros x. rewrite !elem_of_intersection, !elem_of_union,
        !elem_of_intersection, elem_of_difference, !elem_of_singleton.
      destruct (decide (x = k)) as [->|]; naive_solver. }
    rewrite E, size_union, size_singleton; [done|].
    intros x. rewrite elem_of_singleton, elem_of_intersection, elem_of_difference,
      elem_of_singleton. naive_solver.
  - f_equal. apply set_eq. intros x.
    rewrite !elem_of_intersection, !elem_of_union, elem_of_difference,
      !elem_of_singleton. naive_solver.
Qed.

Lemma try_except_ret {A} (body : M A) handler w a w' :
  body w = (Ret a, w') -> try_except body handler w = (Ret a, w').
Proof. intros E. unfold try_except. by rewrite E. Qed.

(** ** Clearing a room *)

Section Clear.
Context `{PyRuntime}.

Lemma broadcast_run dashboard_id message exclude w :
  exists w', broadcast_to_dashboard dashboard_id message exclude w = (Ret tt, w')
             /\ bcast_post dashboard_id message exclude w w'.
Proof.
  apply wp_returns. unfold broadcast_to_dashboard.
  apply (broadcast_with_ok (length (connection_info w))); [|done].
  apply disconnect_ok.
Qed.

Lemma delete_messages_run room ids n w :
  store_up w ->
  exists w',
    delete_messages room ids n w
    = (Ret (n + Z.of_nat (size (listed_hashes (redis w) room ids))), w')
    /\ only_store w w'
    /\ (forall k, db (redis w) !! k = None -> db (redis w') !! k = None)
    /\ (forall i, i ∈ ids -> db (redis w') !! message_key room i = None)
    /\ (wf_store (redis w) -> wf_store (redis w')).
Proof.
  revert n w. induction ids as [|i ids IH]; intros n w Hup.
  - exists w. unfold listed_hashes. cbn [fmap list_fmap list_to_set delete_messages].
    rewrite (left_absorb_L ∅ (∩)), size_empty, Z.add_0_r.
    split; [done|split; [apply only_store_refl|split; [done|split; [|done]]]].
    by intros i ?%elem_of_nil.
  - cbn [delete_messages]. fold (message_key room i).
    destruct (delete_spec (message_key room i) (redis w))
      as (r & s1 & E & Sh & Gone & Hr & Hdb).
    erewrite bind_run by (rewrite redis_call_up by done; by rewrite E).
    destruct (IH (if r =? 0 then n else n + 1) (set_redis s1 w))
      as (w' & E' & O' & A' & G' & W'); [done|].
    exists w'. cbn [redis set_redis] in *. split; [|split; [|split; [|split]]].
    + rewrite E'. f_equal. f_equal. unfold listed_hashes. rewrite Hdb.
      rewrite dom_delete_L. cbn [fmap list_fmap list_to_set].
      rewrite size_inter_cons.
      destruct (db (redis w) !! message_key room i) as [v|] eqn:Ei; subst r.
      * rewrite decide_True by (by apply elem_of_dom). cbn [Z.eqb]. lia.
      * rewrite decide_False by (by apply not_elem_of_dom). cbn [Z.eqb]. lia.
    + eapply only_store_trans; [|done]. by split.
    + intros k Hk. apply A'. destruct Sh as (S1 & _). by apply S1.
    + intros j [->|Hj]%elem_of_cons; [by apply A'|by apply G'].
    + intros Hwf. apply W'. by apply Sh.
Qed.

(** C7.  [clear_all_messages room] returns the number of message hashes
    that the ids of the list [messages:{room}] refer to and that the store
    still holds: those it deletes, the ids whose hash is gone are not
    counted.  Afterwards none of the listed hashes is left, the list key
    is deleted, and reading the history of the room returns the empty
    list. *)
Theorem clear_returns_deleted_count (room : string) (w : world) :
  store_up w -> wf_store (redis w) ->
  exists w',
    clear_all_messages room w
    = (Ret (Z.of_nat (size (listed_hashes (redis w) room (history (redis w) room)))),
       w')
    /\ (forall i, i ∈ history (redis w) room ->
                  db (redis w') !! message_key room i = None)
    /\ db (redis w') !! ("messages:" +:+ room) = None
    /\ forall limit skip,
         get_messages_from_redis room limit skip w' = (Ret [], w').
Proof.
  intros Hup Hwf. unfold clear_all_messages.
  destruct (delete_messages_run room (history (redis w) room) 0 w Hup)
    as (w1 & E1 & O1 & A1 & G1 & W1).
  set (n := Z.of_nat (size _)) in *.
  assert (Hup1 : store_up w1) by (by eapply only_store_up).
  destruct (delete_spec ("messages:" +:+ room) (redis w1))
    as (r & s2 & E2 & Sh2 & Gone2 & _ & Hdb2).
  set (w3 := set_log (log_records (set_redis s2 w1) ++ [(INFO, "Cleared ")])
               (set_redis s2 w1)).
  destruct (broadcast_run room
              (json_dumps (messages_cleared_event room n (now w3))) None w3)
    as (w' & E' & Post).
  exists w'. split.
  { apply try_except_ret.
    erewrite bind_run by (by apply get_redis_up).
    erewrite bind_run.
    2:{ rewrite redis_call_up by done. rewrite lrange_wf by done.
        by rewrite set_redis_same, lslice_all. }
    erewrite bind_run by (rewrite E1; by rewrite Z.add_0_l).
    erewrite bind_run by (rewrite redis_call_up by done; by rewrite E2).
    erewrite bind_run by reflexivity.
    erewrite bind_run by reflexivity.
    erewrite bind_run by apply E'. reflexivity. }
  assert (Hup3 : store_up w3) by done.
  assert (Habs : forall k, db (redis w3) !! k = None -> db (redis w') !! k = None
                 ) .
  { unfold bcast_post in Post.
    destruct (PyDict.get room (active_connections w3)); [|by subst].
    destruct Post as ([S _] & _). apply S. }
  assert (Hup' : store_up w').
  { unfold bcast_post in Post.
    destruct (PyDict.get room (active_connections w3)); [|by subst].
    destruct Post as ([S _] & _). destruct Hup3 as [C F].
    split; [by apply (sh_client _ _ S) | by apply (sh_faults _ _ S)]. }
  assert (Hlist : db (redis w') !! ("messages:" +:+ room) = None) by (by apply Habs).
  split; [|split; [done|]].
  - intros i Hi. apply Habs. cbn. destruct Sh2 as (S2 & _). by apply S2, G1.
  - intros limit skip. unfold get_messages_from_redis.
    erewrite bind_run by (by apply get_redis_up).
    erewrite bind_run.
    2:{ rewrite redis_call_up by done. unfold Redis.lrange. rewrite Hlist.
        by rewrite set_redis_same. }
    reflexivity.
Qed.

End Clear.

Lemma get_hash_to_dict (h : gmap string string) (k : string) :
  PyDict.get k (hash_to_dict h) = PStr <$> h !! k.
Proof.
  unfold hash_to_dict. rewrite <- (list_to_map_to_list h) at 2.
  induction (map_to_list h) as [|[k' v] l IH]; cbn; [done|].
  destruct (String.eqb_spec k k') as [->|Hne].
  - by rewrite lookup_insert_eq.
  - by rewrite lookup_insert_ne.
Qed.

Lemma try_except_raise {A} (body : M A) handler w e w' :
  body w = (Raise e, w') -> try_except body handler w = handler e w'.
Proof. intros E. unfold try_except. by rewrite E. Qed.

(** ** Reading the presence records *)

Section Presence.
Context `{PyRuntime}.

Lemma convert_timestamp_hash k b h w :
  convert_timestamp k b (hash_to_dict h) w = (Ret (hash_to_dict h), w).
Proof.
  unfold convert_timestamp. rewrite get_hash_to_dict.
  destruct (h !! k); cbn; [|done]. by destruct (b && _).
Qed.

Lemma ConnectedUser_from_hash h w :
  ConnectedUser.from_dict (hash_to_dict h) w
  = (match user_of_hash h (now w) with
     | Some u => Ret u
     | None => Raise ValidationError
     end, w).
Proof.
  unfold ConnectedUser.from_dict.
  erewrite bind_run by apply convert_timestamp_hash.
  erewrite bind_run by apply convert_timestamp_hash.
  unfold ConnectedUser.cls, user_of_hash.
  unfold Pydantic.required, Pydantic.str_field, Pydantic.status_field,
    Pydantic.datetime_field, Pydantic.optional_str_field.
  rewrite !get_hash_to_dict.
  generalize UserStatus_of as status_of. intros status_of.
  destruct (h !! "user_id"); cbn; [|done].
  destruct (h !! "dashboard_id"); cbn; [|done].
  destruct (h !! "username"); cbn; [|done].
  destruct (h !! "status") as [st|]; cbn;
    [destruct (status_of (PStr st)); cbn; [|done]|];
    (destruct (h !! "connected_at") as [c|]; cbn;
     [destruct (pydantic_datetime_of_str c); cbn; [|done]|]);
    (destruct (h !! "last_seen") as [l|]; cbn;
     [destruct (pydantic_datetime_of_str l); cbn; [|done]|]);
    by destruct (h !! "socket_id").
Qed.

Lemma load_users_run room ids acc w :
  store_up w -> wf_store (redis w) ->
  exists w',
    load_users room ids acc w = (Ret (acc ++ omap (resolve_user room w) ids), w')
    /\ only_store w w' /\ redis w' = redis w.
Proof.
  revert acc w. induction ids as [|i ids IH]; intros acc w Hup Hwf.
  - exists w. cbn. rewrite app_nil_r. split; [done|]. split; [apply only_store_refl|done].
  - cbn [load_users omap list_omap].
    erewrite bind_run by (apply redis_hgetall_up; [done..|apply key_kind_user]).
    rewrite hash_to_dict_truthy. fold (user_key room i).
    unfold resolve_user at 1.
    destruct (decide (hash_at (redis w) (user_key room i) = ∅)) as [He|Hne].
    + rewrite bool_decide_false by (by intros ?).
      erewrite bind_run by reflexivity.
      destruct (IH acc w Hup Hwf) as (w' & E & O & R). exists w'. by rewrite E.
    + rewrite bool_decide_true by done.
      destruct (user_of_hash _ (now w)) as [u|] eqn:Eu.
      * erewrite bind_run.
        2:{ apply try_except_ret. erewrite bind_run; [reflexivity|].
            by rewrite ConnectedUser_from_hash, Eu. }
        destruct (IH (acc ++ [u]) w Hup Hwf) as (w' & E & O & R). exists w'.
        rewrite E, <- app_assoc. done.
      * erewrite bind_run.
        2:{ erewrite try_except_raise; [reflexivity|].
            erewrite bind_raise; [reflexivity|].
            by rewrite ConnectedUser_from_hash, Eu. }
        set (w1 := set_log _ w).
        destruct (IH acc w1) as (w' & E & O & R); [done..|]. exists w'.
        rewrite E. split; [done|]. split; [|done].
        eapply only_store_trans; [|done]. by split.
Qed.

Lemma get_connected_users_run room w :
  store_up w -> wf_store (redis w) ->
  exists w',
    get_connected_users_from_redis room w
    = (Ret (omap (resolve_user room w) (elements (members (redis w) room))), w')
    /\ only_store w w' /\ redis w' = redis w.
Proof.
  intros Hup Hwf. unfold get_connected_users_from_redis.
  erewrite bind_run by (by apply get_redis_up).
  erewrite bind_run.
  2:{ rewrite redis_call_up by done. rewrite smembers_wf by done.
      by rewrite set_redis_same. }
  apply (load_users_run room _ [] w Hup Hwf).
Qed.

End Presence.

(** ** Writing and removing a presence record *)

Section PresenceStore.
Context `{PyRuntime}.

Lemma encode_user_to_dict u :
  encode_mapping (ConnectedUser.to_dict u) = Some (stored_user_fields u)
  /\ stored_user_fields u <> []
  /\ NoDup (stored_user_fields u).*1
  /\ ("user_id", ConnectedUser.user_id u) ∈ stored_user_fields u
  /\ ("dashboard_id", ConnectedUser.dashboard_id u) ∈ stored_user_fields u
  /\ ("username", ConnectedUser.username u) ∈ stored_user_fields u
  /\ ("status", UserStatus_value (ConnectedUser.status u)) ∈ stored_user_fields u
  /\ ("connected_at", float_repr (dt_timestamp (ConnectedUser.connected_at u)))
       ∈ stored_user_fields u
  /\ ("last_seen", float_repr (dt_timestamp (ConnectedUser.last_seen u)))
       ∈ stored_user_fields u.
Proof.
  unfold stored_user_fields.
  destruct u as [i d n st ca ls [sid|]]; cbn;
    (split; [done|]); (split; [done|]);
    (split; [by apply (bool_decide_unpack _)|]);
    repeat split; set_solver.
Qed.

Lemma save_connected_user_run (u : ConnectedUser.t) (w : world) :
  store_up w -> wf_store (redis w) ->
  let room := ConnectedUser.dashboard_id u in
  let key := user_key room (ConnectedUser.user_id u) in
  exists w',
    save_connected_user_to_redis u w = (Ret tt, w')
    /\ only_store w w' /\ wf_store (redis w')
    /\ members (redis w') room = {[ConnectedUser.user_id u]} ∪ members (redis w) room
    /\ hash_at (redis w') key
       = hash_write (hash_at (redis w) key) (stored_user_fields u)
    /\ ttl (redis w') !! key = Some (60 * 60).
Proof.
  intros Hup Hwf room key.
  destruct (encode_user_to_dict u) as (Henc & Hne & _).
  set (s0 := redis w).
  set (s1 := store_put key (RHash (hash_write (hash_at s0 key) (stored_user_fields u))) s0).
  set (s2 := store_put ("connected_users:" +:+ room)
               (RSet ({[ConnectedUser.user_id u]} ∪ members s1 room)) s1).
  set (s3 := {| db := db s2; ttl := <[key := 60 * 60]> (ttl s2) |}).
  assert (Hwf1 : wf_store s1) by (by apply wf_store_put).
  assert (Hwf2 : wf_store s2) by (by apply wf_store_put).
  assert (Hks : key <> "connected_users:" +:+ room)
    by (by apply (kind_mismatch _ _ KHash KSet)).
  exists (set_redis s3 w). split.
  { unfold save_connected_user_to_redis.
    change (ConnectedUser.get_redis_key u) with key.
    change (ConnectedUser.dashboard_id u) with room.
    erewrite bind_run by (by apply get_redis_up).
    unfold redis_hset. rewrite Henc.
    erewrite bind_run.
    2:{ rewrite redis_call_up by done. fold s0. by rewrite hset_wf. }
    fold s1.
    erewrite bind_run.
    2:{ rewrite redis_call_up by done. cbn [redis set_redis].
        by rewrite sadd_wf. }
    fold s2.
    rewrite redis_call_up by done. cbn [redis set_redis].
    unfold Redis.expire.
    replace (db s2 !! key)
      with (Some (RHash (hash_write (hash_at s0 key) (stored_user_fields u)))).
    2:{ unfold s2. cbn. rewrite lookup_insert_ne by done. unfold s1. cbn.
        by rewrite lookup_insert_eq. }
    reflexivity. }
  split; [by split|]. split; [exact Hwf2|].
  change (redis (set_redis s3 w)) with s3.
  split; [|split].
  - change (members s3 room) with (members s2 room). unfold s2.
    rewrite members_put. unfold s1. by rewrite members_put_other.
  - change (hash_at s3 key) with (hash_at s2 key). unfold s2.
    rewrite hash_at_put_other by done. apply hash_at_put.
  - cbn. by rewrite lookup_insert_eq.
Qed.

Lemma remove_user_run (room uid : string) (w : world) :
  store_up w -> wf_store (redis w) ->
  exists w',
    remove_user_from_redis room uid w = (Ret tt, w')
    /\ only_store w w' /\ wf_store (redis w')
    /\ db (redis w') !! user_key room uid = None
    /\ members (redis w') room = members (redis w) room ∖ {[uid]}
    /\ (forall k, k <> user_key room uid -> hash_at (redis w') k = hash_at (redis w) k).
Proof.
  intros Hup Hwf.
  destruct (delete_spec (user_key room uid) (redis w))
    as (r & s1 & E1 & Sh1 & Gone1 & _ & Hdb1).
  assert (Hwf1 : wf_store s1) by (by apply Sh1).
  assert (Hks : user_key room uid <> "connected_users:" +:+ room)
    by (by apply (kind_mismatch _ _ KHash KSet)).
  assert (Hm1 : members s1 room = members (redis w) room).
  { unfold members. rewrite Hdb1. by rewrite lookup_delete_ne. }
  assert (Hh1 : forall k, k <> user_key room uid -> hash_at s1 k = hash_at (redis w) k).
  { intros k Hk. unfold hash_at. rewrite Hdb1. by rewrite lookup_delete_ne. }
  pose proof (smembers_wf s1 room Hwf1) as Hsm. unfold Redis.smembers in Hsm.
  unfold remove_user_from_redis. fold (user_key room uid).
  erewrite bind_run by (by apply get_redis_up).
  erewrite bind_run by (rewrite redis_call_up by done; by rewrite E1).
  rewrite redis_call_up by done. cbn [redis set_redis].
  unfold Redis.srem.
  destruct (db s1 !! ("connected_users:" +:+ room)) as [[?|?|S]|] eqn:Es; try done.
  - injection Hsm as Hsm.
    destruct (decide (S ∖ {[uid]} = ∅)) as [He|Hne].
    + eexists. split; [done|]. split; [by split|]. cbn [redis set_redis].
      split; [by apply wf_store_del|]. split; [|split].
      * cbn. by rewrite lookup_delete_ne.
      * unfold members at 1. cbn. rewrite lookup_delete_eq.
        by rewrite <- Hm1, <- Hsm, He.
      * intros k Hk. rewrite <- Hh1 by done.
        destruct (decide (k = "connected_users:" +:+ room)) as [->|Hk2].
        -- rewrite hash_at_del. unfold hash_at. by rewrite Es.
        -- by rewrite hash_at_del_other.
    + eexists. split; [done|]. split; [by split|]. cbn [redis set_redis].
      split; [by apply wf_store_put|]. split; [|split].
      * cbn. by rewrite lookup_insert_ne.
      * rewrite members_put. by rewrite <- Hm1, <- Hsm.
      * intros k Hk. rewrite <- Hh1 by done.
        destruct (decide (k = "connected_users:" +:+ room)) as [->|Hk2].
        -- unfold hash_at. cbn. by rewrite lookup_insert_eq, Es.
        -- by rewrite hash_at_put_other.
  - injection Hsm as Hsm.
    eexists. split; [done|]. split; [by split|]. cbn [redis set_redis].
    split; [done|]. split; [done|]. split; [|done].
    rewrite <- Hm1, <- Hsm. set_solver.
Qed.

End PresenceStore.

Section PresenceTheorem.
Context `{PyRuntime}.

Lemma user_of_hash_id h t u :
  user_of_hash h t = Some u -> h !! "user_id" = Some (ConnectedUser.user_id u).
Proof.
  unfold user_of_hash. intros E.
  destruct (h !! "user_id") as [uid|]; [|done]. cbn in E.
  repeat (match type of E with
          | context [?o ≫= _] => destruct o; cbn in E; [|done]
          end).
  by injection E as <-.
Qed.


End PresenceTheorem.

Lemma safe_ret {A} (a : A) : safe (mret a : M A).
Proof. by intros w. Qed.

Lemma safe_raise {A} e : safe (raise e : M A).
Proof. by intros w. Qed.

Lemma safe_bind {A B} (m : M A) (f : A -> M B) :
  safe m -> (forall a, safe (f a)) -> safe (m ≫= f).
Proof.
  intros Hm Hf w. specialize (Hm w). unfold mbind, M_bind.
  destruct (m w) as [[a|e|] w']; cbn in *; [apply Hf|done..].
Qed.

Lemma safe_try {A} (body : M A) (handler : exn -> M A) :
  safe body -> (forall e, safe (handler e)) -> safe (try_except body handler).
Proof.
  intros Hb Hh w. specialize (Hb w). unfold try_except.
  destruct (body w) as [[a|e|] w']; cbn in *; [done|apply Hh|done].
Qed.

Lemma safe_logger l msg : safe (logger l msg).
Proof. by intros w. Qed.

Lemma safe_get_world : safe get_world.
Proof. by intros w. Qed.

Lemma safe_redis_call {A} (cmd : store -> rresult A) : safe (redis_call cmd).
Proof.
  intros w. unfold redis_call.
  destruct (redis_faults w) as [|[] ?]; cbn; [|done|];
    by destruct (cmd (redis w)) as [?|[? ?]].
Qed.

Lemma safe_wp {A} (m : M A) (Q : outcome A -> world -> Prop) :
  (forall w, wp m w Q) -> safe m.
Proof. intros Hw w. apply Hw. Qed.

Lemma safe_get_redis : safe get_redis.
Proof. apply (safe_wp _ (fun _ _ => True)). intros w. by apply wp_get_redis. Qed.

Lemma safe_py_get k v obj : safe (py_get k v obj).
Proof. intros w. by destruct obj. Qed.

Lemma safe_py_strip obj : safe (py_strip obj).
Proof. intros w. by destruct obj. Qed.

(** A handler that only logs makes a safe body return. *)
Lemma try_logger_returns (body : M unit) (handler : exn -> M unit) w :
  safe body -> (forall e w1, exists w2, handler e w1 = (Ret tt, w2)) ->
  exists w', try_except body handler w = (Ret tt, w').
Proof.
  intros Hs Hh. specialize (Hs w). unfold try_except.
  destruct (body w) as [[[]|e|] w1]; cbn in *; [by eexists| |done].
  apply Hh.
Qed.

(** ** The handler of a chat frame returns *)

Section Handler.
Context `{PyRuntime}.

Lemma safe_redis_hset key mapping : safe (redis_hset key mapping).
Proof.
  unfold redis_hset. destruct (encode_mapping mapping);
    [apply safe_redis_call | apply safe_raise].
Qed.

Lemma safe_save_message m : safe (save_message_to_redis m).
Proof.
  unfold save_message_to_redis. cbv zeta.
  repeat (first [ apply safe_get_redis
                | apply safe_logger | apply safe_redis_hset
                | apply safe_redis_call | apply safe_get_world
                | apply safe_bind; [|intros ?] ]).
Qed.

Lemma safe_broadcast dashboard_id message exclude :
  safe (broadcast_to_dashboard dashboard_id message exclude).
Proof.
  intros w. destruct (broadcast_run dashboard_id message exclude w) as (w' & -> & _).
  done.
Qed.

Lemma safe_broadcast_message m : safe (broadcast_message m).
Proof.
  unfold broadcast_message. apply safe_try; [apply safe_broadcast|].
  intros e. apply safe_logger.
Qed.

Lemma safe_cls data : safe (ChatMessage.cls data).
Proof.
  intros w. destruct (ChatMessage_cls_run data w) as (r & w' & -> & ? & _). done.
Qed.

Lemma safe_handle_websocket_message_try dashboard_id user_id username message_data :
  safe (handle_websocket_message_try dashboard_id user_id username message_data).
Proof.
  unfold handle_websocket_message_try.
  apply safe_bind; [apply safe_py_get|intros c].
  apply safe_bind; [destruct (truthy c); [apply safe_ret|apply safe_py_get]|intros c1].
  apply safe_bind; [apply safe_py_strip|intros content].
  apply safe_bind; [apply safe_get_world|intros w0].
  destruct (_ || _); [apply safe_logger|].
  apply safe_bind; [apply safe_py_get|intros mt].
  apply safe_bind; [destruct (MessageType_of mt); [apply safe_ret|apply safe_raise]|intros t].
  apply safe_bind; [apply safe_py_get|intros rt].
  apply safe_bind; [apply safe_cls|intros m].
  apply safe_bind; [apply safe_save_message|intros _].
  apply safe_broadcast_message.
Qed.

Lemma handle_websocket_message_returns dashboard_id user_id username message_data w :
  exists w', handle_websocket_message dashboard_id user_id username message_data w
             = (Ret tt, w').
Proof.
  unfold handle_websocket_message.
  apply try_logger_returns; [|intros e w1; by eexists].
  apply safe_handle_websocket_message_try.
Qed.

End Handler.

Lemma registry_okb_ok w : registry_okb w = true -> registry_ok w.
Proof.
  intros Hb r conns u h Hg Hin. apply get_elem in Hg.
  unfold registry_okb in Hb. rewrite forallb_forall in Hb.
  apply list_elem_of_In, Hb in Hg. cbn in Hg. rewrite forallb_forall in Hg.
  apply list_elem_of_In, Hg in Hin. cbn in Hin.
  destruct (PyDict.get h (connection_info w)) as [[r' u' name]|]; [|done].
  cbn in Hin. apply andb_true_iff in Hin as [->%String.eqb_eq ->%String.eqb_eq].
  by exists name.
Qed.

Lemma wf_store_empty : wf_store (mkStore ∅ ∅).
Proof. apply map_Forall_empty. Qed.

(** ** Failed sends *)

Section Isolation.
Context `{PyRuntime}.

Lemma registry_ok_after_fanout conns message exclude w :
  registry_ok w -> registry_ok (after_fanout conns message exclude w).
Proof. done. Qed.


(** C4 (what the code does).  [disconnect h] removes [h] from
    [connection_info], and from [active_connections] whatever handle is
    registered under the room and user of [h]: no handle is left under
    that key, be it [h] or a handle that replaced it. *)
Theorem disconnect_removes_whoever_holds_key h d w :
  PyDict.get h (connection_info w) = Some d ->
  exists w',
    disconnect h w = (Ret tt, w')
    /\ PyDict.get h (connection_info w') = None
    /\ forall conns' h',
         PyDict.get (cd_dashboard_id d) (active_connections w') = Some conns' ->
         (cd_user_id d, h') ∉ conns'.
Proof.
  intros Hd. unfold disconnect.
  destruct (length (connection_info w)) as [|n] eqn:Hlen.
  { apply get_Some_length in Hd. lia. }
  pose proof (unregister_with_post n (disconnect_rec (S n)) h d w
                (disconnect_rec_ok n) Hd ltac:(lia)) as [Hns Hpost].
  assert (E : disconnect_rec (S (S n)) h w
              = unregister_with (disconnect_rec (S n)) h d w).
  { cbn [disconnect_rec]. unfold get_world. mrun. by rewrite Hd. }
  rewrite E. destruct (unregister_with _ h d w) as [r w'].
  cbn in Hpost. destruct Hpost as (-> & _ & Hgone & Sh).
  exists w'. split; [done|]. split; [done|].
  intros conns' h' Hg Hin.
  destruct (sh_active _ _ Sh _ _ Hg) as (conns & Hc & Hsub).
  cbn in Hc. apply remove_connection_get in Hc as (c0 & _ & _ & Hno).
  apply (Hno eq_refl h'). by apply Hsub.
Qed.

End Isolation.

Lemma set_log_set_log l l' w : set_log l (set_log l' w) = set_log l w.
Proof. done. Qed.

Lemma logger_run l msg w :
  logger l msg w = (Ret tt, set_log (log_records w ++ [(l, msg)]) w).
Proof. done. Qed.

(** ** One frame of the receive loop *)

Section Frames.
Context `{PyRuntime}.

Lemma content_run d w :
  (c ← py_get "content" PNone (PDict d);
   (if truthy c then mret c else py_get "message" (PStr "") (PDict d))) w
  = (Ret (chat_content d), w).
Proof.
  unfold chat_content. cbn [py_get]. erewrite bind_run by reflexivity.
  by destruct (truthy _).
Qed.

(** What the loop does with a frame that is a chat message: it calls
    [handle_websocket_message] and goes on. *)
Lemma handle_frame_chat dashboard_id user_id username data top w r w1 :
  json_loads data = Some (PDict top) ->
  PyDict.get_default "type" PNone top = PStr "chat_message" ->
  handle_websocket_message_try dashboard_id user_id username
    (PyDict.get_default "data" (PDict []) top)
    (frame_entered "Processing chat_message type" w) = (r, w1) ->
  r <> Stuck ->
  exists l,
    handle_frame dashboard_id user_id username data w
    = (Ret tt, set_log (log_records w1 ++ l) w1)
    /\ (forall e, r = Raise e ->
          head l = Some (ERROR, "Error handling WebSocket message: ")).
Proof.
  intros Hl Ht Hr Hns. unfold handle_frame.
  erewrite bind_run by reflexivity. rewrite Hl.
  erewrite bind_run by reflexivity. erewrite bind_run by reflexivity.
  cbn [py_get]. erewrite bind_run by reflexivity. rewrite Ht.
  cbn [eq_str String.eqb Ascii.eqb Bool.eqb].
  set (w0 := frame_entered "Processing chat_message type" w) in *.
  assert (E : forall (k : M unit),
    (logger INFO "Processing chat_message type" ≫= fun _ => k)
      (set_log ((log_records w ++ [(INFO, "Received WebSocket data: ")])
                  ++ [(INFO, "Parsed message data: ")])
         (set_log (log_records w ++ [(INFO, "Received WebSocket data: ")]) w))
    = k w0).
  { intros k. erewrite bind_run by reflexivity. unfold w0, frame_entered.
    cbn. by rewrite <- !app_assoc. }
  set (tail := fun _ : unit => logger INFO "Message loop iteration completed, continuing...").
  set (note := fun w' : world =>
    if PyDict.contains dashboard_id (active_connections w')
    then (INFO, "Connection still active after message processing")
    else (WARNING, "Connection lost after message processing")).
  assert (N : forall w', (w'' ← get_world;
              if PyDict.contains dashboard_id (active_connections w'')
              then logger INFO "Connection still active after message processing"
              else logger WARNING "Connection lost after message processing") w'
            = (Ret tt, set_log (log_records w' ++ [note w']) w')).
  { intros w'. erewrite bind_run by reflexivity. unfold note.
    by destruct (PyDict.contains _ _). }
  destruct r as [[]|e|]; [| |done].
  - exists [ (INFO, "Message processing completed successfully"); note w1;
             (INFO, "Message loop iteration completed, continuing...") ].
    split; [|done].
    erewrite bind_run.
    2:{ rewrite E. apply try_except_ret. erewrite bind_run by reflexivity.
        erewrite bind_run by (unfold handle_websocket_message; apply try_except_ret, Hr).
        erewrite bind_run by reflexivity. apply N. }
    unfold tail, note. rewrite logger_run. cbn. by rewrite <- !app_assoc.
  - exists [ (ERROR, "Error handling WebSocket message: ");
             (INFO, "Message processing completed successfully");
             note w1;
             (INFO, "Message loop iteration completed, continuing...") ].
    split; [|done].
    erewrite bind_run.
    2:{ rewrite E. apply try_except_ret. erewrite bind_run by reflexivity.
        erewrite bind_run.
        2:{ unfold handle_websocket_message, try_except. rewrite Hr. reflexivity. }
        erewrite bind_run by reflexivity. apply N. }
    unfold tail, note. rewrite logger_run. cbn. by rewrite <- !app_assoc.
Qed.

Lemma chat_content_run d w :
  (if truthy (PyDict.get_default "content" PNone d)
   then mret (PyDict.get_default "content" PNone d)
   else py_get "message" (PStr "") (PDict d)) w
  = (Ret (chat_content d), w).
Proof. unfold chat_content. by destruct (truthy _). Qed.

Lemma invalid_content_run dashboard_id user_id username d s w :
  chat_content d = PStr s ->
  strip s = "" \/ max_message_length (settings w) < len (strip s) ->
  handle_websocket_message_try dashboard_id user_id username (PDict d) w
  = (Ret tt, set_log (log_records w ++
                        [(WARNING, "Invalid message: empty or too long")]) w).
Proof.
  intros Hc Hbad. unfold handle_websocket_message_try. cbn [py_get].
  erewrite bind_run by reflexivity.
  erewrite bind_run by apply chat_content_run.
  rewrite Hc. cbn [py_strip]. erewrite bind_run by reflexivity.
  erewrite bind_run by reflexivity.
  replace (String.eqb (strip s) "" || (max_message_length (settings w) <? len (strip s)))
    with true; [done|].
  symmetry. apply orb_true_iff. destruct Hbad as [->|Hlong]; [by left|right].
  by apply Z.ltb_lt.
Qed.


(** Whatever a chat frame holds, the loop gets through it. *)
Lemma handle_frame_chat_returns dashboard_id user_id username data top w :
  json_loads data = Some (PDict top) ->
  PyDict.get_default "type" PNone top = PStr "chat_message" ->
  exists r w1 l,
    handle_websocket_message_try dashboard_id user_id username
      (PyDict.get_default "data" (PDict []) top)
      (frame_entered "Processing chat_message type" w) = (r, w1)
    /\ handle_frame dashboard_id user_id username data w
       = (Ret tt, set_log (log_records w1 ++ l) w1)
    /\ (forall e, r = Raise e ->
          head l = Some (ERROR, "Error handling WebSocket message: ")).
Proof.
  intros Hl Ht.
  pose proof (safe_handle_websocket_message_try dashboard_id user_id username
                (PyDict.get_default "data" (PDict []) top)
                (frame_entered "Processing chat_message type" w)) as Hs.
  destruct (handle_websocket_message_try _ _ _ _ _) as [r w1] eqn:E.
  destruct (handle_frame_chat dashboard_id user_id username data top w r w1)
    as (l & E' & Hlog); [done..|].
  by exists r, w1, l.
Qed.

End Frames.

(** ** Exceptions that leave the loop *)

Section Closing.
Context `{PyRuntime}.

Lemma wp_remove_user dashboard_id user_id w :
  wp (remove_user_from_redis dashboard_id user_id) w
     (fun r w' => connection_info w' = connection_info w).
Proof.
  unfold remove_user_from_redis. apply wp_bind, wp_get_redis.
  intros r w1 Q1 Hns _.
  destruct r as [[]|e|]; [|by rewrite (q_info _ _ Q1)|done].
  apply wp_bind, wp_redis_call; [intros e _; cbn; apply (q_info _ _ Q1)|].
  intros n s _. apply wp_redis_call; intros; cbn; apply (q_info _ _ Q1).
Qed.

Lemma wp_connection_closed websocket dashboard_id user_id e w :
  wp (connection_closed websocket dashboard_id user_id e) w
     (fun r w' => (r = Ret Terminated \/ exists e', r = Raise e')
                  /\ PyDict.get websocket (connection_info w') = None).
Proof.
  assert (G : forall w0,
    wp (disconnect websocket ;;
        remove_user_from_redis dashboard_id user_id ;; mret Terminated) w0
       (fun r w' => (r = Ret Terminated \/ exists e', r = Raise e')
                    /\ PyDict.get websocket (connection_info w') = None)).
  { intros w0. apply wp_bind.
    eapply wp_mono; [by apply (disconnect_ok (length (connection_info w0)))|].
    intros r w1 _ (-> & _ & Hgone).
    apply wp_bind. eapply wp_mono; [apply wp_remove_user|].
    intros r w2 Hns Hinfo. destruct r as [[]|e'|]; [| |done].
    - apply wp_ret. rewrite Hinfo. eauto.
    - rewrite Hinfo. eauto. }
  destruct e; cbn [connection_closed]; try apply G; apply wp_bind, wp_logger, G.
Qed.

Lemma receive_loop_raise dashboard_id user_id username data rest w e w1 :
  handle_frame dashboard_id user_id username data w = (Raise e, w1) ->
  receive_loop dashboard_id user_id username (RecvText data :: rest) w = (Raise e, w1).
Proof.
  intros E. cbn [receive_loop]. erewrite bind_run by reflexivity.
  by erewrite bind_raise.
Qed.

Lemma receive_loop_next dashboard_id user_id username data rest w w1 :
  handle_frame dashboard_id user_id username data w = (Ret tt, w1) ->
  receive_loop dashboard_id user_id username (RecvText data :: rest) w
  = receive_loop dashboard_id user_id username rest w1.
Proof.
  intros E. cbn [receive_loop]. erewrite bind_run by reflexivity.
  by erewrite bind_run.
Qed.

Lemma raise_closes websocket dashboard_id user_id username events w e w1 :
  receive_loop dashboard_id user_id username events w = (Raise e, w1) ->
  closes_connection websocket dashboard_id user_id username events w.
Proof.
  intros E. unfold closes_connection, try_except. rewrite E.
  pose proof (wp_connection_closed websocket dashboard_id user_id e w1) as [_ Hp].
  destruct (connection_closed _ _ _ _ _) as [r w']. by exists r, w'.
Qed.


End Closing.

(** ** Who is sent what *)

Section FanOut.
Context `{PyRuntime}.

Lemma recipients_all conns : recipients conns None = conns.
Proof.
  unfold recipients. induction conns as [|c conns IH]; [done|].
  rewrite filter_cons, decide_True by done. by rewrite IH.
Qed.

Lemma recipients_others conns user_id :
  user_id <> "" ->
  recipients conns (Some user_id) = filter (fun c => c.1 <> user_id) conns.
Proof.
  intros Hne. unfold recipients. apply list_filter_iff. intros [u h]. cbn.
  destruct (String.eqb_spec user_id "") as [|_]; [done|]. cbn.
  destruct (String.eqb_spec u user_id); split; congruence.
Qed.

Lemma broadcast_fanned_out dashboard_id message exclude conns w :
  PyDict.get dashboard_id (active_connections w) = Some conns ->
  exists w', broadcast_to_dashboard dashboard_id message exclude w = (Ret tt, w')
             /\ fanned_out (recipients conns exclude) message w w'.
Proof.
  intros Hg.
  destruct (broadcast_run dashboard_id message exclude w) as (w' & E & Post).
  unfold bcast_post in Post. rewrite Hg in Post. destruct Post as ([Sh _] & _).
  destruct (sh_sent _ _ Sh) as (l & Hs & Hl). cbn in Hs, Hl.
  exists w'. split; [done|]. exists l. split; [|done].
  by rewrite Hs, <- app_assoc.
Qed.

Lemma save_message_returns (m : ChatMessage.t) (w : world) :
  store_up w -> wf_store (redis w) ->
  exists w', save_message_to_redis m w = (Ret tt, w') /\ only_store w w'.
Proof.
  intros Hup Hwf.
  set (room := ChatMessage.dashboard_id m).
  set (key := message_key room (ChatMessage.id m)).
  destruct (encode_to_dict m) as [Henc Hne].
  set (s0 := redis w).
  set (s1 := store_put key (RHash (hash_write (hash_at s0 key) (stored_fields m))) s0).
  set (s2 := store_put ("messages:" +:+ room)
               (RList (history s1 room ++ [ChatMessage.id m])) s1).
  assert (Hkl : key <> "messages:" +:+ room)
    by (by apply (kind_mismatch _ _ KHash KList)).
  set (K := message_history_limit (settings w)).
  set (s3 := match lslice (history s1 room ++ [ChatMessage.id m]) (- K) (-1) with
             | [] => store_del ("messages:" +:+ room) s2
             | l => store_put ("messages:" +:+ room) (RList l) s2
             end).
  assert (H3 : db s3 !! key
               = Some (RHash (hash_write (hash_at s0 key) (stored_fields m)))).
  { unfold s3. destruct (lslice _ _ _); cbn;
      [rewrite lookup_delete_ne by done | rewrite lookup_insert_ne by done];
      rewrite lookup_insert_ne by done; by rewrite lookup_insert_eq. }
  set (s4 := {| db := db s3; ttl := <[key := 30 * 24 * 60 * 60]> (ttl s3) |}).
  exists (set_redis s4 (set_log (log_records w ++ [(INFO, "Saving message to Redis: ")]) w)).
  split; [|by split].
  unfold save_message_to_redis.
  change (ChatMessage.get_redis_key m) with key.
  change (ChatMessage.dashboard_id m) with room.
  erewrite bind_run by (by apply get_redis_up).
  erewrite bind_run by reflexivity.
  unfold redis_hset. rewrite Henc.
  erewrite bind_run.
  2:{ rewrite redis_call_up by done. cbn [redis set_log].
      fold s0. by rewrite hset_wf. }
  fold s1.
  erewrite bind_run.
  2:{ rewrite redis_call_up by done. cbn [redis set_redis set_log].
      rewrite rpush_wf; [done|]. by apply wf_store_put. }
  fold s2.
  erewrite bind_run by reflexivity.
  erewrite bind_run.
  2:{ rewrite redis_call_up by done. cbn [redis set_redis set_log settings].
      fold K. unfold Redis.ltrim. unfold s2 at 1. cbn [db store_put].
      rewrite lookup_insert_eq. fold s2.
      instantiate (1 := set_redis s3 _). unfold s3.
      by destruct (lslice _ _ _). }
  rewrite redis_call_up by done. cbn [redis set_redis set_log].
  unfold Redis.expire. by rewrite H3.
Qed.

End FanOut.

Section Delivery.
Context `{PyRuntime}.

Lemma cls_new_message dashboard_id user_id username content t reply_to w :
  len content <= 1000 ->
  ChatMessage.cls
    [ ("dashboard_id", PStr dashboard_id);
      ("user_id", PStr user_id);
      ("username", PStr username);
      ("content", PStr content);
      ("message_type", PMessageType t);
      ("reply_to", optional_str reply_to) ] w
  = (Ret (new_chat_message dashboard_id user_id username content t reply_to w),
     set_uuid_drawn (S (uuid_drawn w)) w).
Proof.
  intros Hlen. unfold ChatMessage.cls.
  assert (E : (1000 <? len content) = false) by (apply Z.ltb_ge; lia).
  destruct reply_to as [r|]; cbn; rewrite E; reflexivity.
Qed.

Lemma valid_content_run dashboard_id user_id username d s t reply_to conns w :
  chat_content d = PStr s ->
  strip s <> "" ->
  len (strip s) <= max_message_length (settings w) ->
  len (strip s) <= 1000 ->
  MessageType_of (PyDict.get_default "message_type" (PStr "text") d) = Some t ->
  PyDict.get_default "reply_to" PNone d = optional_str reply_to ->
  store_up w -> wf_store (redis w) ->
  PyDict.get dashboard_id (active_connections w) = Some conns ->
  exists w',
    handle_websocket_message_try dashboard_id user_id username (PDict d) w
    = (Ret tt, w')
    /\ fanned_out conns
         (json_dumps (chat_message_event
            (new_chat_message dashboard_id user_id username (strip s) t reply_to w)))
         w w'.
Proof.
  intros Hc Hne Hmax Hlen Ht Hr Hup Hwf Hg.
  set (m := new_chat_message dashboard_id user_id username (strip s) t reply_to w).
  set (w1 := set_uuid_drawn (S (uuid_drawn w)) w).
  destruct (save_message_returns m w1) as (w2 & E2 & O2); [done..|].
  destruct (broadcast_fanned_out dashboard_id (json_dumps (chat_message_event m)) None
              conns w2) as (w3 & E3 & F3).
  { by rewrite (os_active _ _ O2). }
  exists w3. split.
  - unfold handle_websocket_message_try. cbn [py_get].
    erewrite bind_run by reflexivity.
    erewrite bind_run by apply chat_content_run.
    rewrite Hc. cbn [py_strip]. erewrite bind_run by reflexivity.
    erewrite bind_run by reflexivity.
    replace (String.eqb (strip s) "" || (max_message_length (settings w) <? len (strip s)))
      with false.
    2:{ symmetry. apply orb_false_iff. split; [by apply String.eqb_neq|].
        apply Z.ltb_ge. lia. }
    erewrite bind_run by reflexivity. rewrite Ht.
    erewrite bind_run by reflexivity. erewrite bind_run by reflexivity.
    rewrite Hr.
    erewrite bind_run by (by apply cls_new_message).
    fold m w1. erewrite bind_run by exact E2.
    unfold broadcast_message. apply try_except_ret. exact E3.
  - rewrite recipients_all in F3. destruct F3 as (l & Hs & Hl).
    exists l. rewrite Hs.
    rewrite (os_sent _ _ O2), (os_closed _ _ O2), (os_now _ _ O2) in *. done.
Qed.

End Delivery.

Section Routing.
Context `{PyRuntime}.

Lemma fanned_out_elem conns message w w' u h :
  fanned_out conns message w w' -> (u, h) ∈ conns -> h ∉ closed w ->
  (h, message) ∈ sent w'.
Proof.
  intros (l & -> & _) Hin Hopen. apply elem_of_app. right. apply elem_of_app. left.
  apply (list_elem_of_fmap_2 (fun c : string * ws => (c.2, message)) _ (u, h)).
  by apply list_elem_of_filter.
Qed.

Lemma handle_frame_typing dashboard_id user_id username data top d conns w :
  user_id <> "" ->
  json_loads data = Some (PDict top) ->
  PyDict.get_default "type" PNone top = PStr "typing" ->
  PyDict.get_default "data" (PDict []) top = PDict d ->
  PyDict.get dashboard_id (active_connections w) = Some conns ->
  exists w',
    handle_frame dashboard_id user_id username data w = (Ret tt, w')
    /\ fanned_out (filter (fun c => c.1 <> user_id) conns)
         (json_dumps (typing_event user_id username
                        (PyDict.get_default "is_typing" (PBool false) d) (now w)))
         w w'.
Proof.
  intros Hne Hl Ht Hd Hg.
  set (w0 := frame_entered "Processing typing type" w).
  set (msg := json_dumps (typing_event user_id username
                (PyDict.get_default "is_typing" (PBool false) d) (now w))).
  destruct (broadcast_fanned_out dashboard_id msg (Some user_id) conns w0)
    as (w1 & E1 & F1); [done|].
  exists (set_log (log_records w1 ++
            [(INFO, "Message loop iteration completed, continuing...")]) w1).
  split.
  - unfold handle_frame.
    erewrite bind_run by reflexivity. rewrite Hl.
    erewrite bind_run by reflexivity. erewrite bind_run by reflexivity.
    cbn [py_get]. erewrite bind_run by reflexivity. rewrite Ht.
    cbn [eq_str String.eqb Ascii.eqb Bool.eqb].
    erewrite bind_run; [reflexivity|].
    erewrite bind_run by reflexivity. rewrite Hd.
    erewrite bind_run by reflexivity. cbn [py_get].
    erewrite bind_run by reflexivity.
    unfold broadcast_typing. erewrite bind_run by reflexivity.
    cbn [now set_log]. fold msg.
    replace (set_log _ _) with w0; [exact E1|].
    unfold w0, frame_entered. cbn. by rewrite <- !app_assoc.
  - rewrite recipients_others in F1 by done.
    destruct F1 as (l & Hs & Hl'). exists l. done.
Qed.


End Routing.

(** ** The registry stays consistent *)

Lemma elem_set {K V} `{KeyEq K} (k k' : K) (v v' : V) d :
  (k', v') ∈ PyDict.set k v d -> (k', v') = (k, v) \/ (k', v') ∈ d.
Proof.
  induction d as [|[k0 v0] d IH]; cbn.
  - intros ?%list_elem_of_singleton. by left.
  - destruct (key_eqb_spec k k0) as [->|Hne].
    + intros [->|?]%elem_of_cons; [by left | right; by right].
    + intros [->|Hin]%elem_of_cons; [right; by left|].
      destruct (IH Hin) as [?|?]; [by left | right; by right].
Qed.

Lemma keeps_ret {A} (a : A) : keeps_registry (mret a : M A).
Proof. intros w Hok. by apply wp_ret. Qed.

Lemma keeps_raise {A} e : keeps_registry (raise e : M A).
Proof. intros w Hok. by apply wp_raise. Qed.

Lemma keeps_bind {A B} (m : M A) (f : A -> M B) :
  keeps_registry m -> (forall a, keeps_registry (f a)) -> keeps_registry (m ≫= f).
Proof.
  intros Hm Hf w Hok. apply wp_bind. eapply wp_mono; [by apply Hm|].
  intros r w' Hns Hok'. destruct r as [a|e|]; [by apply Hf|done|done].
Qed.

Lemma keeps_try {A} (body : M A) (handler : exn -> M A) :
  keeps_registry body -> (forall e, keeps_registry (handler e)) ->
  keeps_registry (try_except body handler).
Proof.
  intros Hb Hh w Hok. apply wp_try. eapply wp_mono; [by apply Hb|].
  intros r w' Hns Hok'. destruct r as [a|e|]; [done|by apply Hh|done].
Qed.

Lemma keeps_logger l msg : keeps_registry (logger l msg).
Proof. intros w Hok. by apply wp_logger. Qed.

Lemma keeps_redis_call {A} (cmd : store -> rresult A) : keeps_registry (redis_call cmd).
Proof. intros w Hok. by apply wp_redis_call. Qed.

Section Registry.
Context `{PyRuntime}.

Lemma keeps_get_redis : keeps_registry get_redis.
Proof.
  intros w Hok. apply wp_get_redis. intros r w' Q _ _.
  intros r0 conns u h. rewrite (q_active _ _ Q), (q_info _ _ Q). apply Hok.
Qed.

Lemma keeps_redis_hset key mapping : keeps_registry (redis_hset key mapping).
Proof.
  unfold redis_hset. destruct (encode_mapping mapping);
    [apply keeps_redis_call | apply keeps_raise].
Qed.

Lemma keeps_broadcast dashboard_id message exclude :
  keeps_registry (broadcast_to_dashboard dashboard_id message exclude).
Proof.
  intros w Hok.
  destruct (broadcast_run dashboard_id message exclude w) as (w' & E & Post).
  eapply wp_intro; [exact E | done |].
  unfold bcast_post in Post.
  destruct (PyDict.get dashboard_id (active_connections w)) as [conns|].
  - destruct Post as ([Sh _] & _). by apply (sh_registry _ _ Sh).
  - by subst.
Qed.

Lemma ConnectedUser_cls_run data w :
  exists r, ConnectedUser.cls data w = (r, w) /\ r <> Stuck.
Proof.
  unfold ConnectedUser.cls.
  destruct (_ ≫= _) as [[[[[[[uid did] una] ost] oca] ols] osi]|]; [|by eexists].
  destruct oca, ols; by eexists.
Qed.

Lemma keeps_ConnectedUser_cls data : keeps_registry (ConnectedUser.cls data).
Proof.
  intros w Hok. destruct (ConnectedUser_cls_run data w) as (r & E & Hns).
  by eapply wp_intro.
Qed.

(** [connect] of a handle the registry does not know keeps the registry
    consistent. *)
Lemma connect_registry_ok websocket dashboard_id user_id username w :
  registry_ok w ->
  PyDict.get websocket (connection_info w) = None ->
  wp (connect websocket dashboard_id user_id username) w
     (fun _ w' => registry_ok w').
Proof.
  intros Hok Hnew. unfold connect. apply wp_bind.
  unfold wp at 1, ws_accept. destruct (decide _); cbn; [done|]. split; [done|].
  apply wp_bind, wp_modify, wp_bind, wp_modify.
  set (w2 := set_info _ _).
  assert (Hok2 : registry_ok w2).
  { intros r conns u h Hg Hin. cbn in Hg |- *.
    destruct (decide (r = dashboard_id)) as [->|Hne].
    - rewrite get_set in Hg. injection Hg as <-.
      apply elem_set in Hin as [[= -> ->]|Hin].
      + exists username. apply get_set.
      + assert (Hold : exists c, PyDict.get dashboard_id (active_connections w) = Some c
                                 /\ (u, h) ∈ c).
        { unfold PyDict.get_default, PyDict.contains in Hin.
          destruct (PyDict.get dashboard_id (active_connections w)) as [c|] eqn:E.
          - rewrite E in Hin. eauto.
          - rewrite get_set in Hin. by apply elem_of_nil in Hin. }
        destruct Hold as (c & Hc & Hin').
        destruct (Hok _ _ _ _ Hc Hin') as [name Hn].
        exists name. rewrite get_set_other; [done|]. intros <-. congruence.
    - rewrite get_set_other in Hg by done.
      assert (Hg' : PyDict.get r (active_connections w) = Some conns).
      { destruct (PyDict.contains dashboard_id (active_connections w)); [done|].
        by rewrite get_set_other in Hg. }
      destruct (Hok _ _ _ _ Hg' Hin) as [name Hn].
      exists name. rewrite get_set_other; [done|]. intros <-. congruence. }
  revert Hok2. generalize w2. clear. intros w Hok. revert w Hok.
  change (keeps_registry
    (try_except
       (get_redis ;;
        connected_user ← ConnectedUser.cls
          [ ("user_id", PStr user_id);
            ("dashboard_id", PStr dashboard_id);
            ("username", PStr username);
            ("status", PUserStatus ONLINE);
            ("socket_id", PStr (id_str websocket)) ];
        let user_key := ConnectedUser.get_redis_key connected_user in
        let user_data := ConnectedUser.to_dict connected_user in
        logger INFO "Saving user data to Redis: " ;;
        redis_hset user_key user_data ;;
        redis_call (Redis.sadd ("connected_users:" +:+ dashboard_id) user_id) ;;
        redis_call (Redis.expire user_key (60 * 60)) ;;
        logger INFO "User " ;;
        broadcast_user_joined dashboard_id username)
       (fun e => logger ERROR "Error saving connected user: "))).
  apply keeps_try; [|intros e; apply keeps_logger]. cbv zeta.
  unfold broadcast_user_joined.
  repeat (first [ apply keeps_get_redis | apply keeps_ConnectedUser_cls
                | apply keeps_logger | apply keeps_redis_hset
                | apply keeps_redis_call | apply keeps_broadcast
                | apply keeps_bind; [|intros ?] ]).
  intros w Hok. by eapply wp_intro.
Qed.

Lemma disconnect_registry_ok websocket w :
  registry_ok w -> wp (disconnect websocket) w (fun _ w' => registry_ok w').
Proof.
  intros Hok.
  eapply wp_mono; [by apply (disconnect_ok (length (connection_info w)))|].
  intros r w' _ (_ & [Sh _] & _). by apply (sh_registry _ _ Sh).
Qed.
End Registry.

(** * More on the registry, the endpoints and the stores *)

(** ** Computations that send nothing *)

Lemma silent_refl w : silent w w.
Proof. by split. Qed.

Lemma silent_trans w1 w2 w3 : silent w1 w2 -> silent w2 w3 -> silent w1 w3.
Proof. intros [] []. split; congruence. Qed.

Lemma steps_ret (R : world -> world -> Prop) {A} (a : A) :
  (forall w, R w w) -> steps R (mret a : M A).
Proof. intros HR w. by apply wp_ret. Qed.

Lemma steps_raise (R : world -> world -> Prop) {A} e :
  (forall w, R w w) -> steps R (raise e : M A).
Proof. intros HR w. by apply wp_raise. Qed.

Lemma steps_bind (R : world -> world -> Prop) {A B} (m : M A) (f : A -> M B) :
  (forall w1 w2 w3, R w1 w2 -> R w2 w3 -> R w1 w3) ->
  steps R m -> (forall a, steps R (f a)) -> steps R (m ≫= f).
Proof.
  intros HT Hm Hf w. apply wp_bind. eapply wp_mono; [apply Hm|].
  intros r w1 Hns HR. destruct r as [a|e|]; [|done|done].
  eapply wp_mono; [apply Hf|]. intros r w2 _ HR2. by eapply HT.
Qed.

Lemma steps_try (R : world -> world -> Prop) {A} (body : M A) handler :
  (forall w1 w2 w3, R w1 w2 -> R w2 w3 -> R w1 w3) ->
  steps R body -> (forall e, steps R (handler e)) -> steps R (try_except body handler).
Proof.
  intros HT Hb Hh w. apply wp_try. eapply wp_mono; [apply Hb|].
  intros r w1 Hns HR. destruct r as [a|e|]; [done| |done].
  eapply wp_mono; [apply Hh|]. intros r w2 _ HR2. by eapply HT.
Qed.

Lemma silent_logger l msg : steps silent (logger l msg).
Proof. intros w. by apply wp_logger. Qed.

Lemma silent_get_world : steps silent get_world.
Proof. intros w. by apply wp_get_world. Qed.

Lemma silent_redis_call {A} (cmd : store -> rresult A) : steps silent (redis_call cmd).
Proof. intros w. by apply wp_redis_call. Qed.

Lemma silent_datetime_now : steps silent datetime_now.
Proof. intros w. by split. Qed.

Lemma silent_ret {A} (a : A) : steps silent (mret a : M A).
Proof. apply steps_ret, silent_refl. Qed.

Lemma silent_raise {A} e : steps silent (raise e : M A).
Proof. apply steps_raise, silent_refl. Qed.

Lemma silent_bind {A B} (m : M A) (f : A -> M B) :
  steps silent m -> (forall a, steps silent (f a)) -> steps silent (m ≫= f).
Proof. apply steps_bind, silent_trans. Qed.

Lemma silent_try {A} (body : M A) handler :
  steps silent body -> (forall e, steps silent (handler e)) ->
  steps silent (try_except body handler).
Proof. apply steps_try, silent_trans. Qed.

Create HintDb silent discriminated.
#[export] Hint Resolve silent_logger silent_get_world silent_redis_call
  silent_datetime_now silent_ret silent_raise silent_bind silent_try : silent.

Section Silent.
Context `{PyRuntime}.

Lemma silent_get_redis : steps silent get_redis.
Proof.
  intros w. apply wp_get_redis. intros r w' Q _ _.
  destruct Q. by split.
Qed.

Lemma silent_redis_hset key mapping : steps silent (redis_hset key mapping).
Proof. unfold redis_hset. destruct (encode_mapping mapping); auto with silent. Qed.

Lemma silent_redis_hgetall key : steps silent (redis_hgetall key).
Proof. unfold redis_hgetall. auto with silent. Qed.

Lemma silent_save_message m : steps silent (save_message_to_redis m).
Proof.
  unfold save_message_to_redis. cbv zeta.
  auto 20 using silent_get_redis, silent_redis_hset with silent.
Qed.

Lemma silent_ChatMessage_cls data : steps silent (ChatMessage.cls data).
Proof.
  intros w. destruct (ChatMessage_cls_run data w) as (r & w' & E & Hns & S).
  eapply wp_intro; [exact E | done |]. by destruct S as [->| ->].
Qed.

Lemma silent_ConnectedUser_cls data : steps silent (ConnectedUser.cls data).
Proof.
  intros w. destruct (ConnectedUser_cls_run data w) as (r & E & Hns).
  eapply wp_intro; [exact E | done | apply silent_refl].
Qed.
End Silent.

(** ** More on dictionaries *)

Lemma set_set {K V} `{KeyEq K} (k : K) (v v' : V) d :
  PyDict.set k v (PyDict.set k v' d) = PyDict.set k v d.
Proof. induction d as [|[k0 v0] d IH]; cbn; keys; cbn; keys. Qed.

Lemma elem_set_new {K V} `{KeyEq K} (k : K) (v : V) d : (k, v) ∈ PyDict.set k v d.
Proof. apply get_elem, get_set. Qed.

Lemma length_set {K V} `{KeyEq K} (k : K) (v : V) d :
  length (PyDict.set k v d)
  = if PyDict.contains k d then length d else S (length d).
Proof.
  unfold PyDict.contains. induction d as [|[k0 v0] d IH]; cbn; [done|].
  destruct (key_eqb_spec k k0) as [->|Hne]; cbn; [done|].
  rewrite IH. by destruct (PyDict.get k d).
Qed.

Lemma run_three (m1 m2 m3 : M unit) {B} (k : M B) w w' :
  (m1 ;; m2 ;; m3) w = (Ret tt, w') -> (m1 ;; m2 ;; m3 ;; k) w = k w'.
Proof.
  unfold mbind, M_bind. destruct (m1 w) as [[[]|e|] w1]; [|done..].
  destruct (m2 w1) as [[[]|e|] w2]; [|done..].
  destruct (m3 w2) as [[[]|e|] w3]; [|done..]. by intros [= ->].
Qed.

Lemma get_redis_connected w : redis_client w = true -> get_redis w = (Ret tt, w).
Proof. intros Hc. unfold get_redis. erewrite bind_run by reflexivity. by rewrite Hc. Qed.

Lemma redis_call_fault {A} (cmd : store -> rresult A) fs w :
  redis_faults w = true :: fs ->
  redis_call cmd w = (Raise ConnectionError, set_faults fs w).
Proof. intros Hf. unfold redis_call. by rewrite Hf. Qed.

Section Registering.
Context `{PyRuntime}.

Lemma disconnect_fuel_enough websocket w :
  exists w', disconnect websocket w = (Ret tt, w')
             /\ PyDict.get websocket (connection_info w') = None.
Proof.
  apply wp_returns. eapply wp_mono.
  { by apply (disconnect_ok (length (connection_info w))). }
  by intros r w' _ (-> & _ & ?).
Qed.

Lemma disconnect_unknown websocket w :
  PyDict.get websocket (connection_info w) = None ->
  disconnect websocket w = (Ret tt, w).
Proof.
  intros Hn. unfold disconnect. cbn [disconnect_rec].
  erewrite bind_run by reflexivity. by rewrite Hn.
Qed.

(** X1.  [disconnect] always returns, and it is idempotent: a second
    call on the same handle changes nothing; on a handle that
    [connection_info] does not know the first call changes nothing
    either. *)
Theorem disconnect_is_idempotent websocket w :
  exists w',
    disconnect websocket w = (Ret tt, w')
    /\ disconnect websocket w' = (Ret tt, w')
    /\ (PyDict.get websocket (connection_info w) = None -> w' = w).
Proof.
  destruct (disconnect_fuel_enough websocket w) as (w' & E & Hgone).
  exists w'. split; [done|]. split; [by apply disconnect_unknown|].
  intros Hn. rewrite disconnect_unknown in E by done. congruence.
Qed.


(** X3.  When the first Redis call of [disconnect] fails, the handle is
    unregistered all the same: the call returns, both registry updates are
    made, the failure is logged, and no "user_left" announcement is
    sent. *)
Theorem disconnect_while_redis_fails websocket d fs w :
  PyDict.get websocket (connection_info w) = Some d ->
  redis_client w = true -> redis_faults w = true :: fs ->
  disconnect websocket w
  = (Ret tt,
     set_log (log_records w ++ [(ERROR, "Error updating disconnected user: ")])
       (set_faults fs (unregistered websocket d w))).
Proof.
  intros Hd Hc Hf. unfold disconnect. cbn [disconnect_rec].
  erewrite bind_run by reflexivity. rewrite Hd. unfold unregister_with.
  erewrite bind_run by reflexivity. erewrite bind_run by reflexivity.
  fold (unregistered websocket d w).
  set (w2 := unregistered websocket d w).
  assert (Hc2 : redis_client w2 = true) by done.
  assert (Hf2 : redis_faults w2 = true :: fs) by done.
  unfold try_except.
  erewrite bind_run by (apply get_redis_connected, Hc2).
  erewrite bind_raise by (apply redis_call_fault, Hf2).
  reflexivity.
Qed.
End Registering.

Lemma same_registry_refl w : same_registry w w.
Proof. by split. Qed.

Lemma same_registry_trans w1 w2 w3 :
  same_registry w1 w2 -> same_registry w2 w3 -> same_registry w1 w3.
Proof. intros [] []. split; congruence. Qed.

Lemma silent_same_registry w w' : silent w w' -> same_registry w w'.
Proof. intros []. by split. Qed.

Section Calm.
Context `{PyRuntime}.

Lemma room_open_same dashboard_id w w' :
  same_registry w w' -> room_open dashboard_id w -> room_open dashboard_id w'.
Proof.
  intros S Ho u h. unfold room_connections.
  rewrite (sr_active _ _ S), (sr_closed _ _ S). apply Ho.
Qed.

Lemma room_open_none_closed dashboard_id w :
  closed w = ∅ -> room_open dashboard_id w.
Proof. intros E u h _. rewrite E. set_solver. Qed.

Lemma calm_refl dashboard_id w : calm dashboard_id w w.
Proof. intros _. apply same_registry_refl. Qed.

Lemma calm_trans dashboard_id w1 w2 w3 :
  calm dashboard_id w1 w2 -> calm dashboard_id w2 w3 -> calm dashboard_id w1 w3.
Proof.
  intros A B Ho. specialize (A Ho).
  eapply same_registry_trans; [done|]. apply B. by eapply room_open_same.
Qed.

Lemma silent_calm dashboard_id {A} (m : M A) :
  steps silent m -> steps (calm dashboard_id) m.
Proof.
  intros Hm w. eapply wp_mono; [apply Hm|].
  intros r w' _ S _. by apply silent_same_registry.
Qed.

Lemma calm_bind dashboard_id {A B} (m : M A) (f : A -> M B) :
  steps (calm dashboard_id) m -> (forall a, steps (calm dashboard_id) (f a)) ->
  steps (calm dashboard_id) (m ≫= f).
Proof. apply steps_bind, calm_trans. Qed.

Lemma calm_try dashboard_id {A} (body : M A) handler :
  steps (calm dashboard_id) body -> (forall e, steps (calm dashboard_id) (handler e)) ->
  steps (calm dashboard_id) (try_except body handler).
Proof. apply steps_try, calm_trans. Qed.

Lemma no_failures conns exclude cl :
  (forall u h, (u, h) ∈ conns -> h ∉ cl) ->
  failures conns exclude cl = []
  /\ forall message, deliveries conns message exclude cl
                     = frames_to (recipients conns exclude) message.
Proof.
  intros Ho. unfold failures, deliveries, frames_to.
  assert (Hin : forall c, c ∈ recipients conns exclude -> c.2 ∉ cl).
  { intros [u h] [_ Hc]%list_elem_of_filter. by apply (Ho u h). }
  induction (recipients conns exclude) as [|c l IH]; [done|].
  rewrite !filter_cons.
  rewrite decide_False by (intros ?; by apply (Hin c); [left|]).
  rewrite decide_True by (apply Hin; by left).
  destruct IH as [IH1 IH2]; [intros c' ?; apply Hin; by right|].
  split; [done|]. intros message. cbn. by rewrite IH2.
Qed.

(** With every transport of the room open, a broadcast hands one frame
    to each recipient, in the order of registration, and does nothing
    else. *)
Lemma broadcast_open dashboard_id message exclude w :
  room_open dashboard_id w ->
  broadcast_to_dashboard dashboard_id message exclude w
  = (Ret tt,
     set_sent (sent w ++ frames_to (recipients (room_connections dashboard_id w)
                                      exclude) message) w).
Proof.
  intros Ho. unfold broadcast_to_dashboard, broadcast_to_dashboard_with.
  erewrite bind_run by reflexivity.
  unfold room_open, room_connections, PyDict.get_default in *.
  destruct (PyDict.get dashboard_id (active_connections w)) as [conns|] eqn:Hg.
  - destruct (no_failures conns exclude (closed w) Ho) as [F D].
    erewrite bind_run by apply send_loop_run. rewrite F. cbn [app for_each].
    unfold after_fanout. rewrite F, D. cbn. rewrite app_nil_r. by destruct w.
  - cbn. rewrite app_nil_r. by destruct w.
Qed.

Lemma calm_broadcast dashboard_id message exclude :
  steps (calm dashboard_id) (broadcast_to_dashboard dashboard_id message exclude).
Proof.
  intros w. unfold wp.
  destruct (broadcast_run dashboard_id message exclude w) as (w' & E & _).
  rewrite E. split; [done|]. cbn. intros Ho.
  rewrite broadcast_open in E by done. injection E as <-. by split.
Qed.
End Calm.

Section Connect.
Context `{PyRuntime}.

Lemma connect_registered websocket dashboard_id user_id username w :
  set_info (PyDict.set websocket (mkConn dashboard_id user_id username)
              (connection_info w))
    (set_active
       (let a := active_connections w in
        let a := if PyDict.contains dashboard_id a then a
                 else PyDict.set dashboard_id [] a in
        let connections := PyDict.get_default dashboard_id [] a in
        PyDict.set dashboard_id (PyDict.set user_id websocket connections) a) w)
  = registered websocket dashboard_id user_id username w.
Proof.
  unfold registered, room_connections. cbv zeta. f_equal. f_equal.
  unfold PyDict.contains, PyDict.get_default.
  destruct (PyDict.get dashboard_id (active_connections w)) eqn:E; [by rewrite E|].
  by rewrite get_set, set_set.
Qed.

Lemma room_open_registered websocket dashboard_id user_id username w :
  websocket ∉ closed w -> room_open dashboard_id w ->
  room_open dashboard_id (registered websocket dashboard_id user_id username w).
Proof.
  intros Hh Ho u h. unfold room_connections, registered, PyDict.get_default. cbn.
  rewrite get_set. intros [[= -> ->]|Hin]%elem_set; [done|]. by apply (Ho u h).
Qed.

Lemma presence_cls websocket dashboard_id user_id username w :
  ConnectedUser.cls
    [ ("user_id", PStr user_id);
      ("dashboard_id", PStr dashboard_id);
      ("username", PStr username);
      ("status", PUserStatus ONLINE);
      ("socket_id", PStr (id_str websocket)) ] w
  = (Ret (presence_of websocket dashboard_id user_id username (now w)), w).
Proof. reflexivity. Qed.

(** The [try] block of [connect] keeps the registry of a room whose
    transports are all open. *)
Lemma calm_connect_try websocket dashboard_id user_id username :
  steps (calm dashboard_id)
    (try_except
       (get_redis ;;
        connected_user ← ConnectedUser.cls
          [ ("user_id", PStr user_id);
            ("dashboard_id", PStr dashboard_id);
            ("username", PStr username);
            ("status", PUserStatus ONLINE);
            ("socket_id", PStr (id_str websocket)) ];
        let user_key := ConnectedUser.get_redis_key connected_user in
        let user_data := ConnectedUser.to_dict connected_user in
        logger INFO "Saving user data to Redis: " ;;
        redis_hset user_key user_data ;;
        redis_call (Redis.sadd ("connected_users:" +:+ dashboard_id) user_id) ;;
        redis_call (Redis.expire user_key (60 * 60)) ;;
        logger INFO "User " ;;
        broadcast_user_joined dashboard_id username)
       (fun e => logger ERROR "Error saving connected user: ")).
Proof.
  apply calm_try; [|intros e; apply silent_calm, silent_logger].
  apply calm_bind; [apply silent_calm, silent_get_redis|intros _].
  apply calm_bind; [apply silent_calm, silent_ConnectedUser_cls|intros cu]. cbv zeta.
  apply calm_bind; [apply silent_calm, silent_logger|intros _].
  apply calm_bind; [apply silent_calm, silent_redis_hset|intros _].
  apply calm_bind; [apply silent_calm, silent_redis_call|intros _].
  apply calm_bind; [apply silent_calm, silent_redis_call|intros _].
  apply calm_bind; [apply silent_calm, silent_logger|intros _].
  unfold broadcast_user_joined.
  apply calm_bind; [apply silent_calm, silent_datetime_now|intros t].
  apply calm_broadcast.
Qed.

Lemma connect_accepted websocket dashboard_id user_id username w :
  websocket ∉ closed w ->
  connect websocket dashboard_id user_id username w
  = try_except
       (get_redis ;;
        connected_user ← ConnectedUser.cls
          [ ("user_id", PStr user_id);
            ("dashboard_id", PStr dashboard_id);
            ("username", PStr username);
            ("status", PUserStatus ONLINE);
            ("socket_id", PStr (id_str websocket)) ];
        let user_key := ConnectedUser.get_redis_key connected_user in
        let user_data := ConnectedUser.to_dict connected_user in
        logger INFO "Saving user data to Redis: " ;;
        redis_hset user_key user_data ;;
        redis_call (Redis.sadd ("connected_users:" +:+ dashboard_id) user_id) ;;
        redis_call (Redis.expire user_key (60 * 60)) ;;
        logger INFO "User " ;;
        broadcast_user_joined dashboard_id username)
       (fun e => logger ERROR "Error saving connected user: ")
       (registered websocket dashboard_id user_id username w).
Proof.
  intros Hh. unfold connect.
  erewrite bind_run.
  2:{ unfold ws_accept. by rewrite decide_False by done. }
  erewrite bind_run by reflexivity. erewrite bind_run by reflexivity.
  cbn [active_connections connection_info set_active].
  by rewrite connect_registered.
Qed.

Lemma connect_run websocket dashboard_id user_id username w :
  websocket ∉ closed w -> room_open dashboard_id w ->
  exists w',
    connect websocket dashboard_id user_id username w = (Ret tt, w')
    /\ same_registry (registered websocket dashboard_id user_id username w) w'.
Proof.
  intros Hh Ho. rewrite connect_accepted by done.
  pose proof (calm_connect_try websocket dashboard_id user_id username
                (registered websocket dashboard_id user_id username w)) as [Hns Hc].
  set (body := get_redis ;; _) in *.
  assert (Hret : exists w', try_except body
      (fun e => logger ERROR "Error saving connected user: ")
      (registered websocket dashboard_id user_id username w) = (Ret tt, w')).
  { unfold try_except in *. destruct (body _) as [[[]|e|] w1]; [by eexists..|done]. }
  destruct Hret as (w' & E). rewrite E in *. cbn in Hc.
  exists w'. split; [done|]. by apply Hc, room_open_registered.
Qed.

(** X4.  [connect] of an open transport into a room whose transports
    are all open registers the handle whatever Redis does: it returns,
    the handle is set under the user id in the connections of the room
    (replacing an earlier handle of that user) and in [connection_info],
    and [get_connection_count] of the room counts one more connection
    unless the user id was registered already. *)
Theorem connect_registers_whatever_redis_does
    websocket dashboard_id user_id username w :
  websocket ∉ closed w -> room_open dashboard_id w ->
  exists w',
    connect websocket dashboard_id user_id username w = (Ret tt, w')
    /\ active_connections w'
       = PyDict.set dashboard_id
           (PyDict.set user_id websocket (room_connections dashboard_id w))
           (active_connections w)
    /\ connection_info w'
       = PyDict.set websocket (mkConn dashboard_id user_id username)
           (connection_info w)
    /\ get_connection_count dashboard_id w'
       = (Ret (if PyDict.contains user_id (room_connections dashboard_id w)
               then Z.of_nat (length (room_connections dashboard_id w))
               else Z.of_nat (length (room_connections dashboard_id w)) + 1),
          w').
Proof.
  intros Hh Ho.
  destruct (connect_run websocket dashboard_id user_id username w Hh Ho)
    as (w' & E & Hc).
  exists w'. split; [done|].
  assert (Ha : active_connections w'
       = PyDict.set dashboard_id
           (PyDict.set user_id websocket (room_connections dashboard_id w))
           (active_connections w)) by (by rewrite (sr_active _ _ Hc)).
  split; [done|]. split; [by rewrite (sr_info _ _ Hc)|].
  unfold get_connection_count. erewrite bind_run by reflexivity.
  rewrite Ha, get_set, length_set.
  destruct (PyDict.contains _ _); [done|]. by rewrite Nat2Z.inj_succ, <- Z.add_1_r.
Qed.


Lemma connect_fault_run websocket dashboard_id user_id username fs w :
  websocket ∉ closed w ->
  redis_client w = true -> redis_faults w = true :: fs ->
  connect websocket dashboard_id user_id username w
  = (Ret tt,
     set_log (log_records w ++ [ (INFO, "Saving user data to Redis: ");
                                 (ERROR, "Error saving connected user: ") ])
       (set_faults fs (registered websocket dashboard_id user_id username w))).
Proof.
  intros Hh Hc Hf. rewrite connect_accepted by done.
  set (w1 := registered websocket dashboard_id user_id username w).
  assert (Hc1 : redis_client w1 = true) by done.
  unfold try_except.
  rewrite (bind_run get_redis _ w1 tt w1) by (apply get_redis_connected, Hc1).
  erewrite bind_run by apply presence_cls. cbv zeta.
  erewrite bind_run by reflexivity.
  erewrite bind_raise.
  2:{ unfold redis_hset.
      destruct (encode_user_to_dict
                  (presence_of websocket dashboard_id user_id username (now w1)))
        as [-> _].
      apply redis_call_fault. exact Hf. }
  rewrite logger_run. cbn. by rewrite <- app_assoc.
Qed.

End Connect.

(** ** What cleaning up never touches *)

Lemma always_ret (R : world -> world -> Prop) {A} (a : A) :
  (forall w, R w w) -> always R (mret a : M A).
Proof. intros HR w. apply HR. Qed.

Lemma always_bind (R : world -> world -> Prop) {A B} (m : M A) (f : A -> M B) :
  (forall w1 w2 w3, R w1 w2 -> R w2 w3 -> R w1 w3) ->
  always R m -> (forall a, always R (f a)) -> always R (m ≫= f).
Proof.
  intros HT Hm Hf w. specialize (Hm w). unfold mbind, M_bind.
  destruct (m w) as [[a|e|] w1]; cbn in *; [|done..].
  eapply HT; [done|apply Hf].
Qed.

Lemma always_try (R : world -> world -> Prop) {A} (body : M A) handler :
  (forall w1 w2 w3, R w1 w2 -> R w2 w3 -> R w1 w3) ->
  always R body -> (forall e, always R (handler e)) ->
  always R (try_except body handler).
Proof.
  intros HT Hb Hh w. specialize (Hb w). unfold try_except.
  destruct (body w) as [[a|e|] w1]; cbn in *; [done| |done].
  eapply HT; [done|apply Hh].
Qed.

Lemma messages_kept_refl w : messages_kept w w.
Proof. by intros k _. Qed.

Lemma messages_kept_trans w1 w2 w3 :
  messages_kept w1 w2 -> messages_kept w2 w3 -> messages_kept w1 w3.
Proof.
  intros A B k Hk. destruct (A k Hk) as [A1 A2], (B k Hk) as [B1 B2].
  split; congruence.
Qed.

Lemma messages_kept_same_store w w' : redis w' = redis w -> messages_kept w w'.
Proof. intros E k _. by rewrite E. Qed.

Lemma kept_bind {A B} (m : M A) (f : A -> M B) :
  always messages_kept m -> (forall a, always messages_kept (f a)) ->
  always messages_kept (m ≫= f).
Proof. apply always_bind, messages_kept_trans. Qed.

Lemma kept_try {A} (body : M A) handler :
  always messages_kept body -> (forall e, always messages_kept (handler e)) ->
  always messages_kept (try_except body handler).
Proof. apply always_try, messages_kept_trans. Qed.

Lemma kept_same_store {A} (m : M A) :
  (forall w, redis (m w).2 = redis w) -> always messages_kept m.
Proof. intros Hm w. by apply messages_kept_same_store. Qed.

Lemma kept_logger l msg : always messages_kept (logger l msg).
Proof. by apply kept_same_store. Qed.

Lemma kept_modify f :
  (forall w, redis (f w) = redis w) -> always messages_kept (modify f).
Proof. intros Hf. by apply kept_same_store. Qed.

Lemma kept_get_world : always messages_kept get_world.
Proof. by apply kept_same_store. Qed.

Lemma kept_datetime_now : always messages_kept datetime_now.
Proof. by apply kept_same_store. Qed.

Lemma kept_ret {A} (a : A) : always messages_kept (mret a : M A).
Proof. by apply kept_same_store. Qed.

Lemma kept_stuck {A} : always messages_kept (stuck : M A).
Proof. by apply kept_same_store. Qed.

Lemma kept_ws_send_text h frame : always messages_kept (ws_send_text h frame).
Proof. apply kept_same_store. intros w. unfold ws_send_text. by destruct (decide _). Qed.

(** A Redis command that leaves the keys of the message store alone. *)
Lemma kept_redis_call {A} (cmd : store -> rresult A) :
  (forall s a s', cmd s = inr (a, s') ->
     forall k, message_store_key k = true ->
       db s' !! k = db s !! k /\ ttl s' !! k = ttl s !! k) ->
  always messages_kept (redis_call cmd).
Proof.
  intros Hc w k Hk. unfold redis_call.
  destruct (redis_faults w) as [|[] fs]; cbn; [|done|];
    (destruct (cmd (redis w)) as [e|[a s']] eqn:E; cbn; [done|]);
    by apply (Hc _ _ _ E).
Qed.

Lemma kept_ping : always messages_kept (redis_call Redis.ping).
Proof. apply kept_redis_call. by intros s a s' [= _ <-]. Qed.

Lemma not_message_store_key_user room user_id :
  message_store_key ("user:" +:+ room +:+ ":" +:+ user_id) = false.
Proof. done. Qed.

Lemma not_message_store_key_members room :
  message_store_key ("connected_users:" +:+ room) = false.
Proof. done. Qed.

Lemma kept_delete key :
  message_store_key key = false ->
  always messages_kept (redis_call (Redis.delete key)).
Proof.
  intros Hn. apply kept_redis_call. intros s a s' E k Hk.
  assert (key <> k) by congruence.
  unfold Redis.delete in E. destruct (db s !! key); injection E as <- <-; [|done].
  cbn. by rewrite !lookup_delete_ne.
Qed.

Lemma kept_srem key x :
  message_store_key key = false ->
  always messages_kept (redis_call (Redis.srem key x)).
Proof.
  intros Hn. apply kept_redis_call. intros s a s' E k Hk.
  assert (key <> k) by congruence.
  unfold Redis.srem in E. destruct (db s !! key) as [[| |m]|]; try done.
  - destruct (decide _); injection E as <- <-; cbn.
    + by rewrite !lookup_delete_ne.
    + by rewrite lookup_insert_ne.
  - by injection E as <- <-.
Qed.

Section Kept.
Context `{PyRuntime}.

Lemma kept_get_redis : always messages_kept get_redis.
Proof.
  unfold get_redis. apply kept_bind; [apply kept_get_world|intros w0].
  destruct (redis_client w0); [apply kept_ret|].
  unfold connect_to_redis. apply kept_try.
  - apply kept_bind; [by apply kept_modify|intros _].
    apply kept_bind; [apply kept_ping|intros _]. apply kept_logger.
  - intros e. apply kept_bind; [apply kept_logger|intros _]. by apply kept_same_store.
Qed.

Lemma kept_send_loop conns message exclude acc :
  always messages_kept (send_loop conns message exclude acc).
Proof.
  intros w. rewrite send_loop_run. by apply messages_kept_same_store.
Qed.

Lemma kept_for_each {A} (l : list A) (body : A -> M unit) :
  (forall a, always messages_kept (body a)) ->
  always messages_kept (for_each l body).
Proof.
  intros Hb. induction l as [|a l IH]; cbn [for_each]; [apply kept_ret|].
  apply kept_bind; [apply Hb | by intros _].
Qed.

Lemma kept_broadcast_with disc dashboard_id message exclude :
  (forall h, always messages_kept (disc h)) ->
  always messages_kept (broadcast_to_dashboard_with disc dashboard_id message exclude).
Proof.
  intros Hd. unfold broadcast_to_dashboard_with.
  apply kept_bind; [apply kept_get_world|intros w0].
  destruct (PyDict.get _ _); [|apply kept_ret].
  apply kept_bind; [apply kept_send_loop|intros failed]. by apply kept_for_each.
Qed.

Lemma kept_unregister_with disc websocket d :
  (forall h, always messages_kept (disc h)) ->
  always messages_kept (unregister_with disc websocket d).
Proof.
  intros Hd. unfold unregister_with. cbv zeta.
  apply kept_bind; [by apply kept_modify|intros _].
  apply kept_bind; [by apply kept_modify|intros _].
  apply kept_try; [|intros e; apply kept_logger].
  apply kept_bind; [apply kept_get_redis|intros _].
  apply kept_bind; [apply kept_delete, not_message_store_key_user|intros _].
  apply kept_bind; [apply kept_srem, not_message_store_key_members|intros _].
  apply kept_bind; [apply kept_logger|intros _].
  unfold broadcast_user_left_with.
  apply kept_bind; [apply kept_datetime_now|intros t].
  by apply kept_broadcast_with.
Qed.

Lemma kept_disconnect_rec fuel websocket :
  always messages_kept (disconnect_rec fuel websocket).
Proof.
  revert websocket. induction fuel as [|fuel IH]; intros websocket;
    cbn [disconnect_rec]; [apply kept_stuck|].
  apply kept_bind; [apply kept_get_world|intros w0].
  destruct (PyDict.get _ _); [|apply kept_ret]. by apply kept_unregister_with.
Qed.

Lemma kept_disconnect websocket : always messages_kept (disconnect websocket).
Proof. intros w. unfold disconnect. apply kept_disconnect_rec. Qed.

Lemma kept_broadcast dashboard_id message exclude :
  always messages_kept (broadcast_to_dashboard dashboard_id message exclude).
Proof. apply kept_broadcast_with, kept_disconnect. Qed.

Lemma messages_kept_history w w' room :
  messages_kept w w' -> history (redis w') room = history (redis w) room.
Proof. intros Hk. unfold history. by destruct (Hk ("messages:" +:+ room) eq_refl) as [-> _]. Qed.

Lemma message_store_key_message room i : message_store_key (message_key room i) = true.
Proof. done. Qed.

Lemma messages_kept_hash w w' room i :
  messages_kept w w' ->
  hash_at (redis w') (message_key room i) = hash_at (redis w) (message_key room i).
Proof.
  intros Hk. unfold hash_at.
  by destruct (Hk _ (message_store_key_message room i)) as [-> _].
Qed.

(** X7.  Neither [disconnect] nor [broadcast_to_dashboard], with the
    clean-up of failed connections it triggers, ever touches the message
    store: the id list of every room, and every message hash with its
    time to live, are as before, however the call ends. *)
Theorem cleanup_never_touches_messages websocket dashboard_id message exclude w :
  let after_disconnect := (disconnect websocket w).2 in
  let after_broadcast :=
    (broadcast_to_dashboard dashboard_id message exclude w).2 in
  forall room,
    history (redis after_disconnect) room = history (redis w) room
    /\ history (redis after_broadcast) room = history (redis w) room
    /\ forall i,
         hash_at (redis after_disconnect) (message_key room i)
         = hash_at (redis w) (message_key room i)
         /\ hash_at (redis after_broadcast) (message_key room i)
            = hash_at (redis w) (message_key room i)
         /\ ttl (redis after_disconnect) !! message_key room i
            = ttl (redis w) !! message_key room i
         /\ ttl (redis after_broadcast) !! message_key room i
            = ttl (redis w) !! message_key room i.
Proof.
  intros wd wb room.
  pose proof (kept_disconnect websocket w) as Hd.
  pose proof (kept_broadcast dashboard_id message exclude w) as Hb.
  split; [by apply messages_kept_history|].
  split; [by apply messages_kept_history|]. intros i.
  split; [by apply messages_kept_hash|].
  split; [by apply messages_kept_hash|].
  split.
  - by destruct (Hd _ (message_store_key_message room i)).
  - by destruct (Hb _ (message_store_key_message room i)).
Qed.
End Kept.

Section MoreFrames.
Context `{PyRuntime}.

(** X8.  A frame that parses to an object whose ["type"] is neither
    "chat_message" nor "typing" is ignored: the loop iteration returns,
    and only the log changes (a warning about the unknown type). *)
Theorem unknown_frame_is_ignored dashboard_id user_id username data top w :
  json_loads data = Some (PDict top) ->
  eq_str (PyDict.get_default "type" PNone top) "chat_message" = false ->
  eq_str (PyDict.get_default "type" PNone top) "typing" = false ->
  handle_frame dashboard_id user_id username data w
  = (Ret tt,
     set_log (log_records w ++
                [ (INFO, "Received WebSocket data: ");
                  (INFO, "Parsed message data: ");
                  (WARNING, "Unknown message type: ");
                  (INFO, "Message loop iteration completed, continuing...") ]) w).
Proof.
  intros Hl H1 H2. unfold handle_frame.
  erewrite bind_run by reflexivity. rewrite Hl.
  erewrite bind_run by reflexivity. erewrite bind_run by reflexivity.
  cbn [py_get]. erewrite bind_run by reflexivity. rewrite H1, H2.
  erewrite bind_run by reflexivity. rewrite logger_run. cbn.
  by rewrite <- !app_assoc.
Qed.


(** What [handle_websocket_message] does with a valid frame: it saves and
    then broadcasts the record it built. *)
Lemma valid_frame_saves_then_broadcasts
    dashboard_id user_id username d s t reply_to w :
  chat_content d = PStr s ->
  strip s <> "" ->
  len (strip s) <= max_message_length (settings w) ->
  len (strip s) <= 1000 ->
  MessageType_of (PyDict.get_default "message_type" (PStr "text") d) = Some t ->
  PyDict.get_default "reply_to" PNone d = optional_str reply_to ->
  let m := new_chat_message dashboard_id user_id username (strip s) t reply_to w in
  handle_websocket_message_try dashboard_id user_id username (PDict d) w
  = (save_message_to_redis m ;; broadcast_message m)
      (set_uuid_drawn (S (uuid_drawn w)) w).
Proof.
  intros Hc Hne Hmax Hlen Ht Hr m.
  unfold handle_websocket_message_try. cbn [py_get].
  erewrite bind_run by reflexivity.
  erewrite bind_run by apply chat_content_run.
  rewrite Hc. cbn [py_strip]. erewrite bind_run by reflexivity.
  erewrite bind_run by reflexivity.
  replace (String.eqb (strip s) "" || (max_message_length (settings w) <? len (strip s)))
    with false.
  2:{ symmetry. apply orb_false_iff. split; [by apply String.eqb_neq|].
      apply Z.ltb_ge. lia. }
  erewrite bind_run by reflexivity. rewrite Ht.
  erewrite bind_run by reflexivity. erewrite bind_run by reflexivity.
  rewrite Hr.
  erewrite bind_run by (by apply cls_new_message). reflexivity.
Qed.


End MoreFrames.

Section SavedStore.
Context `{PyRuntime}.

Lemma save_message_exact (m : ChatMessage.t) (w : world) :
  store_up w -> wf_store (redis w) ->
  save_message_to_redis m w
  = (Ret tt,
     set_redis (saved m (message_history_limit (settings w)) (redis w))
       (set_log (log_records w ++ [(INFO, "Saving message to Redis: ")]) w)).
Proof.
  intros Hup Hwf.
  set (room := ChatMessage.dashboard_id m).
  set (key := message_key room (ChatMessage.id m)).
  destruct (encode_to_dict m) as [Henc Hne].
  set (s0 := redis w).
  set (s1 := store_put key (RHash (hash_write (hash_at s0 key) (stored_fields m))) s0).
  set (s2 := store_put ("messages:" +:+ room)
               (RList (history s1 room ++ [ChatMessage.id m])) s1).
  assert (Hkl : key <> "messages:" +:+ room)
    by (by apply (kind_mismatch _ _ KHash KList)).
  set (K := message_history_limit (settings w)).
  set (s3 := match lslice (history s1 room ++ [ChatMessage.id m]) (- K) (-1) with
             | [] => store_del ("messages:" +:+ room) s2
             | l => store_put ("messages:" +:+ room) (RList l) s2
             end).
  assert (H3 : db s3 !! key
               = Some (RHash (hash_write (hash_at s0 key) (stored_fields m)))).
  { unfold s3. destruct (lslice _ _ _); cbn;
      [rewrite lookup_delete_ne by done | rewrite lookup_insert_ne by done];
      rewrite lookup_insert_ne by done; by rewrite lookup_insert_eq. }
  change (saved m K s0)
    with {| db := db s3; ttl := <[key := 30 * 24 * 60 * 60]> (ttl s3) |}.
  unfold save_message_to_redis.
  change (ChatMessage.get_redis_key m) with key.
  change (ChatMessage.dashboard_id m) with room.
  erewrite bind_run by (by apply get_redis_up).
  erewrite bind_run by reflexivity.
  unfold redis_hset. rewrite Henc.
  erewrite bind_run.
  2:{ rewrite redis_call_up by done. cbn [redis set_log].
      fold s0. by rewrite hset_wf. }
  fold s1.
  erewrite bind_run.
  2:{ rewrite redis_call_up by done. cbn [redis set_redis set_log].
      rewrite rpush_wf; [done|]. by apply wf_store_put. }
  fold s2.
  erewrite bind_run by reflexivity.
  erewrite bind_run.
  2:{ rewrite redis_call_up by done. cbn [redis set_redis set_log settings].
      fold K. unfold Redis.ltrim. unfold s2 at 1. cbn [db store_put].
      rewrite lookup_insert_eq. fold s2.
      instantiate (1 := set_redis s3 _). unfold s3.
      by destruct (lslice _ _ _). }
  rewrite redis_call_up by done. cbn [redis set_redis set_log].
  unfold Redis.expire. by rewrite H3.
Qed.

(** The two keys a save writes. *)
Lemma saved_other m K s k :
  k <> message_key (ChatMessage.dashboard_id m) (ChatMessage.id m) ->
  k <> "messages:" +:+ ChatMessage.dashboard_id m ->
  db (saved m K s) !! k = db s !! k /\ ttl (saved m K s) !! k = ttl s !! k.
Proof.
  intros H1 H2. unfold saved. cbv zeta. cbn [db ttl].
  rewrite lookup_insert_ne by done.
  destruct (lslice _ _ _); cbn.
  - rewrite !lookup_delete_ne by done. by rewrite !lookup_insert_ne by done.
  - by rewrite !lookup_insert_ne by done.
Qed.

Lemma saved_hash m K s :
  let key := message_key (ChatMessage.dashboard_id m) (ChatMessage.id m) in
  hash_at (saved m K s) key = hash_write (hash_at s key) (stored_fields m)
  /\ ttl (saved m K s) !! key = Some (30 * 24 * 60 * 60).
Proof.
  intros key.
  assert (Hkl : key <> "messages:" +:+ ChatMessage.dashboard_id m)
    by (by apply (kind_mismatch _ _ KHash KList)).
  unfold saved, hash_at. cbv zeta. cbn [db ttl]. fold key.
  rewrite lookup_insert_eq. split; [|done].
  destruct (lslice _ _ _); cbn.
  - rewrite lookup_delete_ne by done. rewrite lookup_insert_ne by done.
    by rewrite lookup_insert_eq.
  - rewrite !lookup_insert_ne by done. by rewrite lookup_insert_eq.
Qed.

Lemma saved_history m K s :
  history (saved m K s) (ChatMessage.dashboard_id m)
  = lslice (history s (ChatMessage.dashboard_id m) ++ [ChatMessage.id m]) (- K) (-1).
Proof.
  set (room := ChatMessage.dashboard_id m).
  set (key := message_key room (ChatMessage.id m)).
  assert (Hkl : key <> "messages:" +:+ room)
    by (by apply (kind_mismatch _ _ KHash KList)).
  unfold saved. cbv zeta. fold room key.
  rewrite (history_put_other s key _ room) by done.
  unfold history at 1. cbn [db].
  destruct (lslice _ _ _) eqn:E; cbn.
  - by rewrite lookup_delete_eq.
  - by rewrite lookup_insert_eq.
Qed.

End SavedStore.

Section StoredFrame.
Context `{PyRuntime}.

Lemma broadcast_keeps_uuid dashboard_id message exclude w :
  exists w', broadcast_to_dashboard dashboard_id message exclude w = (Ret tt, w')
             /\ uuid_drawn w' = uuid_drawn w.
Proof.
  destruct (broadcast_run dashboard_id message exclude w) as (w' & E & P).
  exists w'. split; [done|]. unfold bcast_post in P.
  destruct (PyDict.get _ _); [|by subst].
  destruct P as [[S _] _]. by rewrite (sh_uuid _ _ S).
Qed.

Lemma kept_history w w' room :
  messages_kept w w' -> history (redis w') room = history (redis w) room.
Proof.
  intros K. unfold history.
  by destruct (K ("messages:" +:+ room) eq_refl) as [-> _].
Qed.

Lemma kept_message w w' room i :
  messages_kept w w' ->
  hash_at (redis w') (message_key room i) = hash_at (redis w) (message_key room i)
  /\ ttl (redis w') !! message_key room i = ttl (redis w) !! message_key room i.
Proof.
  intros K. unfold hash_at.
  by destruct (K (message_key room i) eq_refl) as [-> ->].
Qed.

End StoredFrame.

Section SaveFrame.
Context `{PyRuntime}.

Lemma saved_list_ttl m K s :
  1 <= K ->
  ttl (saved m K s) !! ("messages:" +:+ ChatMessage.dashboard_id m)
  = ttl s !! ("messages:" +:+ ChatMessage.dashboard_id m).
Proof.
  intros HK.
  set (room := ChatMessage.dashboard_id m).
  set (key := message_key room (ChatMessage.id m)).
  assert (Hkl : key <> "messages:" +:+ room)
    by (by apply (kind_mismatch _ _ KHash KList)).
  unfold saved. cbv zeta. fold room key. cbn [ttl].
  rewrite lookup_insert_ne by done.
  rewrite lslice_tail by done.
  destruct (lastn _ _) eqn:E; [|done].
  apply (f_equal length) in E. rewrite lastn_length, length_app in E.
  cbn in E. lia.
Qed.

(** X12.  [save_message_to_redis] writes two keys only: every key other
    than the hash of the message and the id list of its room keeps its
    value and its time to live.  The hash expires after thirty days; the
    id list gets no expiry (with a history limit of at least 1 its time to
    live is as before).  Nothing is sent and the registry is
    untouched. *)
Theorem save_message_writes_two_keys (m : ChatMessage.t) (w : world) :
  store_up w -> wf_store (redis w) ->
  let room := ChatMessage.dashboard_id m in
  let key := message_key room (ChatMessage.id m) in
  exists w',
    save_message_to_redis m w = (Ret tt, w')
    /\ (forall k, k <> key -> k <> "messages:" +:+ room ->
          db (redis w') !! k = db (redis w) !! k
          /\ ttl (redis w') !! k = ttl (redis w) !! k)
    /\ ttl (redis w') !! key = Some (30 * 24 * 60 * 60)
    /\ (1 <= message_history_limit (settings w) ->
        ttl (redis w') !! ("messages:" +:+ room)
        = ttl (redis w) !! ("messages:" +:+ room))
    /\ sent w' = sent w
    /\ active_connections w' = active_connections w
    /\ connection_info w' = connection_info w.
Proof.
  intros Hup Hwf room key. eexists. split; [by apply save_message_exact|].
  cbn [redis set_redis set_log sent active_connections connection_info].
  split; [|split; [|split]]; [| |by apply saved_list_ttl|done].
  - intros k H1 H2. by apply saved_other.
  - by destruct (saved_hash m (message_history_limit (settings w)) (redis w)).
Qed.
End SaveFrame.

Section Rest.
Context `{PyRuntime}.

Lemma safe_datetime_now : safe datetime_now.
Proof. by intros w. Qed.

Lemma safe_uuid4 : safe uuid4.
Proof. by intros w. Qed.

Lemma safe_or_default {A} (o : option A) (factory : M A) :
  safe factory -> safe (Pydantic.or_default o factory).
Proof. intros S. destruct o; [apply safe_ret|done]. Qed.

Lemma safe_convert_timestamp k b data : safe (convert_timestamp k b data).
Proof.
  unfold convert_timestamp.
  repeat first [ apply safe_ret | apply safe_raise
               | match goal with
                 | |- safe (match ?x with _ => _ end) => destruct x
                 end ].
Qed.

Ltac safe_steps :=
  repeat first [ apply safe_ret | apply safe_raise | apply safe_logger
               | apply safe_get_world | apply safe_redis_call
               | apply safe_get_redis | apply safe_datetime_now
               | apply safe_uuid4 | apply safe_redis_hset
               | apply safe_convert_timestamp
               | apply safe_or_default
               | apply safe_save_message | apply safe_broadcast_message
               | apply safe_broadcast | apply safe_cls
               | apply safe_bind; [|intros ?]
               | apply safe_try; [|intros ?]
               | match goal with
                 | |- safe (match ?x with _ => _ end) => destruct x
                 end ].

Lemma safe_ChatMessage_from_dict data : safe (ChatMessage.from_dict data).
Proof. unfold ChatMessage.from_dict. safe_steps. Qed.

Lemma safe_ChatRoom_cls data : safe (ChatRoom.cls data).
Proof. unfold ChatRoom.cls. safe_steps. Qed.

Lemma safe_ChatRoom_from_dict data : safe (ChatRoom.from_dict data).
Proof. unfold ChatRoom.from_dict. safe_steps. apply safe_ChatRoom_cls. Qed.

Lemma safe_ConnectedUser_cls data : safe (ConnectedUser.cls data).
Proof. unfold ConnectedUser.cls. safe_steps. Qed.

Lemma safe_ConnectedUser_from_dict data : safe (ConnectedUser.from_dict data).
Proof. unfold ConnectedUser.from_dict. safe_steps. apply safe_ConnectedUser_cls. Qed.

Lemma safe_redis_hgetall key : safe (redis_hgetall key).
Proof. unfold redis_hgetall. safe_steps. Qed.

Lemma safe_load_messages room ids acc : safe (load_messages room ids acc).
Proof.
  revert acc. induction ids as [|i ids IH]; intros acc; cbn [load_messages].
  - apply safe_ret.
  - apply safe_bind; [apply safe_redis_hgetall|intros d].
    apply safe_bind; [|intros ?; apply IH].
    destruct (truthy _); [|apply safe_ret].
    apply safe_try; [|intros e; safe_steps].
    apply safe_bind; [apply safe_ChatMessage_from_dict|intros ?; apply safe_ret].
Qed.

Lemma safe_load_users room ids acc : safe (load_users room ids acc).
Proof.
  revert acc. induction ids as [|i ids IH]; intros acc; cbn [load_users].
  - apply safe_ret.
  - apply safe_bind; [apply safe_redis_hgetall|intros d].
    apply safe_bind; [|intros ?; apply IH].
    destruct (truthy _); [|apply safe_ret].
    apply safe_try; [|intros e; safe_steps].
    apply safe_bind; [apply safe_ConnectedUser_from_dict|intros ?; apply safe_ret].
Qed.

Lemma safe_get_messages_from_redis room limit skip :
  safe (get_messages_from_redis room limit skip).
Proof.
  unfold get_messages_from_redis. safe_steps. apply safe_load_messages.
Qed.

Lemma safe_get_connected_users_from_redis room :
  safe (get_connected_users_from_redis room).
Proof.
  unfold get_connected_users_from_redis. safe_steps. apply safe_load_users.
Qed.

Lemma safe_delete_messages room ids n : safe (delete_messages room ids n).
Proof.
  revert n. induction ids as [|i ids IH]; intros n; cbn [delete_messages].
  - apply safe_ret.
  - apply safe_bind; [apply safe_redis_call|intros ?; apply IH].
Qed.

(** A body that cannot get stuck, under [except Exception] with a handler
    that logs and raises [HTTPException(500)]. *)
Lemma guarded_500 {A} (body : M A) (note : string) :
  safe body ->
  answers_or_500
    (try_except body (fun e => logger ERROR note ;; raise (HTTPException 500))).
Proof.
  intros S w. unfold try_except. specialize (S w).
  destruct (body w) as [[a|e|] w1]; cbn in *.
  - left. by exists a.
  - right. reflexivity.
  - done.
Qed.

(** X13.  The REST endpoints [get_messages], [send_message],
    [get_room_info], [get_connected_users] and [clear_all_messages] either
    answer or fail with [HTTPException(500)]: no other exception leaves
    them. *)
Theorem rest_endpoints_answer_or_fail_with_500
    (dashboard_id user_id username content message_type : string)
    (limit skip : Z) :
  answers_or_500 (get_messages dashboard_id limit skip)
  /\ answers_or_500 (send_message dashboard_id user_id username content message_type)
  /\ answers_or_500 (get_room_info dashboard_id)
  /\ answers_or_500 (get_connected_users_endpoint dashboard_id)
  /\ answers_or_500 (clear_all_messages dashboard_id).
Proof.
  repeat split.
  - apply guarded_500. apply safe_bind; [|intros ?; apply safe_ret].
    apply safe_get_messages_from_redis.
  - apply guarded_500. safe_steps.
  - apply guarded_500. safe_steps;
      first [ apply safe_ChatRoom_cls | apply safe_ChatRoom_from_dict
            | apply safe_redis_hgetall
            | apply safe_get_connected_users_from_redis
            | apply safe_load_users ].
  - apply guarded_500. apply safe_bind; [|intros ?; apply safe_ret].
    apply safe_get_connected_users_from_redis.
  - apply guarded_500. safe_steps. apply safe_delete_messages.
Qed.


Lemma fanned_out_from conns message w w1 w' :
  sent w1 = sent w -> closed w1 = closed w -> now w1 = now w ->
  fanned_out conns message w1 w' -> fanned_out conns message w w'.
Proof.
  intros Es Ec En (l & E & F). exists l. rewrite <- Es, <- Ec, <- En. done.
Qed.


End Rest.

Section Reads.
Context `{PyRuntime}.

Lemma reads_only_refl w : reads_only w w.
Proof. split; [done|apply silent_refl]. Qed.

Lemma reads_only_trans w1 w2 w3 :
  reads_only w1 w2 -> reads_only w2 w3 -> reads_only w1 w3.
Proof.
  intros [A1 A2] [B1 B2]. split; [congruence|by eapply silent_trans].
Qed.

Lemma ro_bind {A B} (m : M A) (f : A -> M B) :
  always reads_only m -> (forall a, always reads_only (f a)) ->
  always reads_only (m ≫= f).
Proof. apply always_bind, reads_only_trans. Qed.

Lemma ro_try {A} (body : M A) handler :
  always reads_only body -> (forall e, always reads_only (handler e)) ->
  always reads_only (try_except body handler).
Proof. apply always_try, reads_only_trans. Qed.

Lemma ro_ret {A} (a : A) : always reads_only (mret a : M A).
Proof. intros w. apply reads_only_refl. Qed.

Lemma ro_raise {A} e : always reads_only (raise e : M A).
Proof. intros w. apply reads_only_refl. Qed.

Lemma ro_logger l msg : always reads_only (logger l msg).
Proof. by intros w. Qed.

Lemma ro_get_world : always reads_only get_world.
Proof. by intros w. Qed.

Lemma ro_datetime_now : always reads_only datetime_now.
Proof. by intros w. Qed.

Lemma ro_uuid4 : always reads_only uuid4.
Proof. by intros w. Qed.

Lemma ro_modify_client b : always reads_only (modify (set_client b)).
Proof. by intros w. Qed.

(** A Redis command that only reads. *)
Lemma ro_redis_call {A} (cmd : store -> rresult A) :
  (forall s a s', cmd s = inr (a, s') -> s' = s) ->
  always reads_only (redis_call cmd).
Proof.
  intros Hc w. unfold redis_call.
  destruct (redis_faults w) as [|[] fs]; cbn; [|done|];
    (destruct (cmd (redis w)) as [e|[a s']] eqn:E; cbn; [done|]);
    by rewrite (Hc _ _ _ E).
Qed.

Lemma ro_ping : always reads_only (redis_call Redis.ping).
Proof. apply ro_redis_call. by intros s a s' [= _ <-]. Qed.

Lemma ro_hgetall key : always reads_only (redis_call (Redis.hgetall key)).
Proof.
  apply ro_redis_call. intros s a s'. unfold Redis.hgetall.
  destruct (db s !! key) as [[]|]; congruence.
Qed.

Lemma ro_lrange key a b : always reads_only (redis_call (Redis.lrange key a b)).
Proof.
  apply ro_redis_call. intros s x s'. unfold Redis.lrange.
  destruct (db s !! key) as [[]|]; congruence.
Qed.

Lemma ro_smembers key : always reads_only (redis_call (Redis.smembers key)).
Proof.
  apply ro_redis_call. intros s x s'. unfold Redis.smembers.
  destruct (db s !! key) as [[]|]; congruence.
Qed.

Lemma ro_convert_timestamp k b data : always reads_only (convert_timestamp k b data).
Proof.
  unfold convert_timestamp.
  repeat first [ apply ro_ret | apply ro_raise
               | match goal with
                 | |- always _ (match ?x with _ => _ end) => destruct x
                 end ].
Qed.

Lemma ro_or_default {A} (o : option A) (factory : M A) :
  always reads_only factory -> always reads_only (Pydantic.or_default o factory).
Proof. intros S. destruct o; [apply ro_ret|done]. Qed.

Ltac ro_steps :=
  repeat first [ apply ro_ret | apply ro_raise | apply ro_logger
               | apply ro_get_world | apply ro_datetime_now | apply ro_uuid4
               | apply ro_modify_client | apply ro_ping | apply ro_hgetall
               | apply ro_lrange | apply ro_smembers
               | apply ro_convert_timestamp | apply ro_or_default
               | apply ro_bind; [|intros ?]
               | apply ro_try; [|intros ?]
               | match goal with
                 | |- always _ (match ?x with _ => _ end) => destruct x
                 end ].

Lemma ro_get_redis : always reads_only get_redis.
Proof. unfold get_redis, connect_to_redis. ro_steps. Qed.

Lemma ro_ChatMessage_cls data : always reads_only (ChatMessage.cls data).
Proof. unfold ChatMessage.cls. ro_steps. Qed.

Lemma ro_ConnectedUser_cls data : always reads_only (ConnectedUser.cls data).
Proof. unfold ConnectedUser.cls. ro_steps. Qed.

Lemma ro_load_messages room ids acc : always reads_only (load_messages room ids acc).
Proof.
  revert acc. induction ids as [|i ids IH]; intros acc; cbn [load_messages].
  - apply ro_ret.
  - apply ro_bind; [unfold redis_hgetall; ro_steps|intros d].
    apply ro_bind; [|intros ?; apply IH].
    destruct (truthy _); [|apply ro_ret].
    apply ro_try; [|intros e; ro_steps].
    apply ro_bind; [|intros ?; apply ro_ret].
    unfold ChatMessage.from_dict. ro_steps. apply ro_ChatMessage_cls.
Qed.

Lemma ro_load_users room ids acc : always reads_only (load_users room ids acc).
Proof.
  revert acc. induction ids as [|i ids IH]; intros acc; cbn [load_users].
  - apply ro_ret.
  - apply ro_bind; [unfold redis_hgetall; ro_steps|intros d].
    apply ro_bind; [|intros ?; apply IH].
    destruct (truthy _); [|apply ro_ret].
    apply ro_try; [|intros e; ro_steps].
    apply ro_bind; [|intros ?; apply ro_ret].
    unfold ConnectedUser.from_dict. ro_steps. apply ro_ConnectedUser_cls.
Qed.

Lemma ro_get_messages_from_redis room limit skip :
  always reads_only (get_messages_from_redis room limit skip).
Proof.
  unfold get_messages_from_redis.
  apply ro_bind; [apply ro_get_redis|intros _].
  apply ro_bind; [apply ro_lrange|intros ids]. apply ro_load_messages.
Qed.

Lemma ro_get_connected_users_from_redis room :
  always reads_only (get_connected_users_from_redis room).
Proof.
  unfold get_connected_users_from_redis.
  apply ro_bind; [apply ro_get_redis|intros _].
  apply ro_bind; [apply ro_smembers|intros ids]. apply ro_load_users.
Qed.

(** X16.  The read endpoints [get_messages] and [get_connected_users]
    only read: however they end, the store, the registry, the transports
    and the frames sent are as before. *)
Theorem read_endpoints_only_read (dashboard_id : string) (limit skip : Z) :
  always reads_only (get_messages dashboard_id limit skip)
  /\ always reads_only (get_connected_users_endpoint dashboard_id).
Proof.
  split.
  - unfold get_messages. apply ro_try; [|intros e; ro_steps].
    apply ro_bind; [apply ro_get_messages_from_redis|intros ?; apply ro_ret].
  - unfold get_connected_users_endpoint. apply ro_try; [|intros e; ro_steps].
    apply ro_bind; [apply ro_get_connected_users_from_redis|intros ?; apply ro_ret].
Qed.

End Reads.

Lemma lslice_head_to_tail (l : list string) (limit : Z) :
  limit <= 0 ->
  lslice l 0 (0 + limit - 1) = take (length l - Z.to_nat (- limit)) l.
Proof.
  intros Hl. unfold lslice. cbn zeta.
  set (n := Z.of_nat (length l)).
  assert (Hn : n = Z.of_nat (length l)) by done. clearbody n.
  zcases.
  - replace (length l - Z.to_nat (- limit))%nat with 0%nat
      by (apply Nat2Z.inj; lia).
    by rewrite take_0.
  - rewrite drop_0. f_equal. apply Nat2Z.inj. lia.
Qed.

Section Limits.
Context `{PyRuntime}.

(** X17.  [get_messages] with [skip = 0] and a limit that is zero or
    negative (the query parameter has an upper bound only) reads from the
    head of the id list up to the position the negative index
    [limit - 1] designates: the whole history for [limit = 0], all but
    the newest [- limit] ids otherwise. *)
Theorem nonpositive_limit_reads_up_to_the_tail (room : string) (limit : Z) (w : world) :
  store_up w -> wf_store (redis w) -> limit <= 0 ->
  let ids := history (redis w) room in
  let window := take (length ids - Z.to_nat (- limit)) ids in
  get_messages room limit 0 w
  = (Ret (message_response <$> (resolve_messages room window w).1),
     (resolve_messages room window w).2).
Proof.
  intros Hup Hwf Hl ids window. unfold get_messages. apply try_except_ret.
  erewrite bind_run; [reflexivity|].
  unfold get_messages_from_redis.
  erewrite bind_run by (by apply get_redis_up).
  erewrite bind_run.
  2:{ rewrite redis_call_up by done. rewrite lrange_wf by done.
      by rewrite set_redis_same. }
  rewrite lslice_head_to_tail by done. by rewrite load_messages_run.
Qed.
End Limits.

Section Rooms.
Context `{PyRuntime}.

Lemma key_kind_room room : key_kind ("room:" +:+ room) = Some KHash.
Proof. reflexivity. Qed.

Lemma room_key_not_user room r u : "room:" +:+ room <> user_key r u.
Proof. done. Qed.

Lemma room_key_not_members room r : "room:" +:+ room <> "connected_users:" +:+ r.
Proof. done. Qed.

(** What pydantic builds from the hash of a room. *)
Lemma ChatRoom_from_hash h w i d n c t b a mu k :
  h !! "id" = Some i -> h !! "dashboard_id" = Some d -> h !! "name" = Some n ->
  h !! "created_at" = Some c -> pydantic_datetime_of_str c = Some t ->
  h !! "created_by" = Some b -> h !! "is_active" = Some a ->
  h !! "max_users" = Some mu -> pydantic_int_of_str mu = Some k ->
  ChatRoom.from_dict (hash_to_dict h) w
  = (Ret (ChatRoom.mk i d n (h !! "description") t b (String.eqb a "1") k), w).
Proof.
  intros Hi Hd Hn Hc Ht Hb Ha Hmu Hk. unfold ChatRoom.from_dict.
  erewrite bind_run by apply convert_timestamp_hash.
  unfold convert_flag. rewrite get_hash_to_dict, Ha. cbn [fmap option_fmap option_map].
  unfold ChatRoom.cls.
  unfold Pydantic.required, Pydantic.str_field, Pydantic.optional_str_field,
    Pydantic.datetime_field, Pydantic.bool_field, Pydantic.int_field.
  rewrite get_set, !get_set_other by done.
  rewrite !get_hash_to_dict, Hi, Hd, Hn, Hc, Hb, Hmu. cbn.
  rewrite Ht, Hk. cbn.
  by destruct (h !! "description").
Qed.

Lemma present_same room w w' :
  redis w' = redis w -> now w' = now w -> present room w' = present room w.
Proof. intros E N. unfold present, resolve_user. by rewrite E, N. Qed.

Lemma present_put_room room key v w w' :
  redis w' = store_put ("room:" +:+ key) v (redis w) -> now w' = now w ->
  present room w' = present room w.
Proof.
  intros E N. unfold present.
  rewrite E, members_put_other by apply room_key_not_members.
  apply list_omap_ext.
  apply Forall2_same_length_lookup_2; [done|].
  intros i x y Hx Hy. assert (x = y) as <- by congruence.
  unfold resolve_user. rewrite E, N.
  by rewrite hash_at_put_other by apply room_key_not_user.
Qed.

(** The room a first call creates, and the state it leaves. *)
Lemma get_room_info_creates dashboard_id w :
  store_up w -> wf_store (redis w) ->
  hash_at (redis w) ("room:" +:+ dashboard_id) = ∅ ->
  let room := default_room dashboard_id w in
  exists w',
    get_room_info dashboard_id w
    = (Ret (room_response room (present dashboard_id w)), w')
    /\ redis w'
       = store_put ("room:" +:+ dashboard_id)
           (RHash (hash_write ∅
              [ ("id", ChatRoom.id room);
                ("dashboard_id", dashboard_id);
                ("name", "Dashboard " +:+ dashboard_id);
                ("created_at", float_repr (dt_timestamp (now w)));
                ("created_by", dashboard_id);
                ("is_active", "1");
                ("max_users", int_repr 100) ]))
           (redis w)
    /\ only_store (set_uuid_drawn (S (uuid_drawn w)) w) w'.
Proof.
  intros Hup Hwf He room.
  set (key := "room:" +:+ dashboard_id) in *.
  set (w1 := set_uuid_drawn (S (uuid_drawn w)) w).
  set (fields := [ ("id", ChatRoom.id room);
                   ("dashboard_id", dashboard_id);
                   ("name", "Dashboard " +:+ dashboard_id);
                   ("created_at", float_repr (dt_timestamp (now w)));
                   ("created_by", dashboard_id);
                   ("is_active", "1");
                   ("max_users", int_repr 100) ]).
  set (w2 := set_redis (store_put key (RHash (hash_write ∅ fields)) (redis w)) w1).
  assert (Hup2 : store_up w2) by done.
  assert (Hwf2 : wf_store (redis w2)) by (by apply wf_store_put).
  destruct (get_connected_users_run dashboard_id w2 Hup2 Hwf2) as (w3 & E3 & O3 & R3).
  exists w3. split; [|split; [done|]].
  - unfold get_room_info. apply try_except_ret.
    erewrite bind_run by (by apply get_redis_up).
    erewrite bind_run by (by apply redis_hgetall_up).
    fold key. rewrite He, hash_to_dict_truthy, bool_decide_false by (by intros ?).
    cbn [negb].
    erewrite bind_run.
    2:{ erewrite bind_run by reflexivity.
        erewrite bind_run; [reflexivity|].
        unfold redis_hset. cbn [ChatRoom.to_dict ChatRoom.description encode_mapping
                                  redis_encode].
        cbn. rewrite redis_call_up by done. cbn [redis set_uuid_drawn].
        rewrite hset_wf by done. rewrite He. reflexivity. }
    fold w1 fields w2.
    erewrite bind_run by exact E3.
    fold (present dashboard_id w2).
    by rewrite (present_put_room dashboard_id dashboard_id
                  (RHash (hash_write ∅ fields)) w w2).
  - eapply only_store_trans; [|exact O3]. by split.
Qed.

(** X18.  [get_room_info] for a dashboard without a room hash creates
    the default room: it answers with a room named after the dashboard,
    created by the dashboard id, with a fresh UUID as id, and the presence
    records of the dashboard; it writes the hash [room:{dashboard}]
    without setting an expiry. *)
Theorem unknown_room_is_created_for_good (dashboard_id : string) (w : world) :
  store_up w -> wf_store (redis w) ->
  hash_at (redis w) ("room:" +:+ dashboard_id) = ∅ ->
  exists w',
    get_room_info dashboard_id w
    = (Ret (room_response (default_room dashboard_id w) (present dashboard_id w)),
       w')
    /\ hash_at (redis w') ("room:" +:+ dashboard_id) !! "id"
       = Some (uuid4_str (uuid_drawn w))
    /\ hash_at (redis w') ("room:" +:+ dashboard_id) !! "is_active" = Some "1"
    /\ ttl (redis w') !! ("room:" +:+ dashboard_id)
       = ttl (redis w) !! ("room:" +:+ dashboard_id)
    /\ uuid_drawn w' = S (uuid_drawn w).
Proof.
  intros Hup Hwf He.
  destruct (get_room_info_creates dashboard_id w Hup Hwf He) as (w' & E & R & O).
  exists w'. split; [done|]. rewrite R, hash_at_put. cbn [store_put ttl].
  split; [by apply hash_write_lookup; [apply (bool_decide_unpack _)|set_solver]|].
  split; [by apply hash_write_lookup; [apply (bool_decide_unpack _)|set_solver]|].
  split; [done|]. by rewrite (os_uuid _ _ O).
Qed.

(** X19.  A room is created once: when the creation time written by
    the first [get_room_info] and the default [max_users] read back from
    their Redis strings, a second call answers with the same id, name,
    creator and users, the room being active, and neither writes to the
    store nor draws a UUID. *)
Theorem room_is_created_once (dashboard_id : string) (w : world) :
  store_up w -> wf_store (redis w) ->
  hash_at (redis w) ("room:" +:+ dashboard_id) = ∅ ->
  reads_back (now w) ->
  is_Some (pydantic_int_of_str (int_repr 100)) ->
  exists r1 w1 r2 w2,
    get_room_info dashboard_id w = (Ret r1, w1)
    /\ get_room_info dashboard_id w1 = (Ret r2, w2)
    /\ RoomResponse.id r2 = RoomResponse.id r1
    /\ RoomResponse.name r2 = RoomResponse.name r1
    /\ RoomResponse.created_by r2 = RoomResponse.created_by r1
    /\ RoomResponse.is_active r2 = true
    /\ RoomResponse.connected_users r2 = RoomResponse.connected_users r1
    /\ redis w2 = redis w1
    /\ uuid_drawn w2 = uuid_drawn w1.
Proof.
  intros Hup Hwf He [t Ht] [k Hk].
  destruct (get_room_info_creates dashboard_id w Hup Hwf He) as (w1 & E1 & R1 & O1).
  set (key := "room:" +:+ dashboard_id) in *.
  set (fields := [ ("id", _); _; _; _; _; _; _ ]) in R1.
  set (h := hash_write ∅ fields) in R1.
  assert (Hup1 : store_up w1) by (by eapply only_store_up).
  assert (Hwf1 : wf_store (redis w1)) by (rewrite R1; by apply wf_store_put).
  assert (Hh : hash_at (redis w1) key = h) by (by rewrite R1, hash_at_put).
  assert (L : forall f v, (f, v) ∈ fields -> h !! f = Some v).
  { intros f v Hin. apply hash_write_lookup; [|done].
    by apply (bool_decide_unpack _). }
  assert (Hne : h <> ∅).
  { intros E.
    assert (Hid : h !! "id" = Some (ChatRoom.id (default_room dashboard_id w)))
      by (apply L; set_solver).
    by rewrite E in Hid. }
  destruct (get_connected_users_run dashboard_id w1 Hup1 Hwf1) as (w2 & E2 & O2 & R2).
  eexists _, w1, _, w2. split; [exact E1|]. split.
  - unfold get_room_info. apply try_except_ret.
    erewrite bind_run by (by apply get_redis_up).
    erewrite bind_run by (by apply redis_hgetall_up).
    fold key. rewrite Hh, hash_to_dict_truthy, bool_decide_true by done.
    cbn [negb].
    erewrite bind_run.
    2:{ apply (ChatRoom_from_hash h w1 (uuid4_str (uuid_drawn w)) dashboard_id
                 ("Dashboard " +:+ dashboard_id)
                 (float_repr (dt_timestamp (now w))) t dashboard_id "1"
                 (int_repr 100) k);
          try (apply L; set_solver); done. }
    erewrite bind_run by exact E2. reflexivity.
  - cbn. repeat split; try done.
    + fold (present dashboard_id w1). f_equal.
      apply (present_put_room dashboard_id dashboard_id (RHash h)); [done|].
      by rewrite (os_now _ _ O1).
    + by rewrite (os_uuid _ _ O2).
Qed.

End Rooms.

Section Probes.
Context `{PyRuntime}.

(** A body under [except Exception] with a handler that logs and returns
    a value: the call returns. *)
Lemma try_returns {A} (body : M A) (handler : exn -> M A) w :
  (body w).1 <> Stuck ->
  (forall e w1, exists a w2, handler e w1 = (Ret a, w2)) ->
  exists a w', try_except body handler w = (Ret a, w').
Proof.
  intros S Hh. unfold try_except.
  destruct (body w) as [[a|e|] w1]; cbn in *; [by eauto|apply Hh|done].
Qed.

Lemma silent_test_send_message dashboard_id :
  steps silent (test_send_message dashboard_id).
Proof.
  unfold test_send_message.
  auto 20 using silent_ChatMessage_cls, silent_save_message with silent.
Qed.

(** X20.  [test_send_message] always returns, never raising, and sends
    nothing: the registry and the transports are untouched.  While Redis
    answers, it reports success with the id of a message of user
    "test-user" that it has saved into the history of the dashboard. *)
Theorem test_message_is_saved_but_not_sent (dashboard_id : string) (w : world) :
  let m := new_chat_message dashboard_id "test-user" "TestUser" "Test message"
             TEXT None w in
  exists r w',
    test_send_message dashboard_id w = (Ret r, w')
    /\ silent w w'
    /\ (store_up w -> wf_store (redis w) ->
        r = TestSuccess (ChatMessage.id m)
        /\ redis w' = saved m (message_history_limit (settings w)) (redis w)).
Proof.
  intros m.
  destruct (try_returns
              (chat_message ← ChatMessage.cls
                 [ ("dashboard_id", PStr dashboard_id);
                   ("user_id", PStr "test-user");
                   ("username", PStr "TestUser");
                   ("content", PStr "Test message");
                   ("message_type", PMessageType TEXT);
                   ("reply_to", PNone) ];
               save_message_to_redis chat_message ;;
               mret (TestSuccess (ChatMessage.id chat_message)))
              (fun e => logger ERROR "Test error: " ;; mret (TestError e)) w)
    as (r & w' & E).
  { apply safe_bind; [apply safe_cls|intros c].
    apply safe_bind; [apply safe_save_message|intros _]. apply safe_ret. }
  { intros e w1. by eexists _, _. }
  fold (test_send_message dashboard_id) in E.
  exists r, w'. split; [done|]. split.
  - pose proof (silent_test_send_message dashboard_id w) as [_ S].
    by rewrite E in S.
  - intros Hup Hwf. revert E. unfold test_send_message.
    erewrite try_except_ret.
    2:{ erewrite bind_run
          by (by apply (cls_new_message _ _ _ _ TEXT None)).
        fold m.
        erewrite bind_run by (by apply save_message_exact). reflexivity. }
    by intros [= <- <-].
Qed.

Lemma silent_health_check : steps silent health_check.
Proof.
  unfold health_check. auto 20 using silent_get_redis with silent.
Qed.

(** X21.  [health_check] always returns, never raising, and changes
    neither the store nor the registry.  While Redis answers the report
    is healthy, with the time and the number of connections over all
    rooms; when the ping fails it is unhealthy, with the error. *)
Theorem health_check_always_answers (w : world) :
  exists r w',
    health_check w = (Ret r, w')
    /\ silent w w' /\ redis w' = redis w
    /\ (store_up w ->
        r = Healthy (dt_isoformat (now w)) (count_connections (active_connections w)))
    /\ (redis_client w = true ->
        forall fs, redis_faults w = true :: fs ->
                   r = Unhealthy (dt_isoformat (now w)) ConnectionError).
Proof.
  destruct (try_returns
              (get_redis ;;
               redis_call Redis.ping ;;
               t ← datetime_now;
               w ← get_world;
               mret (Healthy (dt_isoformat t)
                       (count_connections (active_connections w))))
              (fun e => logger ERROR "Health check failed: " ;;
                        t ← datetime_now;
                        mret (Unhealthy (dt_isoformat t) e)) w)
    as (r & w' & E).
  { apply safe_bind; [apply safe_get_redis|intros _].
    apply safe_bind; [apply safe_redis_call|intros _].
    apply safe_bind; [apply safe_datetime_now|intros t].
    apply safe_bind; [apply safe_get_world|intros w0]. apply safe_ret. }
  { intros e w1. by eexists _, _. }
  fold health_check in E.
  exists r, w'. split; [done|]. split; [|split; [|split]].
  - pose proof (silent_health_check w) as [_ S]. by rewrite E in S.
  - assert (R : always reads_only health_check).
    { unfold health_check.
      apply ro_try.
      - apply ro_bind; [apply ro_get_redis|intros _].
        apply ro_bind; [apply ro_ping|intros _].
        apply ro_bind; [apply ro_datetime_now|intros t].
        apply ro_bind; [apply ro_get_world|intros w0]. apply ro_ret.
      - intros e. apply ro_bind; [apply ro_logger|intros _].
        apply ro_bind; [apply ro_datetime_now|intros t]. apply ro_ret. }
    specialize (R w). rewrite E in R. by destruct R.
  - intros Hup. revert E. unfold health_check.
    erewrite try_except_ret.
    2:{ erewrite bind_run by (by apply get_redis_up).
        erewrite bind_run.
        2:{ rewrite redis_call_up by done. cbn. by rewrite set_redis_same. }
        reflexivity. }
    by intros [= <- <-].
  - intros Hc fs Hf. revert E. unfold health_check.
    erewrite try_except_raise.
    2:{ erewrite bind_run by (by apply get_redis_connected).
        erewrite bind_raise; [reflexivity|].
        by apply redis_call_fault. }
    by intros [= <- <-].
Qed.

End Probes.

Lemma del_absent {K V} `{KeyEq K} (k : K) (d : list (K * V)) :
  PyDict.get k d = None -> PyDict.del k d = d.
Proof.
  induction d as [|[k0 v0] d IH]; cbn; [done|].
  destruct (key_eqb_spec k k0) as [->|Hne]; [done|]. intros E. by rewrite IH.
Qed.

Lemma del_set_new {K V} `{KeyEq K} (k : K) (v : V) d :
  PyDict.get k d = None -> PyDict.del k (PyDict.set k v d) = d.
Proof.
  induction d as [|[k0 v0] d IH]; cbn.
  - intros _. by destruct (key_eqb_spec k k).
  - destruct (key_eqb_spec k k0) as [->|Hne]; [done|]. intros E. cbn.
    destruct (key_eqb_spec k k0); [done|]. by rewrite IH.
Qed.

Lemma set_same {K V} `{KeyEq K} (k : K) (v : V) d :
  PyDict.get k d = Some v -> PyDict.set k v d = d.
Proof.
  induction d as [|[k0 v0] d IH]; cbn; [done|].
  destruct (key_eqb_spec k k0) as [->|Hne]; [by intros [= ->]|].
  intros E. by rewrite IH.
Qed.

Lemma always_of_steps (R : world -> world -> Prop) {A} (m : M A) :
  steps R m -> always R m.
Proof. intros S w. by destruct (S w). Qed.

Section Session.
Context `{PyRuntime}.

(** Leaving a room and joining it as a new user cancel out. *)
Lemma remove_connection_new dashboard_id user_id (websocket : ws) a :
  PyDict.get user_id (PyDict.get_default dashboard_id [] a) = None ->
  PyDict.get dashboard_id a <> Some [] ->
  remove_connection dashboard_id user_id
    (PyDict.set dashboard_id
       (PyDict.set user_id websocket (PyDict.get_default dashboard_id [] a)) a)
  = a.
Proof.
  intros Hu Hne. unfold remove_connection. rewrite get_set, del_set_new by done.
  unfold PyDict.get_default in *.
  destruct (PyDict.get dashboard_id a) as [conns|] eqn:Hg.
  - destruct conns as [|c conns]; [done|]. rewrite set_set. by apply set_same.
  - by apply del_set_new.
Qed.

Lemma broadcast_with_open disc dashboard_id message exclude w :
  room_open dashboard_id w ->
  broadcast_to_dashboard_with disc dashboard_id message exclude w
  = (Ret tt,
     set_sent (sent w ++ frames_to (recipients (room_connections dashboard_id w)
                                      exclude) message) w).
Proof.
  intros Ho. unfold broadcast_to_dashboard_with.
  erewrite bind_run by reflexivity.
  unfold room_open, room_connections, PyDict.get_default in *.
  destruct (PyDict.get dashboard_id (active_connections w)) as [conns|] eqn:Hg.
  - destruct (no_failures conns exclude (closed w) Ho) as [F D].
    erewrite bind_run by apply send_loop_run. rewrite F. cbn [app for_each].
    unfold after_fanout. rewrite F, D. cbn. rewrite app_nil_r. by destruct w.
  - cbn. rewrite app_nil_r. by destruct w.
Qed.

Lemma always_calm_silent dashboard_id {A} (m : M A) :
  steps silent m -> always (calm dashboard_id) m.
Proof. intros S. by apply always_of_steps, silent_calm. Qed.

Lemma always_calm_bind dashboard_id {A B} (m : M A) (f : A -> M B) :
  always (calm dashboard_id) m -> (forall a, always (calm dashboard_id) (f a)) ->
  always (calm dashboard_id) (m ≫= f).
Proof. apply always_bind, calm_trans. Qed.

(** The [try] block of [disconnect] keeps the registry of a room whose
    transports are all open, whatever Redis does. *)
Lemma always_calm_unregister disc dashboard_id user_id username :
  always (calm dashboard_id)
    (try_except
       (get_redis ;;
        redis_call (Redis.delete ("user:" +:+ dashboard_id +:+ ":" +:+ user_id)) ;;
        redis_call (Redis.srem ("connected_users:" +:+ dashboard_id) user_id) ;;
        logger INFO "User " ;;
        broadcast_user_left_with disc dashboard_id username)
       (fun e => logger ERROR "Error updating disconnected user: ")).
Proof.
  apply always_try; [apply calm_trans| |intros e; apply always_calm_silent, silent_logger].
  apply always_calm_bind; [apply always_calm_silent, silent_get_redis|intros _].
  apply always_calm_bind; [apply always_calm_silent, silent_redis_call|intros _].
  apply always_calm_bind; [apply always_calm_silent, silent_redis_call|intros _].
  apply always_calm_bind; [apply always_calm_silent, silent_logger|intros _].
  unfold broadcast_user_left_with.
  apply always_calm_bind; [apply always_calm_silent, silent_datetime_now|intros t].
  intros w Ho. rewrite broadcast_with_open by done. by split.
Qed.

(** X22.  [connect] followed by [disconnect] of the same handle
    restores the registry, whatever Redis does: for a handle and a user
    id not registered before, in a room whose transports are all open,
    [active_connections] and [connection_info] are afterwards what they
    were. *)
Theorem connect_then_disconnect_restores_registry
    websocket dashboard_id user_id username w :
  websocket ∉ closed w -> room_open dashboard_id w ->
  PyDict.get websocket (connection_info w) = None ->
  PyDict.get user_id (room_connections dashboard_id w) = None ->
  PyDict.get dashboard_id (active_connections w) <> Some [] ->
  exists w1 w2,
    connect websocket dashboard_id user_id username w = (Ret tt, w1)
    /\ disconnect websocket w1 = (Ret tt, w2)
    /\ active_connections w2 = active_connections w
    /\ connection_info w2 = connection_info w.
Proof.
  intros Hh Ho Hi Hu Hne.
  destruct (connect_run websocket dashboard_id user_id username w Hh Ho)
    as (w1 & E1 & S1).
  destruct (disconnect_fuel_enough websocket w1) as (w2 & E2 & _).
  exists w1, w2. split; [done|]. split; [done|].
  set (d := mkConn dashboard_id user_id username).
  assert (Hi1 : PyDict.get websocket (connection_info w1) = Some d).
  { rewrite (sr_info _ _ S1). unfold registered. cbn. by rewrite get_set. }
  revert E2. unfold disconnect. cbn [disconnect_rec].
  erewrite bind_run by reflexivity. rewrite Hi1. unfold unregister_with.
  erewrite bind_run by reflexivity. erewrite bind_run by reflexivity.
  fold (unregistered websocket d w1).
  set (w1' := unregistered websocket d w1).
  assert (Ha : active_connections w1' = active_connections w).
  { unfold w1', unregistered. cbn. rewrite (sr_active _ _ S1).
    unfold registered. cbn. by apply remove_connection_new. }
  assert (Hinfo : connection_info w1' = connection_info w).
  { unfold w1', unregistered. cbn. rewrite (sr_info _ _ S1).
    unfold registered. cbn. by apply del_set_new. }
  assert (Ho1 : room_open dashboard_id w1').
  { intros u h. unfold room_connections. rewrite Ha.
    replace (closed w1') with (closed w); [apply Ho|].
    unfold w1', unregistered. cbn. by rewrite (sr_closed _ _ S1). }
  intros E2.
  pose proof (always_calm_unregister (disconnect_rec (length (connection_info w1)))
                dashboard_id user_id username) as C.
  specialize (C w1').
  unfold always in C.
  match type of C with
  | calm _ _ (?t).2 => assert (X : t = (Ret tt, w2)) by exact E2
  end.
  rewrite X in C. cbn [snd] in C. specialize (C Ho1).
  by rewrite (sr_active _ _ C), (sr_info _ _ C).
Qed.

End Session.

Section Endpoint.
Context `{PyRuntime}.

(** X23.  When Redis is down as a client connects (the write of
    [connect] and the write of [save_connected_user_to_redis] both fail),
    [websocket_endpoint] closes the transport and returns without reading
    a frame, but the handle stays registered: [disconnect] is not called
    on this path. *)
Theorem endpoint_leaves_connection_registered_when_redis_is_down
    websocket dashboard_id user_id username events fs w :
  dashboard_id <> "" -> user_id <> "" ->
  websocket ∉ closed w ->
  redis_client w = true -> redis_faults w = true :: true :: fs ->
  exists w',
    websocket_endpoint websocket dashboard_id user_id username events w
    = (Ret Terminated, w')
    /\ websocket ∈ closed w'
    /\ PyDict.get websocket (connection_info w')
       = Some (mkConn dashboard_id user_id username)
    /\ (user_id, websocket) ∈ room_connections dashboard_id w'
    /\ sent w' = sent w.
Proof.
  intros Hd Hu Hh Hc Hf.
  set (w0 := registered websocket dashboard_id user_id username w).
  set (w1 := set_log (log_records w ++ [ (INFO, "Saving user data to Redis: ");
                                        (ERROR, "Error saving connected user: ") ])
               (set_faults (true :: fs) w0)).
  set (w2 := set_faults fs w1).
  set (w3 := set_log (log_records w2 ++ [(ERROR, "WebSocket connection error: ")]) w2).
  exists (set_closed ({[websocket]} ∪ closed w3) w3). split.
  - unfold websocket_endpoint.
    apply String.eqb_neq in Hd, Hu. rewrite Hd, Hu. cbn [orb].
    erewrite try_except_raise.
    2:{ erewrite bind_run by (by apply connect_fault_run).
        fold w0 w1.
        erewrite bind_run by reflexivity.
        erewrite bind_raise; [reflexivity|].
        unfold save_connected_user_to_redis.
        erewrite bind_run by (by apply get_redis_connected).
        cbv zeta. erewrite bind_raise; [reflexivity|].
        unfold redis_hset.
        match goal with
        | |- context [encode_mapping (ConnectedUser.to_dict ?u)] =>
            destruct (encode_user_to_dict u) as [-> _]
        end.
        by apply redis_call_fault. }
    fold w2. erewrite bind_run by reflexivity. fold w3.
    erewrite bind_run; [reflexivity|].
    unfold ws_close. by rewrite decide_False by done.
  - cbn. split; [set_solver|]. rewrite get_set. split; [done|]. split; [|done].
    unfold room_connections, PyDict.get_default. cbn. rewrite get_set.
    apply elem_set_new.
Qed.

End Endpoint.

Lemma hash_write_lookup_None h mapping (k : string) :
  k ∉ mapping.*1 -> h !! k = None -> hash_write h mapping !! k = None.
Proof.
  revert h. induction mapping as [|[k0 v0] mapping IH]; intros h Hk Hh; cbn; [done|].
  cbn in Hk. apply not_elem_of_cons in Hk as [Hne Hk].
  apply IH; [done|]. cbn. by rewrite lookup_insert_ne.
Qed.

Section ReadBack.
Context `{PyRuntime}.

(** What pydantic builds from the hash of a message that was never
    edited. *)
Lemma ChatMessage_from_hash h w i d u n c mts mt ts t dl :
  h !! "id" = Some i -> h !! "dashboard_id" = Some d ->
  h !! "user_id" = Some u -> h !! "username" = Some n ->
  h !! "content" = Some c -> len c <= 1000 ->
  h !! "message_type" = Some mts -> MessageType_of (PStr mts) = Some mt ->
  h !! "timestamp" = Some ts -> pydantic_datetime_of_str ts = Some t ->
  h !! "edited_at" = None ->
  h !! "is_deleted" = Some dl ->
  ChatMessage.from_dict (hash_to_dict h) w
  = (Ret (ChatMessage.mk i d u n c mt t None (String.eqb dl "1") (h !! "reply_to")),
     w).
Proof.
  intros Hi Hd Hu Hn Hc Hlen Hmts Hmt Hts Ht Hea Hdl. unfold ChatMessage.from_dict.
  erewrite bind_run by apply convert_timestamp_hash.
  erewrite bind_run by apply convert_timestamp_hash.
  unfold convert_flag. rewrite get_hash_to_dict, Hdl. cbn [fmap option_fmap option_map].
  unfold ChatMessage.cls.
  unfold Pydantic.required, Pydantic.str_field, Pydantic.optional_str_field,
    Pydantic.datetime_field, Pydantic.optional_datetime_field,
    Pydantic.bool_field, Pydantic.message_type_field.
  rewrite get_set, !get_set_other by done.
  rewrite !get_hash_to_dict, Hi, Hd, Hu, Hn, Hc, Hmts, Hts, Hea.
  cbn [fmap option_fmap option_map mbind option_bind].
  rewrite Hmt. cbn [Pydantic.datetime_of]. rewrite Ht.
  cbn [mbind option_bind].
  replace (1000 <? len c) with false by (symmetry; apply Z.ltb_ge; lia).
  by destruct (h !! "reply_to").
Qed.

(** X24.  A saved message is read back: after [save_message_to_redis m]
    into a room whose history is below the limit, for a fresh id,
    [get_messages_from_redis] at the position of the new id returns the
    record of [m], with the timestamp that pydantic reads from the text
    Redis holds for it. *)
Theorem saved_message_is_read_back (m : ChatMessage.t) (t : datetime) (w : world) :
  let room := ChatMessage.dashboard_id m in
  let n := Z.of_nat (length (history (redis w) room)) in
  store_up w -> wf_store (redis w) ->
  hash_at (redis w) (message_key room (ChatMessage.id m)) = ∅ ->
  n < message_history_limit (settings w) ->
  len (ChatMessage.content m) <= 1000 ->
  ChatMessage.edited_at m = None ->
  pydantic_datetime_of_str (float_repr (dt_timestamp (ChatMessage.timestamp m)))
  = Some t ->
  exists w1,
    save_message_to_redis m w = (Ret tt, w1)
    /\ get_messages_from_redis room 1 n w1
       = (Ret [ ChatMessage.mk (ChatMessage.id m) room (ChatMessage.user_id m)
                  (ChatMessage.username m) (ChatMessage.content m)
                  (ChatMessage.message_type m) t None
                  (ChatMessage.is_deleted m) (ChatMessage.reply_to m) ],
          w1).
Proof.
  intros room n Hup Hwf Hfresh Hn Hlen Hea Ht.
  set (K := message_history_limit (settings w)) in *.
  set (key := message_key room (ChatMessage.id m)) in *.
  eexists. split; [by apply save_message_exact|].
  set (w1 := set_redis _ _).
  assert (Hup1 : store_up w1) by done.
  assert (HK : 1 <= K) by lia.
  assert (Hhist : history (redis w1) room = history (redis w) room ++ [ChatMessage.id m]).
  { unfold w1. cbn [redis set_redis set_log]. fold K.
    rewrite (saved_history m), lslice_tail by done.
    apply lastn_all. rewrite length_app. cbn. lia. }
  assert (Hhash : hash_at (redis w1) key = hash_write ∅ (stored_fields m)).
  { unfold w1. cbn [redis set_redis set_log]. fold K.
    rewrite <- Hfresh. exact (proj1 (saved_hash m K (redis w))). }
  assert (Hwf1 : wf_store (redis w1)).
  { destruct (save_message_run m w Hup Hwf HK) as (w' & E' & _ & W' & _).
    rewrite save_message_exact in E' by done. by injection E' as <-. }
  unfold get_messages_from_redis.
  erewrite bind_run by (by apply get_redis_up).
  erewrite bind_run.
  2:{ rewrite redis_call_up by done. rewrite lrange_wf by done.
      by rewrite set_redis_same. }
  rewrite lslice_window by lia. rewrite Hhist.
  replace (Z.to_nat n) with (length (history (redis w) room)) by lia.
  rewrite drop_app_length.
  change (take (Z.to_nat 1) [ChatMessage.id m]) with [ChatMessage.id m].
  cbn [load_messages].
  erewrite bind_run by (apply redis_hgetall_up; [done..|apply key_kind_message]).
  fold (message_key room (ChatMessage.id m)). fold key. rewrite Hhash.
  assert (Hne : hash_write ∅ (stored_fields m) <> ∅).
  { intros E.
    assert (L : hash_write ∅ (stored_fields m) !! "id" = Some (ChatMessage.id m)).
    { apply hash_write_lookup; [apply stored_fields_keys|].
      unfold stored_fields.
      destruct m as [i d u nm c mt ts [e|] dl [r|]]; cbn; set_solver. }
    by rewrite E in L. }
  rewrite hash_to_dict_truthy, bool_decide_true by done.
  erewrite bind_run; [reflexivity|].
  apply try_except_ret. erewrite bind_run; [reflexivity|].
  destruct m as [i d u nm c mt ts ea dl rt].
  cbn [ChatMessage.edited_at] in Hea. subst ea.
  cbn [ChatMessage.id ChatMessage.dashboard_id ChatMessage.user_id
       ChatMessage.username ChatMessage.content ChatMessage.message_type
       ChatMessage.timestamp ChatMessage.is_deleted ChatMessage.reply_to] in *.
  set (h := hash_write ∅ _).
  assert (L : forall f v,
             (f, v) ∈ stored_fields (ChatMessage.mk i d u nm c mt ts None dl rt) ->
             h !! f = Some v).
  { intros f v Hin. apply hash_write_lookup; [apply stored_fields_keys|done]. }
  assert (Hrt : h !! "reply_to" = rt).
  { destruct rt as [r|].
    - apply L. unfold stored_fields. cbn. set_solver.
    - apply hash_write_lookup_None; [|done]. unfold stored_fields. cbn.
      set_solver. }
  assert (Hdl : String.eqb (if dl then "1" else "0") "1" = dl) by (by destruct dl).
  rewrite (ChatMessage_from_hash h w1 i d u nm c (MessageType_value mt) mt
             (float_repr (dt_timestamp ts)) t (if dl then "1" else "0"));
    try (apply L; unfold stored_fields; destruct rt; cbn; set_solver);
    try done.
  - by rewrite Hrt, Hdl.
  - apply MessageType_of_value.
  - apply hash_write_lookup_None; [|done]. unfold stored_fields.
    destruct rt; cbn; set_solver.
Qed.

End ReadBack.

Section MoreSerialization.
Context `{PyRuntime}.

Lemma ConnectedUser_from_dict_to_dict (u : ConnectedUser.t) (w : world) :
  restored (ConnectedUser.connected_at u) ->
  restored (ConnectedUser.last_seen u) ->
  ConnectedUser.from_dict (ConnectedUser.to_dict u) w = (Ret u, w).
Proof.
  destruct u as [i d n st ca ls sid];
    cbn [ConnectedUser.connected_at ConnectedUser.last_seen].
  unfold restored. intros Hca Hls.
  unfold ConnectedUser.from_dict, ConnectedUser.to_dict, convert_timestamp.
  destruct sid; cbn; rewrite Hca; mrun; rewrite Hls; mrun;
    unfold ConnectedUser.cls; cbn; by destruct st.
Qed.

(** X25.  Room records and presence records survive [to_dict] and
    [from_dict]: when the timestamps come back from the float of seconds
    that [to_dict] writes, [from_dict (to_dict r)] returns [r], for a
    [ChatRoom] and for a [ConnectedUser]. *)
Theorem room_and_presence_records_round_trip
    (r : ChatRoom.t) (u : ConnectedUser.t) (w : world) :
  restored (ChatRoom.created_at r) ->
  restored (ConnectedUser.connected_at u) ->
  restored (ConnectedUser.last_seen u) ->
  ChatRoom.from_dict (ChatRoom.to_dict r) w = (Ret r, w)
  /\ ConnectedUser.from_dict (ConnectedUser.to_dict u) w = (Ret u, w).
Proof.
  intros Hr Hca Hls. split.
  - by apply ChatRoom_from_dict_to_dict.
  - by apply ConnectedUser_from_dict_to_dict.
Qed.

End MoreSerialization.

Section Invariant.
Context `{PyRuntime}.

(** X26.  The registry stays consistent: when every handle registered
    in a room is known to [connection_info] under its room and user id,
    that also holds after [connect] of a handle not known before, after
    [disconnect] of any handle and after [broadcast_to_dashboard], none
    of which gets stuck. *)
Theorem registry_stays_consistent
    websocket h dashboard_id user_id username message exclude w :
  registry_ok w ->
  PyDict.get websocket (connection_info w) = None ->
  wp (connect websocket dashboard_id user_id username) w
     (fun _ w' => registry_ok w')
  /\ wp (disconnect h) w (fun _ w' => registry_ok w')
  /\ wp (broadcast_to_dashboard dashboard_id message exclude) w
        (fun _ w' => registry_ok w').
Proof.
  intros Hok Hnew. split; [|split].
  - by apply connect_registry_ok.
  - by apply disconnect_registry_ok.
  - by apply keeps_broadcast.
Qed.


End Invariant.

(** ** The theorems at work in the scenarios *)

#[local] Existing Instance Sample.runtime.

Ltac evaluate := vm_compute; first [reflexivity | exact I | done].

Ltac store_ok := apply (bool_decide_unpack _); vm_compute; exact I.





Lemma disconnect_removes_whoever_holds_key_witness :
  PyDict.get 1%nat (connection_info Scenario.alice_twice)
  = Some (mkConn "room" "alice" "Alice")
  /\ PyDict.get "room" (active_connections Scenario.alice_twice)
     = Some [("alice", 2%nat)]
  /\ exists w',
       disconnect 1%nat Scenario.alice_twice = (Ret tt, w')
       /\ PyDict.get 1%nat (connection_info w') = None
       /\ forall conns' h',
            PyDict.get "room" (active_connections w') = Some conns' ->
            ("alice", h') ∉ conns'.
Proof.
  split; [evaluate|]. split; [evaluate|].
  apply (disconnect_removes_whoever_holds_key 1%nat (mkConn "room" "alice" "Alice")
           Scenario.alice_twice).
  evaluate.
Defined.

(** Alice connects twice; unregistering her first handle leaves the
    room without her second one, which [connection_info] still knows. *)
Lemma orphan_disconnect_drops_replacement :
  PyDict.get "room" (active_connections Scenario.alice_twice) = Some [("alice", 2%nat)]
  /\ PyDict.get 2%nat (connection_info Scenario.alice_twice)
     = Some (mkConn "room" "alice" "Alice")
  /\ (disconnect 1%nat Scenario.alice_twice).1 = Ret tt
  /\ PyDict.get "room" (active_connections (disconnect 1%nat Scenario.alice_twice).2)
     = None
  /\ PyDict.get 2%nat (connection_info (disconnect 1%nat Scenario.alice_twice).2)
     = Some (mkConn "room" "alice" "Alice")
  /\ (get_connected_users "room" (disconnect 1%nat Scenario.alice_twice).2).1 = Ret []
  /\ members (redis (disconnect 1%nat Scenario.alice_twice).2) "room" = ∅.
Proof. vm_compute. repeat split. Qed.


Lemma get_range_from_head_witness :
  get_messages_from_redis "room" 1 1 Scenario.three_notes
  = (Ret (resolve_messages "room"
            (take (Z.to_nat 1)
               (drop (Z.to_nat 1) (history (redis Scenario.three_notes) "room")))
            Scenario.three_notes).1,
     (resolve_messages "room"
        (take (Z.to_nat 1)
           (drop (Z.to_nat 1) (history (redis Scenario.three_notes) "room")))
        Scenario.three_notes).2)
  /\ (get_messages_from_redis "room" 1 1 Scenario.three_notes).1
     = Ret [Scenario.note "b"].
Proof.
  split; [|evaluate].
  apply (get_range_from_head "room" 1 1 Scenario.three_notes).
  - split; evaluate.
  - store_ok.
  - lia.
  - lia.
Defined.

(** Ten listed, two expired: eight deleted. *)
Lemma clear_returns_deleted_count_witness :
  length (history (redis Scenario.two_expired) "room") = 10%nat
  /\ Z.of_nat (size (listed_hashes (redis Scenario.two_expired) "room"
                       (history (redis Scenario.two_expired) "room"))) = 8
  /\ exists w',
       clear_all_messages "room" Scenario.two_expired
       = (Ret (Z.of_nat (size (listed_hashes (redis Scenario.two_expired) "room"
                                 (history (redis Scenario.two_expired) "room")))),
          w')
       /\ (forall i, i ∈ history (redis Scenario.two_expired) "room" ->
                     db (redis w') !! message_key "room" i = None)
       /\ db (redis w') !! ("messages:" +:+ "room") = None
       /\ forall limit skip,
            get_messages_from_redis "room" limit skip w' = (Ret [], w').
Proof.
  split; [evaluate|]. split; [evaluate|].
  apply (clear_returns_deleted_count "room" Scenario.two_expired).
  - split; evaluate.
  - store_ok.
Defined.





(** ** More scenarios: connections, Redis failures and the REST endpoints *)

Ltac all_open := apply room_open_none_closed; evaluate.


(** Alice leaves while Redis is down. *)
Lemma disconnect_while_redis_fails_witness :
  disconnect 1%nat (Scenario.redis_down 1 Scenario.two_users)
  = (Ret tt,
     set_log (log_records (Scenario.redis_down 1 Scenario.two_users)
                ++ [(ERROR, "Error updating disconnected user: ")])
       (set_faults []
          (unregistered 1%nat (mkConn "room" "alice" "Alice")
             (Scenario.redis_down 1 Scenario.two_users)))).
Proof.
  apply (disconnect_while_redis_fails 1%nat (mkConn "room" "alice" "Alice") []
           (Scenario.redis_down 1 Scenario.two_users)); evaluate.
Defined.

(** Carol joins Alice and Bob: three connections. *)
Lemma connect_registers_whatever_redis_does_witness :
  exists w',
    connect 3%nat "room" "carol" "Carol" Scenario.two_users = (Ret tt, w')
    /\ active_connections w'
       = PyDict.set "room"
           (PyDict.set "carol" 3%nat (room_connections "room" Scenario.two_users))
           (active_connections Scenario.two_users)
    /\ connection_info w'
       = PyDict.set 3%nat Scenario.carol (connection_info Scenario.two_users)
    /\ get_connection_count "room" w'
       = (Ret (if PyDict.contains "carol" (room_connections "room" Scenario.two_users)
               then Z.of_nat (length (room_connections "room" Scenario.two_users))
               else Z.of_nat (length (room_connections "room" Scenario.two_users)) + 1),
          w').
Proof.
  apply (connect_registers_whatever_redis_does 3%nat "room" "carol" "Carol"
           Scenario.two_users); [store_ok | all_open].
Defined.



(** A frame of type "ping". *)
Lemma unknown_frame_is_ignored_witness :
  handle_frame (H := Scenario.more_frames) "room" "alice" "Alice" Scenario.ping
    Scenario.two_users
  = (Ret tt,
     set_log (log_records Scenario.two_users ++
                [ (INFO, "Received WebSocket data: ");
                  (INFO, "Parsed message data: ");
                  (WARNING, "Unknown message type: ");
                  (INFO, "Message loop iteration completed, continuing...") ])
       Scenario.two_users).
Proof.
  apply (unknown_frame_is_ignored (H := Scenario.more_frames) "room" "alice" "Alice"
           Scenario.ping [("type", PStr "ping")] Scenario.two_users);
    reflexivity.
Defined.




(** The first note of a room. *)
Lemma save_message_writes_two_keys_witness :
  exists w',
    save_message_to_redis (Scenario.note "a") Scenario.busy_room = (Ret tt, w')
    /\ (forall k, k <> message_key "room" "a" -> k <> "messages:" +:+ "room" ->
          db (redis w') !! k = db (redis Scenario.busy_room) !! k
          /\ ttl (redis w') !! k = ttl (redis Scenario.busy_room) !! k)
    /\ ttl (redis w') !! message_key "room" "a" = Some (30 * 24 * 60 * 60)
    /\ (1 <= message_history_limit (settings Scenario.busy_room) ->
        ttl (redis w') !! ("messages:" +:+ "room")
        = ttl (redis Scenario.busy_room) !! ("messages:" +:+ "room"))
    /\ sent w' = sent Scenario.busy_room
    /\ active_connections w' = active_connections Scenario.busy_room
    /\ connection_info w' = connection_info Scenario.busy_room.
Proof.
  apply (save_message_writes_two_keys (Scenario.note "a") Scenario.busy_room);
    [split; evaluate | store_ok].
Defined.



(** A limit of -1 on three notes: the two oldest. *)
Lemma nonpositive_limit_reads_up_to_the_tail_witness :
  get_messages "room" (-1) 0 Scenario.three_notes
  = (Ret (message_response <$>
            (resolve_messages "room"
               (take (length (history (redis Scenario.three_notes) "room")
                      - Z.to_nat (- -1))
                  (history (redis Scenario.three_notes) "room"))
               Scenario.three_notes).1),
     (resolve_messages "room"
        (take (length (history (redis Scenario.three_notes) "room")
               - Z.to_nat (- -1))
           (history (redis Scenario.three_notes) "room"))
        Scenario.three_notes).2)
  /\ (get_messages "room" (-1) 0 Scenario.three_notes).1
     = Ret (message_response <$> [Scenario.note "a"; Scenario.note "b"]).
Proof.
  split; [|evaluate].
  apply (nonpositive_limit_reads_up_to_the_tail "room" (-1) Scenario.three_notes);
    [split; evaluate | store_ok | lia].
Defined.

(** The room of a dashboard nobody asked about before. *)
Lemma unknown_room_is_created_for_good_witness :
  exists w',
    get_room_info "room" Scenario.two_users
    = (Ret (room_response (default_room "room" Scenario.two_users)
              (present "room" Scenario.two_users)), w')
    /\ hash_at (redis w') ("room:" +:+ "room") !! "id"
       = Some (uuid4_str (uuid_drawn Scenario.two_users))
    /\ hash_at (redis w') ("room:" +:+ "room") !! "is_active" = Some "1"
    /\ ttl (redis w') !! ("room:" +:+ "room")
       = ttl (redis Scenario.two_users) !! ("room:" +:+ "room")
    /\ uuid_drawn w' = S (uuid_drawn Scenario.two_users).
Proof.
  apply (unknown_room_is_created_for_good "room" Scenario.two_users);
    [split; evaluate | store_ok | evaluate].
Defined.

Lemma room_is_created_once_witness :
  exists r1 w1 r2 w2,
    get_room_info "room" Scenario.two_users = (Ret r1, w1)
    /\ get_room_info "room" w1 = (Ret r2, w2)
    /\ RoomResponse.id r2 = RoomResponse.id r1
    /\ RoomResponse.name r2 = RoomResponse.name r1
    /\ RoomResponse.created_by r2 = RoomResponse.created_by r1
    /\ RoomResponse.is_active r2 = true
    /\ RoomResponse.connected_users r2 = RoomResponse.connected_users r1
    /\ redis w2 = redis w1
    /\ uuid_drawn w2 = uuid_drawn w1.
Proof.
  apply (room_is_created_once "room" Scenario.two_users);
    [ split; evaluate | store_ok | evaluate
    | eexists; vm_compute; reflexivity | eexists; vm_compute; reflexivity ].
Defined.

(** Carol comes and goes. *)
Lemma connect_then_disconnect_restores_registry_witness :
  exists w1 w2,
    connect 3%nat "room" "carol" "Carol" Scenario.two_users = (Ret tt, w1)
    /\ disconnect 3%nat w1 = (Ret tt, w2)
    /\ active_connections w2 = active_connections Scenario.two_users
    /\ connection_info w2 = connection_info Scenario.two_users.
Proof.
  apply (connect_then_disconnect_restores_registry 3%nat "room" "carol" "Carol"
           Scenario.two_users);
    [ store_ok | all_open | evaluate | evaluate | vm_compute; discriminate ].
Defined.

(** Alice connects while Redis is down: closed, and still registered. *)
Lemma endpoint_leaves_connection_registered_when_redis_is_down_witness :
  exists w',
    websocket_endpoint 1%nat "room" "alice" "Alice" [RecvText Sample.chat_hi]
      (Scenario.redis_down 2 Sample.start)
    = (Ret Terminated, w')
    /\ 1%nat ∈ closed w'
    /\ PyDict.get 1%nat (connection_info w') = Some (mkConn "room" "alice" "Alice")
    /\ ("alice", 1%nat) ∈ room_connections "room" w'
    /\ sent w' = sent (Scenario.redis_down 2 Sample.start).
Proof.
  apply (endpoint_leaves_connection_registered_when_redis_is_down 1%nat "room"
           "alice" "Alice" [RecvText Sample.chat_hi] []
           (Scenario.redis_down 2 Sample.start));
    [ discriminate | discriminate | store_ok | evaluate | evaluate ].
Defined.

(** The first note of a room, saved and read. *)
Lemma saved_message_is_read_back_witness :
  exists w1,
    save_message_to_redis (Scenario.note "a") Sample.start = (Ret tt, w1)
    /\ get_messages_from_redis "room" 1
         (Z.of_nat (length (history (redis Sample.start) "room"))) w1
       = (Ret [Scenario.note "a"], w1).
Proof.
  apply (saved_message_is_read_back (Scenario.note "a") 1700000000000000
           Sample.start);
    [ split; evaluate | store_ok | evaluate | evaluate
    | vm_compute; discriminate | reflexivity | evaluate ].
Defined.

Lemma room_and_presence_records_round_trip_witness :
  ChatRoom.from_dict (ChatRoom.to_dict Scenario.room) Sample.start
  = (Ret Scenario.room, Sample.start)
  /\ ConnectedUser.from_dict (ConnectedUser.to_dict Scenario.alice) Sample.start
     = (Ret Scenario.alice, Sample.start).
Proof.
  apply (room_and_presence_records_round_trip Scenario.room Scenario.alice
           Sample.start); evaluate.
Defined.

Lemma registry_stays_consistent_witness :
  wp (connect 3%nat "room" "carol" "Carol") Scenario.bob_closed
     (fun _ w' => registry_ok w')
  /\ wp (disconnect 1%nat) Scenario.bob_closed (fun _ w' => registry_ok w')
  /\ wp (broadcast_to_dashboard "room" "ping" None) Scenario.bob_closed
        (fun _ w' => registry_ok w').
Proof.
  apply (registry_stays_consistent 3%nat 1%nat "room" "carol" "Carol" "ping" None
           Scenario.bob_closed); [apply registry_okb_ok; evaluate | evaluate].
Defined.

